(** * Task-Management-API: authentication slice and task lifecycle

    A shallow embedding of the Go sources of the Task Management API
    (packages Domain, Repository, Usecases, Infrastructure and
    Delivery/controllers) together with the properties of its
    authentication/authorization slice and of the task status rule.

    Go values are modelled as follows.
    - [string] is a sequence of bytes: Rocq's [string].
    - a pointer [*T] is an [option T]; [nil] is [None]; reading a field
      through a nil pointer panics.
    - [error] is an [option] of an error value; [nil] is [None].
    - a function with effects is a function of the [World], which holds the
      wall clock, the MongoDB collections and the record of the driver calls.
      A computation returns normally ([Ret]) or panics ([Panic]). *)

From Stdlib Require Import ZArith NArith String Ascii List Lia Bool Decimal DecimalString DecimalZ DecimalFacts DecimalPos ZifyBool.
From stdpp Require Import base option strings gmap.
Import ListNotations.
Open Scope string_scope.
Open Scope Z_scope.

(** ** Basic Go types *)

(** [primitive.ObjectID] is a [12]byte array. *)
Definition ObjectID := string.

Definition zero_byte : ascii := Ascii.zero.

Definition NilObjectID : ObjectID :=
  String.string_of_list_ascii (List.repeat zero_byte 12).

(** [time.Time] as an instant: nanoseconds since the Unix epoch. *)
Definition Time := Z.

Definition Duration := Z.
Definition Nanosecond : Duration := 1.
Definition Second : Duration := 1000000000.
Definition Hour : Duration := 3600 * Second.

Definition Before (t u : Time) : bool := t <? u.
Definition Add (t : Time) (d : Duration) : Time := t + d.

(** [t.Unix()]: whole seconds since the epoch. *)
Definition Unix (t : Time) : Z := t / Second.

Definition Millisecond : Duration := 1000000.

(** A [time.Time] after a round trip through the store: the driver writes
    it as a BSON DateTime, the whole milliseconds since the epoch, and reads
    that back. *)
Definition bson_DateTime (t : Time) : Time := t / Millisecond * Millisecond.

(** Error values. [mongo.ErrNoDocuments] is a sentinel compared by
    identity; [errors.New] builds a fresh error from its text; [ErrDriver]
    stands for any other failure of the MongoDB driver (network, context
    cancelled, write exception). The remaining constructors are the errors
    of the token library. *)
Inductive error_value : Type :=
| ErrNoDocuments
| errors_New (msg : string)
| ErrDriver (msg : string)
| ValidationError (msg : string) (flags : Z).

Definition error := option error_value.

(** [err.Error()] *)
Definition Error (e : error_value) : string :=
  match e with
  | ErrNoDocuments => "mongo: no documents in result"
  | errors_New msg => msg
  | ErrDriver msg => msg
  | ValidationError msg _ => msg
  end.

Definition is_ErrNoDocuments (e : error_value) : bool :=
  match e with ErrNoDocuments => true | _ => false end.

(** [context.Context]; the interface value may be nil. *)
Inductive Context : Type := ctx_nil | ctx_Background.

(** ** Package Domain *)

Module Domain.

Definition UserCollection := "users".
Definition RoleUser := "user".
Definition RoleAdmin := "admin".

Definition TaskCollection := "tasks".
Definition StatusPending := "pending".
Definition StatusInProgress := "in_progress".
Definition StatusCompleted := "completed".

Module User.
Record t : Type := mk {
  ID : ObjectID;
  Name : string;
  Email : string;
  Password : string;
  Role : string;
  CreatedAt : Time;
  UpdatedAt : Time
}.
Definition zero : t := mk NilObjectID "" "" "" "" 0 0.
Definition with_ID (v : ObjectID) (u : t) : t :=
  mk v (Name u) (Email u) (Password u) (Role u) (CreatedAt u) (UpdatedAt u).
Definition with_Password (v : string) (u : t) : t :=
  mk (ID u) (Name u) (Email u) v (Role u) (CreatedAt u) (UpdatedAt u).
Definition with_CreatedAt (v : Time) (u : t) : t :=
  mk (ID u) (Name u) (Email u) (Password u) (Role u) v (UpdatedAt u).
Definition with_UpdatedAt (v : Time) (u : t) : t :=
  mk (ID u) (Name u) (Email u) (Password u) (Role u) (CreatedAt u) v.

(** The user as the store keeps it: the time fields in whole milliseconds. *)
Definition bson (u : t) : t :=
  mk (ID u) (Name u) (Email u) (Password u) (Role u)
     (bson_DateTime (CreatedAt u)) (bson_DateTime (UpdatedAt u)).
End User.

Module Task.
Record t : Type := mk {
  ID : ObjectID;
  Title : string;
  Description : string;
  DueDate : Time;
  Status : string;
  UserID : ObjectID;
  CreatedAt : Time;
  UpdatedAt : Time
}.
Definition zero : t := mk NilObjectID "" "" 0 "" NilObjectID 0 0.
Definition with_ID (v : ObjectID) (x : t) : t :=
  mk v (Title x) (Description x) (DueDate x) (Status x) (UserID x)
     (CreatedAt x) (UpdatedAt x).
Definition with_Status (v : string) (x : t) : t :=
  mk (ID x) (Title x) (Description x) (DueDate x) v (UserID x)
     (CreatedAt x) (UpdatedAt x).
Definition with_UserID (v : ObjectID) (x : t) : t :=
  mk (ID x) (Title x) (Description x) (DueDate x) (Status x) v
     (CreatedAt x) (UpdatedAt x).
Definition with_CreatedAt (v : Time) (x : t) : t :=
  mk (ID x) (Title x) (Description x) (DueDate x) (Status x) (UserID x)
     v (UpdatedAt x).
Definition with_UpdatedAt (v : Time) (x : t) : t :=
  mk (ID x) (Title x) (Description x) (DueDate x) (Status x) (UserID x)
     (CreatedAt x) v.

(** The task as the store keeps it: the time fields in whole milliseconds. *)
Definition bson (x : t) : t :=
  mk (ID x) (Title x) (Description x) (bson_DateTime (DueDate x)) (Status x)
     (UserID x) (bson_DateTime (CreatedAt x)) (bson_DateTime (UpdatedAt x)).
End Task.

End Domain.
Import Domain.

(** ** Values of interface type

    [interface{}] values that occur in the program: the values of a
    [bson.M] filter, [InsertOneResult.InsertedID], and the values stored in
    [gin.Context.Keys]. *)
Module Infrastructure_types.
(** [infrastructure.Claims] with the fields of the embedded
    [jwt.StandardClaims]. *)
Record Claims : Type := mkClaims {
  UserID : string;
  Role : string;
  Audience : string;
  ExpiresAt : Z;
  Id : string;
  IssuedAt : Z;
  Issuer : string;
  NotBefore : Z;
  Subject : string
}.
End Infrastructure_types.
Export Infrastructure_types.

Inductive any : Type :=
| any_nil
| any_string (s : string)
| any_ObjectID (o : ObjectID)
| any_Time (t : Time)
| any_Claims (c : option Claims).

(** [v == "..."] for an interface value and a string constant: true when
    the dynamic type is string and the contents agree. *)
Definition any_eq_string (v : any) (s : string) : bool :=
  match v with
  | any_string s' => String.eqb s' s
  | _ => false
  end.

Definition any_eqb (a b : any) : bool :=
  match a, b with
  | any_nil, any_nil => true
  | any_string x, any_string y => String.eqb x y
  | any_ObjectID x, any_ObjectID y => String.eqb x y
  | any_Time x, any_Time y => Z.eqb x y
  | _, _ => false
  end.

(** ** The world: clock and document store *)

(** [bson.M] filters, as the list of their entries. *)
Definition bson_M := list (string * any).

(** What a struct must offer to be stored as a document. *)
Class Document (D : Type) : Type := {
  doc_zero : D;
  doc_id : D -> ObjectID;
  doc_with_id : ObjectID -> D -> D;
  (* the struct after marshalling to BSON and back *)
  doc_bson : D -> D;
  (* the value of the bson field of that name *)
  doc_field : string -> D -> option any
}.

#[global] Instance Task_Document : Document Task.t := {
  doc_zero := Task.zero;
  doc_id := Task.ID;
  doc_with_id := Task.with_ID;
  doc_bson := Task.bson;
  doc_field name x :=
    if String.eqb name "_id" then Some (any_ObjectID (Task.ID x))
    else if String.eqb name "title" then Some (any_string (Task.Title x))
    else if String.eqb name "description" then Some (any_string (Task.Description x))
    else if String.eqb name "due_date" then Some (any_Time (Task.DueDate x))
    else if String.eqb name "status" then Some (any_string (Task.Status x))
    else if String.eqb name "user_id" then Some (any_ObjectID (Task.UserID x))
    else if String.eqb name "created_at" then Some (any_Time (Task.CreatedAt x))
    else if String.eqb name "updated_at" then Some (any_Time (Task.UpdatedAt x))
    else None
}.

#[global] Instance User_Document : Document User.t := {
  doc_zero := User.zero;
  doc_id := User.ID;
  doc_with_id := User.with_ID;
  doc_bson := User.bson;
  doc_field name x :=
    if String.eqb name "_id" then Some (any_ObjectID (User.ID x))
    else if String.eqb name "name" then Some (any_string (User.Name x))
    else if String.eqb name "email" then Some (any_string (User.Email x))
    else if String.eqb name "password" then Some (any_string (User.Password x))
    else if String.eqb name "role" then Some (any_string (User.Role x))
    else if String.eqb name "created_at" then Some (any_Time (User.CreatedAt x))
    else if String.eqb name "updated_at" then Some (any_Time (User.UpdatedAt x))
    else None
}.

(** A call received by a collection of the driver. *)
Inductive Call (D : Type) : Type :=
| CallInsertOne (doc : D)
| CallFindOne (filter : bson_M)
| CallFind (filter : bson_M)
| CallUpdateOne (filter : bson_M) (set : D)
| CallDeleteOne (filter : bson_M).
Arguments CallInsertOne {D} doc.
Arguments CallFindOne {D} filter.
Arguments CallFind {D} filter.
Arguments CallUpdateOne {D} filter set.
Arguments CallDeleteOne {D} filter.

(** The state of one MongoDB collection: its documents in insertion order
    and the calls it has received, oldest first. *)
Record Collection (D : Type) : Type := mkCollection {
  docs : list D;
  calls : list (Call D)
}.
Arguments mkCollection {D} docs calls.
Arguments docs {D} c.
Arguments calls {D} c.

Record World : Type := mkWorld {
  (* the successive readings of [time.Now()] and how many were taken *)
  clock : nat -> Time;
  reads : nat;
  (* the identifiers [primitive.NewObjectID()] will return, and how many
     were taken *)
  fresh_ids : nat -> ObjectID;
  ids_taken : nat;
  (* [Some e] when the server cannot be reached: every driver call then
     fails with [e] *)
  fault : option error_value;
  tasks : Collection Task.t;
  users : Collection User.t
}.

(** ** Computations *)

Inductive outcome (A : Type) : Type :=
| Ret (a : A)
| Panic (msg : string).
Arguments Ret {A} a.
Arguments Panic {A} msg.

Definition Go (A : Type) : Type := World -> outcome A * World.

Definition ret {A} (a : A) : Go A := fun w => (Ret a, w).

Definition bind {A B} (m : Go A) (k : A -> Go B) : Go B :=
  fun w =>
    match m w with
    | (Ret a, w') => k a w'
    | (Panic msg, w') => (Panic msg, w')
    end.

Definition panic {A} (msg : string) : Go A := fun w => (Panic msg, w).

Notation "'let*' x ':=' m 'in' k" := (bind m (fun x => k))
  (at level 10, x pattern, m at level 200, k at level 200, only parsing).

Definition nil_dereference : string :=
  "runtime error: invalid memory address or nil pointer dereference".

(** Reading through a pointer. *)
Definition deref {A} (p : option A) : Go A :=
  match p with
  | Some a => ret a
  | None => panic nil_dereference
  end.

(** [time.Now()] *)
Definition time_Now : Go Time :=
  fun w =>
    (Ret (clock w (reads w)),
     mkWorld (clock w) (S (reads w)) (fresh_ids w) (ids_taken w) (fault w)
             (tasks w) (users w)).

(** [primitive.NewObjectID()] *)
Definition NewObjectID : Go ObjectID :=
  fun w =>
    (Ret (fresh_ids w (ids_taken w)),
     mkWorld (clock w) (reads w) (fresh_ids w) (S (ids_taken w)) (fault w)
             (tasks w) (users w)).

(** ** The MongoDB driver

    [*mongo.Collection] over the collection a handle selects from the
    world. Every call is recorded. A call fails with the world's [fault]
    when the server cannot be reached. *)

Record InsertOneResult : Type := { InsertedID : any }.
Record UpdateResult : Type := { MatchedCount : Z; ModifiedCount : Z }.
Record DeleteResult : Type := { DeletedCount : Z }.

(** [*mongo.SingleResult]: the document found, or the error [Decode] will
    report. *)
Record SingleResult (D : Type) : Type := mkSingleResult {
  sr_doc : option D;
  sr_err : error
}.
Arguments mkSingleResult {D} sr_doc sr_err.
Arguments sr_doc {D} s.
Arguments sr_err {D} s.

(** [*mongo.Cursor] over the documents of a result set. *)
Record Cursor (D : Type) : Type := mkCursor { cur_docs : list D }.
Arguments mkCursor {D} cur_docs.
Arguments cur_docs {D} c.

(** The update document [bson.M{"$set": v}]. *)
Inductive bson_update (D : Type) : Type := bson_set (v : D).
Arguments bson_set {D} v.

Record Handle (D : Type) : Type := mkHandle {
  coll_get : World -> Collection D;
  coll_set : Collection D -> World -> World
}.
Arguments coll_get {D} h w.
Arguments coll_set {D} h c w.

Definition set_tasks (c : Collection Task.t) (w : World) : World :=
  mkWorld (clock w) (reads w) (fresh_ids w) (ids_taken w) (fault w) c (users w).

Definition set_users (c : Collection User.t) (w : World) : World :=
  mkWorld (clock w) (reads w) (fresh_ids w) (ids_taken w) (fault w) (tasks w) c.

(** [db.Collection(domain.TaskCollection)], [db.Collection(domain.UserCollection)] *)
Definition tasks_handle : Handle Task.t := mkHandle Task.t tasks set_tasks.
Definition users_handle : Handle User.t := mkHandle User.t users set_users.

Module mongo.
Section Collection.
Context {D : Type} `{Document D} (h : Handle D).

(** A document satisfies a filter when each entry equals the document's
    field of that name. *)
Definition matches (filter : bson_M) (d : D) : bool :=
  forallb
    (fun kv => match doc_field (fst kv) d with
               | Some v => any_eqb v (snd kv)
               | None => false
               end)
    filter.

Definition record (c : Call D) : Go unit :=
  fun w =>
    let st := coll_get h w in
    (Ret tt, coll_set h (mkCollection (docs st) (calls st ++ [c])) w).

Definition get_docs : Go (list D) := fun w => (Ret (docs (coll_get h w)), w).

Definition put_docs (ds : list D) : Go unit :=
  fun w => (Ret tt, coll_set h (mkCollection ds (calls (coll_get h w))) w).

Definition get_fault : Go (option error_value) := fun w => (Ret (fault w), w).

Definition has_id (id : ObjectID) (ds : list D) : bool :=
  existsb (fun d => String.eqb (doc_id d) id) ds.

(** The first document satisfying the filter is replaced by [f] of it. *)
Fixpoint update_first (filter : bson_M) (f : D -> D) (ds : list D)
  : option (list D) :=
  match ds with
  | [] => None
  | d :: rest =>
      if matches filter d then Some (f d :: rest)
      else match update_first filter f rest with
           | Some rest' => Some (d :: rest')
           | None => None
           end
  end.

Fixpoint delete_first (filter : bson_M) (ds : list D) : option (list D) :=
  match ds with
  | [] => None
  | d :: rest =>
      if matches filter d then Some rest
      else match delete_first filter rest with
           | Some rest' => Some (d :: rest')
           | None => None
           end
  end.

(** [InsertOne]: a document whose [_id] is the zero value (omitted by
    [omitempty]) is given a fresh identifier; [_id] is unique. What is
    stored is the BSON form of the struct. *)
Definition InsertOne (ctx : Context) (document : D)
  : Go (option InsertOneResult * error) :=
  let* _ := record (CallInsertOne document) in
  let* f := get_fault in
  match f with
  | Some e => ret (None, Some e)
  | None =>
      let* id := (if String.eqb (doc_id document) NilObjectID
                  then NewObjectID else ret (doc_id document)) in
      let* ds := get_docs in
      if has_id id ds
      then ret (None, Some (ErrDriver "E11000 duplicate key error"))
      else
        let* _ := put_docs (ds ++ [doc_bson (doc_with_id id document)]) in
        ret (Some {| InsertedID := any_ObjectID id |}, None)
  end.

Definition FindOne (ctx : Context) (filter : bson_M) : Go (SingleResult D) :=
  let* _ := record (CallFindOne filter) in
  let* f := get_fault in
  match f with
  | Some e => ret (mkSingleResult None (Some e))
  | None =>
      let* ds := get_docs in
      match List.find (matches filter) ds with
      | Some d => ret (mkSingleResult (Some d) None)
      | None => ret (mkSingleResult None (Some ErrNoDocuments))
      end
  end.

Definition Find (ctx : Context) (filter : bson_M)
  : Go (option (Cursor D) * error) :=
  let* _ := record (CallFind filter) in
  let* f := get_fault in
  match f with
  | Some e => ret (None, Some e)
  | None =>
      let* ds := get_docs in
      ret (Some (mkCursor (List.filter (matches filter) ds)), None)
  end.

(** [UpdateOne] with [$set] of a whole struct: every field of the first
    matching document is overwritten with the BSON form of the struct's,
    its [_id] stays. *)
Definition UpdateOne (ctx : Context) (filter : bson_M) (update : bson_update D)
  : Go (option UpdateResult * error) :=
  match update with
  | bson_set v =>
      let* _ := record (CallUpdateOne filter v) in
      let* f := get_fault in
      match f with
      | Some e => ret (None, Some e)
      | None =>
          let* ds := get_docs in
          match update_first filter (fun d => doc_with_id (doc_id d) (doc_bson v)) ds with
          | Some ds' =>
              let* _ := put_docs ds' in
              ret (Some {| MatchedCount := 1; ModifiedCount := 1 |}, None)
          | None => ret (Some {| MatchedCount := 0; ModifiedCount := 0 |}, None)
          end
      end
  end.

Definition DeleteOne (ctx : Context) (filter : bson_M)
  : Go (option DeleteResult * error) :=
  let* _ := record (CallDeleteOne filter) in
  let* f := get_fault in
  match f with
  | Some e => ret (None, Some e)
  | None =>
      let* ds := get_docs in
      match delete_first filter ds with
      | Some ds' =>
          let* _ := put_docs ds' in
          ret (Some {| DeletedCount := 1 |}, None)
      | None => ret (Some {| DeletedCount := 0 |}, None)
      end
  end.
End Collection.

(** [SingleResult.Decode(&v)]: the error of the result, or the document
    written into [v]. *)
Definition Decode {D : Type} (sr : SingleResult D) (v : D) : D * error :=
  match sr_err sr with
  | Some e => (v, Some e)
  | None =>
      match sr_doc sr with
      | Some d => (d, None)
      | None => (v, Some ErrNoDocuments)
      end
  end.

(** [Cursor.All(ctx, &results)] and [Cursor.Close(ctx)] *)
Definition All {D : Type} (c : Cursor D) (ctx : Context) : list D * error :=
  (cur_docs c, None).
Definition Close {D : Type} (c : Cursor D) (ctx : Context) : error := None.
End mongo.

(** ** Interfaces of package Domain *)

(** [domain.TaskRepository] *)
Module TaskRepository.
Record t : Type := mk {
Create : Context -> Task.t -> Go (option Task.t * error);
GetByID : Context -> ObjectID -> Go (option Task.t * error);
GetByUserID : Context -> ObjectID -> Go (list Task.t * error);
GetAll : Context -> Go (list Task.t * error);
Update : Context -> Task.t -> Go error;
Delete : Context -> ObjectID -> Go error
}.
End TaskRepository.

(** [domain.UserRepository] *)
Module UserRepository.
Record t : Type := mk {
Create : Context -> User.t -> Go (option User.t * error);
GetByID : Context -> ObjectID -> Go (option User.t * error);
GetByEmail : Context -> string -> Go (option User.t * error);
GetAll : Context -> Go (list User.t * error);
Update : Context -> User.t -> Go error;
Delete : Context -> ObjectID -> Go error
}.
End UserRepository.

(** ** Package repository *)

Module Repository.

(** [CollectionInterface] abstracts MongoDB collection operations. *)
Module CollectionInterface.
Record t (D : Type) : Type := mk {
  InsertOne : Context -> D -> Go (option InsertOneResult * error);
  FindOne : Context -> bson_M -> Go (SingleResult D);
  Find : Context -> bson_M -> Go (option (Cursor D) * error);
  UpdateOne : Context -> bson_M -> bson_update D -> Go (option UpdateResult * error);
  DeleteOne : Context -> bson_M -> Go (option DeleteResult * error)
}.
Arguments mk {D}.
Arguments InsertOne {D} _ _ _.
Arguments FindOne {D} _ _ _.
Arguments Find {D} _ _ _.
Arguments UpdateOne {D} _ _ _ _.
Arguments DeleteOne {D} _ _ _.
End CollectionInterface.

(** [MongoCollectionWrapper] forwards each method to the collection. *)
Definition MongoCollectionWrapper {D : Type} `{Document D} (collection : Handle D)
  : CollectionInterface.t D :=
  CollectionInterface.mk
    (mongo.InsertOne collection)
    (mongo.FindOne collection)
    (mongo.Find collection)
    (mongo.UpdateOne collection)
    (mongo.DeleteOne collection).

Module taskRepository.
Section methods.
Variable collection : CollectionInterface.t Task.t.

Definition Create (ctx : Context) (task : Task.t) : Go (option Task.t * error) :=
  match ctx with
  | ctx_nil => ret (None, Some (errors_New "context cannot be nil"))
  | _ =>
      let* now := time_Now in
      let task := Task.with_CreatedAt now task in
      let* now := time_Now in
      let task := Task.with_UpdatedAt now task in
      let* (result, err) := CollectionInterface.InsertOne collection ctx task in
      match err with
      | Some e => ret (None, Some e)
      | None =>
          let* result := deref result in
          match InsertedID result with
          | any_ObjectID id => ret (Some (Task.with_ID id task), None)
          | _ => ret (None, Some (errors_New "failed to parse inserted ID as ObjectID"))
          end
      end
  end.

Definition GetByID (ctx : Context) (id : ObjectID) : Go (option Task.t * error) :=
  let task := Task.zero in
  let* sr := CollectionInterface.FindOne collection ctx [("_id", any_ObjectID id)] in
  let (task, err) := mongo.Decode sr task in
  match err with
  | Some e =>
      if is_ErrNoDocuments e
      then ret (None, None) (* Return nil if no document is found *)
      else ret (None, Some e)
  | None => ret (Some task, None)
  end.

Definition GetByUserID (ctx : Context) (userID : ObjectID) : Go (list Task.t * error) :=
  let* (cursor, err) := CollectionInterface.Find collection ctx [("user_id", any_ObjectID userID)] in
  match err with
  | Some e => ret ([], Some e)
  | None =>
      let* cursor := deref cursor in
      let (tasks, err) := mongo.All cursor ctx in
      match err with
      | Some e => ret ([], Some e)
      | None => ret (tasks, None)
      end
  end.

Definition GetAll (ctx : Context) : Go (list Task.t * error) :=
  let* (cursor, err) := CollectionInterface.Find collection ctx [] in
  match err with
  | Some e => ret ([], Some e)
  | None =>
      let* cursor := deref cursor in
      let (tasks, err) := mongo.All cursor ctx in
      match err with
      | Some e => ret ([], Some e)
      | None => ret (tasks, None)
      end
  end.

Definition Update (ctx : Context) (task : Task.t) : Go error :=
  let* now := time_Now in
  let task := Task.with_UpdatedAt now task in
  let* (result, err) :=
    CollectionInterface.UpdateOne collection ctx
      [("_id", any_ObjectID (Task.ID task))] (bson_set task) in
  match err with
  | Some e => ret (Some e)
  | None =>
      let* result := deref result in
      if MatchedCount result =? 0
      then ret (Some (errors_New "no document found to update"))
      else ret None
  end.

Definition Delete (ctx : Context) (id : ObjectID) : Go error :=
  let* (result, err) :=
    CollectionInterface.DeleteOne collection ctx [("_id", any_ObjectID id)] in
  match err with
  | Some e => ret (Some e)
  | None =>
      let* result := deref result in
      if DeletedCount result =? 0
      then ret (Some ErrNoDocuments)
      else ret None
  end.
End methods.
End taskRepository.

(** [NewTaskRepository(db)] *)
Definition NewTaskRepository : TaskRepository.t :=
  let collection := MongoCollectionWrapper tasks_handle in
  TaskRepository.mk
    (taskRepository.Create collection)
    (taskRepository.GetByID collection)
    (taskRepository.GetByUserID collection)
    (taskRepository.GetAll collection)
    (taskRepository.Update collection)
    (taskRepository.Delete collection).

Module userRepository.
Section methods.
Variable collection : Handle User.t.

Definition Create (ctx : Context) (user : User.t) : Go (option User.t * error) :=
  let* now := time_Now in
  let user := User.with_CreatedAt now user in
  let* now := time_Now in
  let user := User.with_UpdatedAt now user in
  let* (result, err) := mongo.InsertOne collection ctx user in
  match err with
  | Some e => ret (None, Some e)
  | None =>
      let* result := deref result in
      match InsertedID result with
      | any_ObjectID id => ret (Some (User.with_ID id user), None)
      | _ => ret (None, Some (errors_New "failed to parse inserted ID as ObjectID"))
      end
  end.

Definition GetByID (ctx : Context) (id : ObjectID) : Go (option User.t * error) :=
  let user := User.zero in
  let* sr := mongo.FindOne collection ctx [("_id", any_ObjectID id)] in
  let (user, err) := mongo.Decode sr user in
  match err with
  | Some e =>
      if is_ErrNoDocuments e
      then ret (None, None) (* Return nil if no document is found *)
      else ret (None, Some e)
  | None => ret (Some user, None)
  end.

Definition GetByEmail (ctx : Context) (email : string) : Go (option User.t * error) :=
  let user := User.zero in
  let* sr := mongo.FindOne collection ctx [("email", any_string email)] in
  let (user, err) := mongo.Decode sr user in
  match err with
  | Some e =>
      if is_ErrNoDocuments e
      then ret (None, None) (* Return nil if no document is found *)
      else ret (None, Some e)
  | None => ret (Some user, None)
  end.

Definition GetAll (ctx : Context) : Go (list User.t * error) :=
  let* (cursor, err) := mongo.Find collection ctx [] in
  match err with
  | Some e => ret ([], Some e)
  | None =>
      let* cursor := deref cursor in
      let (users, err) := mongo.All cursor ctx in
      match err with
      | Some e => ret ([], Some e)
      | None => ret (users, None)
      end
  end.

Definition Update (ctx : Context) (user : User.t) : Go error :=
  let* now := time_Now in
  let user := User.with_UpdatedAt now user in
  let* (result, err) :=
    mongo.UpdateOne collection ctx
      [("_id", any_ObjectID (User.ID user))] (bson_set user) in
  match err with
  | Some e => ret (Some e)
  | None =>
      let* result := deref result in
      if MatchedCount result =? 0
      then ret (Some ErrNoDocuments)
      else ret None
  end.

Definition Delete (ctx : Context) (id : ObjectID) : Go error :=
  let* (_, err) := mongo.DeleteOne collection ctx [("_id", any_ObjectID id)] in
  ret err.
End methods.
End userRepository.

(** [NewUserRepository(db)] *)
Definition NewUserRepository : UserRepository.t :=
  UserRepository.mk
    (userRepository.Create users_handle)
    (userRepository.GetByID users_handle)
    (userRepository.GetByEmail users_handle)
    (userRepository.GetAll users_handle)
    (userRepository.Update users_handle)
    (userRepository.Delete users_handle).

End Repository.

(** ** Package Usecases *)

Module Usecases.

Module taskUseCase.
Section methods.
Variable taskRepo : TaskRepository.t.

Definition CreateTask (ctx : Context) (task : Task.t) : Go (option Task.t * error) :=
  (* Validate task *)
  if String.eqb (Task.Title task) "" then
    ret (None, Some (errors_New "task title is required"))
  else
    let* now := time_Now in
    if Before (Task.DueDate task) now then
      ret (None, Some (errors_New "due date cannot be in the past"))
    else
      (* Set initial status *)
      let task := Task.with_Status StatusPending task in
      TaskRepository.Create taskRepo ctx task.

Definition GetTaskByID (ctx : Context) (id : ObjectID) : Go (option Task.t * error) :=
  TaskRepository.GetByID taskRepo ctx id.

Definition GetTasksByUserID (ctx : Context) (userID : ObjectID) : Go (list Task.t * error) :=
  TaskRepository.GetByUserID taskRepo ctx userID.

Definition GetAllTasks (ctx : Context) : Go (list Task.t * error) :=
  let* (tasks, err) := TaskRepository.GetAll taskRepo ctx in
  match err with
  | Some e => ret ([], Some e)
  | None => ret (tasks, None)
  end.

Definition UpdateTask (ctx : Context) (task : Task.t) : Go error :=
  (* Validate task *)
  if String.eqb (Task.Title task) "" then
    ret (Some (errors_New "task title is required"))
  else
    let* now := time_Now in
    if Before (Task.DueDate task) now then
      ret (Some (errors_New "due date cannot be in the past"))
    else
      (* Validate status transition *)
      let* (existingTask, err) := TaskRepository.GetByID taskRepo ctx (Task.ID task) in
      match err with
      | Some e => ret (Some e)
      | None =>
          (* Only allow status transitions from pending to in_progress to completed *)
          let* existing := deref existingTask in
          if String.eqb (Task.Status existing) StatusCompleted
             && negb (String.eqb (Task.Status task) StatusCompleted)
          then ret (Some (errors_New "cannot change status of completed task"))
          else TaskRepository.Update taskRepo ctx task
      end.

Definition DeleteTask (ctx : Context) (id : ObjectID) : Go error :=
  TaskRepository.Delete taskRepo ctx id.
End methods.
End taskUseCase.

End Usecases.

(** ** Hexadecimal form of an ObjectID *)

Module hex.
(** [fromHexChar]: the value of a hexadecimal digit, either case. *)
Definition fromHexChar (c : ascii) : option N :=
  let n := N_of_ascii c in
  if ((48 <=? n) && (n <=? 57))%N then Some (n - 48)%N
  else if ((97 <=? n) && (n <=? 102))%N then Some (n - 97 + 10)%N
  else if ((65 <=? n) && (n <=? 70))%N then Some (n - 65 + 10)%N
  else None.

(** [hex.Decode]: each pair of digits gives a byte. *)
Fixpoint Decode (src : string) : option string :=
  match src with
  | EmptyString => Some EmptyString
  | String p (String q rest) =>
      match fromHexChar p, fromHexChar q with
      | Some a, Some b =>
          match Decode rest with
          | Some bytes => Some (String (ascii_of_N (a * 16 + b)) bytes)
          | None => None
          end
      | _, _ => None
      end
  | String _ EmptyString => None
  end.

Definition hextable (n : N) : ascii :=
  if (n <? 10)%N then ascii_of_N (48 + n) else ascii_of_N (97 + n - 10).

(** [hex.EncodeToString] *)
Fixpoint EncodeToString (src : string) : string :=
  match src with
  | EmptyString => EmptyString
  | String c rest =>
      let n := N_of_ascii c in
      String (hextable (n / 16)) (String (hextable (n mod 16)) (EncodeToString rest))
  end.
End hex.

Definition ErrInvalidHex : error_value :=
  errors_New "the provided hex string is not a valid ObjectID".

(** [primitive.ObjectIDFromHex] *)
Definition ObjectIDFromHex (s : string) : ObjectID * error :=
  if negb (Nat.eqb (String.length s) 24) then (NilObjectID, Some ErrInvalidHex)
  else match hex.Decode s with
       | Some oid => (oid, None)
       | None => (NilObjectID, Some (errors_New "encoding/hex: invalid byte"))
       end.

(** [ObjectID.Hex()] *)
Definition Hex (id : ObjectID) : string := hex.EncodeToString id.

(** ** Package Usecases: users *)

Module UserUsecases.

(** [userUseCase]: the repository and the three injected functions. Hashing
    draws a salt and token generation reads the clock, so both are
    computations; comparing a password with a hash is a function. *)
Record userUseCase : Type := mk {
  userRepo : UserRepository.t;
  hashPassword : string -> Go (string * error);
  comparePasswords : string -> string -> bool;
  generateToken : string -> string -> Go (string * error)
}.

Section methods.
Variable u : userUseCase.

Definition Register (ctx : Context) (user : User.t) : Go (option User.t * error) :=
  let* (existingUser, err) :=
    UserRepository.GetByEmail (userRepo u) ctx (User.Email user) in
  if match err with
     | Some e => negb (String.eqb (Error e) "user not found") (* Adjust error check *)
     | None => false
     end
  then ret (None, err)
  else
    match existingUser with
    | Some _ => ret (None, Some (errors_New "user already exists"))
    | None =>
        let* (hashedPassword, err) := hashPassword u (User.Password user) in
        match err with
        | Some e => ret (None, Some e)
        | None =>
            let user := User.with_Password hashedPassword user in
            UserRepository.Create (userRepo u) ctx user
        end
    end.

Definition Login (ctx : Context) (email password : string)
  : Go (option User.t * string * error) :=
  let* (user, err) := UserRepository.GetByEmail (userRepo u) ctx email in
  match err with
  | Some _ => ret (None, "", Some (errors_New "invalid credentials"))
  | None =>
      let* user_Password := (let* x := deref user in ret (User.Password x)) in
      if negb (comparePasswords u user_Password password) then
        ret (None, "", Some (errors_New "invalid credentials"))
      else
        let* user_ID := (let* x := deref user in ret (User.ID x)) in
        let* user_Role := (let* x := deref user in ret (User.Role x)) in
        let* (token, err) := generateToken u (Hex user_ID) user_Role in
        match err with
        | Some e => ret (None, "", Some e)
        | None => ret (user, token, None)
        end
  end.

Definition GetAllUsers (ctx : Context) : Go (list User.t * error) :=
  UserRepository.GetAll (userRepo u) ctx.

Definition GetUserByID (ctx : Context) (id : ObjectID) : Go (option User.t * error) :=
  UserRepository.GetByID (userRepo u) ctx id.

Definition UpdateUser (ctx : Context) (user : User.t) : Go error :=
  if negb (String.eqb (User.Password user) "") then
    let* (hashedPassword, err) := hashPassword u (User.Password user) in
    match err with
    | Some e => ret (Some e)
    | None =>
        let user := User.with_Password hashedPassword user in
        UserRepository.Update (userRepo u) ctx user
    end
  else UserRepository.Update (userRepo u) ctx user.

Definition DeleteUser (ctx : Context) (id : ObjectID) : Go error :=
  UserRepository.Delete (userRepo u) ctx id.
End methods.

End UserUsecases.

(** ** The gin request context *)

Module strings.
(** [strings.Split(s, sep)] for a separator of one byte. *)
Fixpoint Split (s : string) (sep : ascii) : list string :=
  match s with
  | EmptyString => [EmptyString]
  | String c rest =>
      if Ascii.eqb c sep then EmptyString :: Split rest sep
      else match Split rest sep with
           | part :: parts => String c part :: parts
           | [] => [String c EmptyString]
           end
  end.

(** [strings.Join(parts, sep)] *)
Fixpoint Join (parts : list string) (sep : string) : string :=
  match parts with
  | [] => EmptyString
  | [p] => p
  | p :: rest => (p ++ sep ++ Join rest sep)%string
  end.
End strings.

Module http.
Definition StatusOK : Z := 200.
Definition StatusCreated : Z := 201.
Definition StatusBadRequest : Z := 400.
Definition StatusUnauthorized : Z := 401.
Definition StatusForbidden : Z := 403.
Definition StatusNotFound : Z := 404.
Definition StatusConflict : Z := 409.
Definition StatusInternalServerError : Z := 500.

(** [*http.Request]: the header (canonical keys), the path parameters and
    the body. *)
Record Request : Type := mkRequest {
  Header : gmap string (list string);
  Params : gmap string string;
  Body : string
}.
End http.

Module gin.
(** What [c.JSON] is given: a [gin.H] map or a [domain.APIResponse]. *)
Inductive Data : Type :=
| no_data
| data_task (t : option Task.t)
| data_tasks (ts : list Task.t).

Inductive Payload : Type :=
| H (entries : list (string * string))
| APIResponse (Message : string) (data : Data).

(** [*gin.Context]. [exhausted] says that the handler index is past the
    last handler of the chain: the chain ran to its end, or [Abort] moved
    the index to [abortIndex]. [responses] are the bodies written, oldest
    first, with their status codes. *)
Record Context : Type := mkContext {
  Request : http.Request;
  Keys : gmap string any;
  exhausted : bool;
  aborted : bool;
  responses : list (Z * Payload)
}.

Definition new_context (r : http.Request) : Context :=
  mkContext r ∅ false false [].

(** [c.GetHeader(key)] *)
Definition GetHeader (c : Context) (key : string) : string :=
  match http.Header (Request c) !! key with
  | Some (v :: _) => v
  | _ => ""
  end.

(** [c.Param(key)] *)
Definition Param (c : Context) (key : string) : string :=
  default "" (http.Params (Request c) !! key).

(** [c.Set(key, value)] *)
Definition Set_ (key : string) (value : any) (c : Context) : Context :=
  mkContext (Request c) (<[key := value]> (Keys c)) (exhausted c) (aborted c)
            (responses c).

(** [c.Get(key)]: the value and whether the key exists. *)
Definition Get (c : Context) (key : string) : any * bool :=
  match Keys c !! key with
  | Some v => (v, true)
  | None => (any_nil, false)
  end.

(** [c.GetString(key)] *)
Definition GetString (c : Context) (key : string) : string :=
  match Get c key with
  | (any_string s, true) => s
  | _ => ""
  end.

(** [c.JSON(code, obj)] *)
Definition JSON (code : Z) (obj : Payload) (c : Context) : Context :=
  mkContext (Request c) (Keys c) (exhausted c) (aborted c)
            (responses c ++ [(code, obj)]).

(** [c.Abort()] *)
Definition Abort (c : Context) : Context :=
  mkContext (Request c) (Keys c) true true (responses c).

Definition finish (c : Context) : Context :=
  mkContext (Request c) (Keys c) true (aborted c) (responses c).

(** A handler, given what [c.Next()] does inside it. *)
Definition HandlerFunc : Type := (Context -> Go Context) -> Context -> Go Context.

(** [c.Next()] over the handlers that remain: each runs in turn; a
    handler that called [Next] or [Abort] leaves the index past the end
    and the loop stops. *)
Fixpoint Next (handlers : list HandlerFunc) (c : Context) : Go Context :=
  match handlers with
  | [] => ret (finish c)
  | h :: rest =>
      let* c := h (Next rest) c in
      if exhausted c then ret c else Next rest c
  end.

(** Serving a request with the handler chain of its route. *)
Definition ServeHTTP (handlers : list HandlerFunc) (r : http.Request) : Go Context :=
Next handlers (new_context r).

(** The status code of the response: that of the first write. *)
Definition status (c : Context) : option Z :=
  match responses c with
  | (code, _) :: _ => Some code
  | [] => None
  end.
End gin.

(** ** Package infrastructure: the access guard *)

Module Middleware.
Import gin.

(** [AuthMiddleware] handles authentication. *)
Definition AuthMiddleware (validateToken : string -> Go (option Claims * error))
  : HandlerFunc :=
  fun next c =>
    let authHeader := GetHeader c "Authorization" in
    if String.eqb authHeader "" then
      ret (Abort (JSON http.StatusUnauthorized
                    (H [("error", "authorization header is required")]) c))
    else
      (* Extract token from Bearer header *)
      let parts := strings.Split authHeader " " in
      if negb (Nat.eqb (List.length parts) 2)
         || negb (String.eqb (List.nth 0 parts "") "Bearer")
      then
        ret (Abort (JSON http.StatusUnauthorized
                      (H [("error", "invalid authorization header format")]) c))
      else
        let* (claims, err) := validateToken (List.nth 1 parts "") in
        match err with
        | Some _ =>
            ret (Abort (JSON http.StatusUnauthorized
                          (H [("error", "invalid token")]) c))
        | None =>
            (* Store claims in context *)
            let c := Set_ "claims" (any_Claims claims) c in
            next c
        end.

(** [AdminMiddleware] ensures that only admin users can access the route. *)
Definition AdminMiddleware : HandlerFunc :=
  fun next c =>
    let (role, exists_) := Get c "role" in
    if negb exists_ || negb (any_eq_string role "admin") then
      ret (Abort (JSON http.StatusForbidden
                    (H [("error", "admin access required")]) c))
    else next c.

Definition RequireRole (roles : list string) : HandlerFunc :=
  fun next c =>
    let userRole := GetString c "role" in
    if existsb (fun role => String.eqb role userRole) roles
    then next c
    else ret (Abort (JSON http.StatusForbidden
                        (H [("error", "Insufficient permissions")]) c)).
End Middleware.

(** ** Package controllers *)

(** [domain.TaskUseCase] *)
Module TaskUseCase.
Record t : Type := mk {
  CreateTask : Context -> Task.t -> Go (option Task.t * error);
  GetTaskByID : Context -> ObjectID -> Go (option Task.t * error);
  GetTasksByUserID : Context -> ObjectID -> Go (list Task.t * error);
  GetAllTasks : Context -> Go (list Task.t * error);
  UpdateTask : Context -> Task.t -> Go error;
  DeleteTask : Context -> ObjectID -> Go error
}.
End TaskUseCase.

(** [Usecases.NewTaskUseCase(taskRepo)] *)
Definition NewTaskUseCase (taskRepo : TaskRepository.t) : TaskUseCase.t :=
  TaskUseCase.mk
    (Usecases.taskUseCase.CreateTask taskRepo)
    (Usecases.taskUseCase.GetTaskByID taskRepo)
    (Usecases.taskUseCase.GetTasksByUserID taskRepo)
    (Usecases.taskUseCase.GetAllTasks taskRepo)
    (Usecases.taskUseCase.UpdateTask taskRepo)
    (Usecases.taskUseCase.DeleteTask taskRepo).

Module Controllers.
Section TaskControllerImpl.
Import gin.

(** gin's JSON binding of a request body to a [domain.Task], a
    collaborator outside the repository: the task it yields or its error. *)
Variable ShouldBindJSON : string -> Task.t * error.
Variable taskUseCase : TaskUseCase.t.

Definition interface_conversion : string :=
  "interface conversion: interface {} is not string".

Definition CreateTask : HandlerFunc :=
  fun _ ctx =>
    let (userID, exists_) := Get ctx "user_id" in
    if negb exists_ then
      ret (JSON http.StatusUnauthorized (APIResponse "unauthorized" no_data) ctx)
    else
      let (task, err) := ShouldBindJSON (http.Body (Request ctx)) in
      match err with
      | Some e => ret (JSON http.StatusBadRequest (APIResponse (Error e) no_data) ctx)
      | None =>
          match userID with
          | any_string userID =>
              let (id, err) := ObjectIDFromHex userID in
              match err with
              | Some _ =>
                  ret (JSON http.StatusBadRequest
                         (APIResponse "Invalid user ID" no_data) ctx)
              | None =>
                  let task := Task.with_UserID id task in
                  let* (createdTask, err) :=
                    TaskUseCase.CreateTask taskUseCase ctx_Background task in
                  match err with
                  | Some e =>
                      (* Fix: Return 400 for use case errors *)
                      ret (JSON http.StatusBadRequest
                             (APIResponse (Error e) no_data) ctx)
                  | None =>
                      ret (JSON http.StatusCreated
                             (APIResponse "Task created successfully"
                                (data_task createdTask)) ctx)
                  end
              end
          | _ => panic interface_conversion
          end
      end.

Definition GetAllTasks : HandlerFunc :=
  fun _ ctx =>
    let* (tasks, err) := TaskUseCase.GetAllTasks taskUseCase ctx_Background in
    match err with
    | Some e =>
        ret (JSON http.StatusInternalServerError (APIResponse (Error e) no_data) ctx)
    | None =>
        ret (JSON http.StatusOK
               (APIResponse "Tasks retrieved successfully" (data_tasks tasks)) ctx)
    end.

Definition UpdateTask : HandlerFunc :=
  fun _ ctx =>
    let (task, err) := ShouldBindJSON (http.Body (Request ctx)) in
    match err with
    | Some e => ret (JSON http.StatusBadRequest (APIResponse (Error e) no_data) ctx)
    | None =>
        let (id, err) := ObjectIDFromHex (Param ctx "id") in
        match err with
        | Some _ =>
            ret (JSON http.StatusBadRequest (APIResponse "Invalid task ID" no_data) ctx)
        | None =>
            let task := Task.with_ID id task in
            let* err := TaskUseCase.UpdateTask taskUseCase ctx_Background task in
            match err with
            | Some e =>
                ret (JSON http.StatusBadRequest (APIResponse (Error e) no_data) ctx)
            | None =>
                ret (JSON http.StatusOK
                       (APIResponse "Task updated successfully" no_data) ctx)
            end
        end
    end.
End TaskControllerImpl.
End Controllers.

(** ** Package routers *)

Module Routers.
(** The handler chains [SetupRouter] registers for the routes of the
    claims: the protected task creation and the admin task listing. *)
Definition POST_api_tasks (CreateTask authMiddleware : gin.HandlerFunc)
  : list gin.HandlerFunc :=
  [authMiddleware; CreateTask].

Definition GET_api_admin_tasks (GetAllTasks authMiddleware adminMiddleware : gin.HandlerFunc)
  : list gin.HandlerFunc :=
  [authMiddleware; adminMiddleware; GetAllTasks].
End Routers.

(** ** Hash functions and message authentication (crypto/sha256, crypto/sha512, crypto/hmac)

    SHA-2 as FIPS 180-4 defines it, over words of 32 or 64 bits held in
    [Z], and HMAC as RFC 2104 defines it. Byte strings are lists of
    numbers below 256 inside this module and [string]s outside. *)

Module bytes.
Definition of_string (s : string) : list Z :=
  List.map (fun c => Z.of_N (N_of_ascii c)) (list_ascii_of_string s).

Definition to_string (l : list Z) : string :=
  string_of_list_ascii (List.map (fun b => ascii_of_N (Z.to_N b)) l).

(** Big-endian bytes of [x], [n] of them. *)
Fixpoint big_endian (n : nat) (x : Z) : list Z :=
  match n with
  | O => []
  | S m => (big_endian m (x / 256) ++ [x mod 256])%list
  end.

Definition of_big_endian (l : list Z) : Z :=
  List.fold_left (fun acc b => acc * 256 + b) l 0.

(** The list cut into pieces of [n] elements (the last may be shorter). *)
Fixpoint chunks {A} (fuel n : nat) (l : list A) : list (list A) :=
  match fuel with
  | O => []
  | S fuel' =>
      match l with
      | [] => []
      | _ => List.firstn n l :: chunks fuel' n (List.skipn n l)
      end
  end.
End bytes.

Module sha2.
Record Params : Type := mkParams {
  wbits : Z;                 (* word size *)
  K : list Z;                (* round constants, one per round *)
  H0 : list Z;               (* initial hash value *)
  Sigma0 : Z * Z * Z;        (* rotations of the big sigma functions *)
  Sigma1 : Z * Z * Z;
  sigma0 : Z * Z * Z;        (* two rotations and a shift *)
  sigma1 : Z * Z * Z;
  out_words : nat            (* words of the state in the digest *)
}.

Section with_params.
Variable P : Params.

Definition modulus : Z := 2 ^ wbits P.
Definition word_bytes : nat := Z.to_nat (wbits P / 8).
Definition block_bytes : nat := (16 * word_bytes)%nat.

Definition add (x y : Z) : Z := (x + y) mod modulus.
Definition rotr (n x : Z) : Z :=
  Z.lor (Z.shiftr x n) (Z.shiftl x (wbits P - n)) mod modulus.
Definition shr (n x : Z) : Z := Z.shiftr x n.
Definition compl (x : Z) : Z := Z.lxor x (modulus - 1).

Definition Ch (x y z : Z) : Z := Z.lxor (Z.land x y) (Z.land (compl x) z).
Definition Maj (x y z : Z) : Z :=
  Z.lxor (Z.lxor (Z.land x y) (Z.land x z)) (Z.land y z).
Definition big_sigma (r : Z * Z * Z) (x : Z) : Z :=
  let '(a, b, c) := r in Z.lxor (Z.lxor (rotr a x) (rotr b x)) (rotr c x).
Definition small_sigma (r : Z * Z * Z) (x : Z) : Z :=
  let '(a, b, c) := r in Z.lxor (Z.lxor (rotr a x) (rotr b x)) (shr c x).

(** Padding: a one bit, zeros, and the length in bits in two words. *)
Definition pad (msg : list Z) : list Z :=
  let len := Z.of_nat (List.length msg) in
  let bb := Z.of_nat block_bytes in
  let lb := 2 * Z.of_nat word_bytes in
  let zeros := (bb - ((len + 1 + lb) mod bb)) mod bb in
  (msg ++ [128] ++ List.repeat 0 (Z.to_nat zeros)
       ++ bytes.big_endian (Z.to_nat lb) (8 * len))%list.

(** The message schedule: the sixteen words of the block, extended. *)
Fixpoint extend (n : nat) (W : list Z) : list Z :=
  match n with
  | O => W
  | S m =>
      let t := List.length W in
      let w k := List.nth (t - k) W 0 in
      extend m (W ++ [add (add (small_sigma (sigma1 P) (w 2%nat)) (w 7%nat))
                          (add (small_sigma (sigma0 P) (w 15%nat)) (w 16%nat))])%list
  end.

Definition schedule (block : list Z) : list Z :=
  let W := List.map bytes.of_big_endian
             (bytes.chunks 16 word_bytes block) in
  extend (List.length (K P) - 16) W.

Definition State : Type := Z * Z * Z * Z * Z * Z * Z * Z.

Definition round (st : State) (kw : Z * Z) : State :=
  let '(a, b, c, d, e, f, g, h) := st in
  let T1 := add (add (add h (big_sigma (Sigma1 P) e)) (Ch e f g))
                (add (fst kw) (snd kw)) in
  let T2 := add (big_sigma (Sigma0 P) a) (Maj a b c) in
  (add T1 T2, a, b, c, add d T1, e, f, g).

Definition compress (st : State) (block : list Z) : State :=
  let '(a, b, c, d, e, f, g, h) := st in
  let '(a', b', c', d', e', f', g', h') :=
    List.fold_left round (List.combine (K P) (schedule block)) st in
  (add a a', add b b', add c c', add d d', add e e', add f f', add g g', add h h').

Definition initial : State :=
  let h k := List.nth k (H0 P) 0 in
  (h 0%nat, h 1%nat, h 2%nat, h 3%nat, h 4%nat, h 5%nat, h 6%nat, h 7%nat).

Definition state_words (st : State) : list Z :=
  let '(a, b, c, d, e, f, g, h) := st in [a; b; c; d; e; f; g; h].

Definition Sum (msg : list Z) : list Z :=
  let padded := pad msg in
  let blocks := bytes.chunks (List.length padded) block_bytes padded in
  let st := List.fold_left compress blocks initial in
  List.flat_map (bytes.big_endian word_bytes)
                (List.firstn (out_words P) (state_words st)).
End with_params.

Definition SHA256 : Params :=
  mkParams 32
    [1116352408; 1899447441; 3049323471; 3921009573; 961987163; 1508970993;
   2453635748; 2870763221; 3624381080; 310598401; 607225278; 1426881987;
   1925078388; 2162078206; 2614888103; 3248222580; 3835390401; 4022224774;
   264347078; 604807628; 770255983; 1249150122; 1555081692; 1996064986;
   2554220882; 2821834349; 2952996808; 3210313671; 3336571891; 3584528711;
   113926993; 338241895; 666307205; 773529912; 1294757372; 1396182291;
   1695183700; 1986661051; 2177026350; 2456956037; 2730485921; 2820302411;
   3259730800; 3345764771; 3516065817; 3600352804; 4094571909; 275423344;
   430227734; 506948616; 659060556; 883997877; 958139571; 1322822218;
   1537002063; 1747873779; 1955562222; 2024104815; 2227730452; 2361852424;
   2428436474; 2756734187; 3204031479; 3329325298]
    [1779033703; 3144134277; 1013904242; 2773480762; 1359893119; 2600822924; 528734635; 1541459225]
    (2, 13, 22) (6, 11, 25) (7, 18, 3) (17, 19, 10) 8.

Definition K512 : list Z :=
    [4794697086780616226; 8158064640168781261; 13096744586834688815;
   16840607885511220156; 4131703408338449720; 6480981068601479193;
   10538285296894168987; 12329834152419229976; 15566598209576043074;
   1334009975649890238; 2608012711638119052; 6128411473006802146;
   8268148722764581231; 9286055187155687089; 11230858885718282805;
   13951009754708518548; 16472876342353939154; 17275323862435702243;
   1135362057144423861; 2597628984639134821; 3308224258029322869;
   5365058923640841347; 6679025012923562964; 8573033837759648693;
   10970295158949994411; 12119686244451234320; 12683024718118986047;
   13788192230050041572; 14330467153632333762; 15395433587784984357;
   489312712824947311; 1452737877330783856; 2861767655752347644;
   3322285676063803686; 5560940570517711597; 5996557281743188959;
   7280758554555802590; 8532644243296465576; 9350256976987008742;
   10552545826968843579; 11727347734174303076; 12113106623233404929;
   14000437183269869457; 14369950271660146224; 15101387698204529176;
   15463397548674623760; 17586052441742319658; 1182934255886127544;
   1847814050463011016; 2177327727835720531; 2830643537854262169;
   3796741975233480872; 4115178125766777443; 5681478168544905931;
   6601373596472566643; 7507060721942968483; 8399075790359081724;
   8693463985226723168; 9568029438360202098; 10144078919501101548;
   10430055236837252648; 11840083180663258601; 13761210420658862357;
   14299343276471374635; 14566680578165727644; 15097957966210449927;
   16922976911328602910; 17689382322260857208; 500013540394364858;
   748580250866718886; 1242879168328830382; 1977374033974150939;
   2944078676154940804; 3659926193048069267; 4368137639120453308;
   4836135668995329356; 5532061633213252278; 6448918945643986474;
   6902733635092675308; 7801388544844847127].

Definition SHA512 : Params :=
  mkParams 64 K512
    [7640891576956012808; 13503953896175478587; 4354685564936845355;
   11912009170470909681; 5840696475078001361; 11170449401992604703;
   2270897969802886507; 6620516959819538809]
    (28, 34, 39) (14, 18, 41) (1, 8, 7) (19, 61, 6) 8.

Definition SHA384 : Params :=
  mkParams 64 K512
    [14680500436340154072; 7105036623409894663; 10473403895298186519;
   1526699215303891257; 7436329637833083697; 10282925794625328401;
   15784041429090275239; 5167115440072839076]
    (28, 34, 39) (14, 18, 41) (1, 8, 7) (19, 61, 6) 6.
End sha2.

Module hmac.
Section with_hash.
Variable P : sha2.Params.

(** The key brought to the block size: hashed when longer, then
    filled with zeros. *)
Definition block_key (key : list Z) : list Z :=
  let bb := sha2.block_bytes P in
  let k := if (bb <? List.length key)%nat then sha2.Sum P key else key in
  (k ++ List.repeat 0 (bb - List.length k))%list.

Definition xor_pad (pad : Z) (key : list Z) : list Z :=
  List.map (fun b => Z.lxor b pad) key.

(** [hmac.New(hash, key)], [Write(msg)], [Sum(nil)] *)
Definition Sum (key msg : list Z) : list Z :=
  let k := block_key key in
  sha2.Sum P (xor_pad 92 k ++ sha2.Sum P (xor_pad 54 k ++ msg))%list.
End with_hash.

(** [hmac.Equal]: equality of the two byte strings. *)
Definition Equal (a b : string) : bool := String.eqb a b.
End hmac.

(** ** Base64 (encoding/base64, URL alphabet, with padding)

    [URLEncoding.EncodeToString] and [URLEncoding.DecodeString]. The
    decoder is the default, non-strict one: it skips carriage returns and
    line feeds, requires the padding, and does not look at the bits of the
    last character that fall outside the last byte. *)

Module base64.
(** The character of a six-bit value in the URL alphabet. *)
Definition encode_char (v : N) : ascii :=
  if (v <? 26)%N then ascii_of_N (65 + v)
  else if (v <? 52)%N then ascii_of_N (97 + (v - 26))
  else if (v <? 62)%N then ascii_of_N (48 + (v - 52))
  else if (v =? 62)%N then "-"%char
  else "_"%char.

(** [decodeMap]: the value of a character of the alphabet. *)
Definition decodeMap (c : ascii) : option N :=
  let n := N_of_ascii c in
  if ((65 <=? n) && (n <=? 90))%N then Some (n - 65)%N
  else if ((97 <=? n) && (n <=? 122))%N then Some (n - 97 + 26)%N
  else if ((48 <=? n) && (n <=? 57))%N then Some (n - 48 + 52)%N
  else if (n =? 45)%N then Some 62%N
  else if (n =? 95)%N then Some 63%N
  else None.

Definition padChar : ascii := "="%char.

Definition is_newline (c : ascii) : bool :=
  Ascii.eqb c "010"%char || Ascii.eqb c "013"%char.

(** [EncodeToString]: three bytes give four characters; one or two
    remaining bytes give two or three characters and padding. *)
Fixpoint EncodeToString (src : string) : string :=
  match src with
  | EmptyString => EmptyString
  | String a EmptyString =>
      let a := N_of_ascii a in
      String (encode_char (a / 4))
        (String (encode_char ((a mod 4) * 16))
           (String padChar (String padChar EmptyString)))
  | String a (String b EmptyString) =>
      let a := N_of_ascii a in
      let b := N_of_ascii b in
      String (encode_char (a / 4))
        (String (encode_char ((a mod 4) * 16 + b / 16))
           (String (encode_char ((b mod 16) * 4))
              (String padChar EmptyString)))
  | String a (String b (String c rest)) =>
      let a := N_of_ascii a in
      let b := N_of_ascii b in
      let c := N_of_ascii c in
      String (encode_char (a / 4))
        (String (encode_char ((a mod 4) * 16 + b / 16))
           (String (encode_char ((b mod 16) * 4 + c / 64))
              (String (encode_char (c mod 64)) (EncodeToString rest))))
  end.

Fixpoint skip_newlines (src : string) : string :=
  match src with
  | String c rest => if is_newline c then skip_newlines rest else src
  | EmptyString => EmptyString
  end.

(** The bytes of a quantum of two, three or four six-bit values. *)
Definition quantum_bytes (q : list N) : string :=
  match q with
  | [a; b] => String (ascii_of_N (a * 4 + b / 16)) EmptyString
  | [a; b; c] =>
      String (ascii_of_N (a * 4 + b / 16))
        (String (ascii_of_N ((b mod 16) * 16 + c / 4)) EmptyString)
  | [a; b; c; d] =>
      String (ascii_of_N (a * 4 + b / 16))
        (String (ascii_of_N ((b mod 16) * 16 + c / 4))
           (String (ascii_of_N ((c mod 4) * 64 + d)) EmptyString))
  | _ => EmptyString
  end.

(** [decodeQuantum], one character at a time: [q] holds the values read
    for the current quantum, fewer than four. [None] is
    [CorruptInputError]. *)
Fixpoint decode (src : string) (q : list N) : option string :=
  match src with
  | EmptyString =>
      match q with
      | [] => Some EmptyString
      | _ => None (* the input ends inside a quantum, and padding is required *)
      end
  | String c rest =>
      match decodeMap c with
      | Some v =>
          if Nat.eqb (List.length q) 3 then
            match decode rest [] with
            | Some bytes => Some (quantum_bytes (q ++ [v]) ++ bytes)%string
            | None => None
            end
          else decode rest (q ++ [v])
      | None =>
          if is_newline c then decode rest q
          else if negb (Ascii.eqb c padChar) then None
          else
            (* We've reached the end and there's padding *)
            match q with
            | [_; _] =>
                (* "==" is expected, the first "=" is already consumed *)
                match skip_newlines rest with
                | String c' rest' =>
                    if Ascii.eqb c' padChar then
                      match skip_newlines rest' with
                      | EmptyString => Some (quantum_bytes q)
                      | _ => None (* trailing garbage *)
                      end
                    else None (* incorrect padding *)
                | EmptyString => None (* not enough padding *)
                end
            | [_; _; _] =>
                match skip_newlines rest with
                | EmptyString => Some (quantum_bytes q)
                | _ => None (* trailing garbage *)
                end
            | _ => None (* incorrect padding *)
            end
      end
  end.

Definition DecodeString (s : string) : option string := decode s [].
End base64.

Module strings_more.
(** [strings.TrimRight(s, cutset)] for a cutset of one byte. *)
Fixpoint TrimRight (s : string) (c : ascii) : string :=
  match s with
  | EmptyString => EmptyString
  | String x rest =>
      match TrimRight rest c with
      | EmptyString => if Ascii.eqb x c then EmptyString else String x EmptyString
      | r => String x r
      end
  end.

(** [strings.Repeat] of a one-byte string *)
Fixpoint Repeat (c : ascii) (n : nat) : string :=
  match n with
  | O => EmptyString
  | S m => String c (Repeat c m)
  end.
End strings_more.

(** ** UTF-8 (unicode/utf8, unicode/utf16) *)

Module utf8.
Definition RuneError : N := 65533.   (* U+FFFD *)
Definition MaxRune : N := 1114111.   (* U+10FFFF *)
Definition RuneSelf : N := 128.

Definition byte_at (s : string) (i : nat) : option N :=
  match String.get i s with
  | Some c => Some (N_of_ascii c)
  | None => None
  end.

(** A continuation byte in the range [lo, hi]. *)
Definition cont (lo hi : N) (b : option N) : option N :=
  match b with
  | Some x => if ((lo <=? x) && (x <=? hi))%N then Some (x mod 64)%N else None
  | None => None
  end.

(** Size of the sequence a first byte announces and the range accepted
    for its second byte; [None] for a byte that cannot start a rune. *)
Definition first (s0 : N) : option (nat * N * N) :=
  if ((194 <=? s0) && (s0 <=? 223))%N then Some (2%nat, 128, 191)%N
  else if (s0 =? 224)%N then Some (3%nat, 160, 191)%N
  else if ((225 <=? s0) && (s0 <=? 236))%N then Some (3%nat, 128, 191)%N
  else if (s0 =? 237)%N then Some (3%nat, 128, 159)%N
  else if ((238 <=? s0) && (s0 <=? 239))%N then Some (3%nat, 128, 191)%N
  else if (s0 =? 240)%N then Some (4%nat, 144, 191)%N
  else if ((241 <=? s0) && (s0 <=? 243))%N then Some (4%nat, 128, 191)%N
  else if (s0 =? 244)%N then Some (4%nat, 128, 143)%N
  else None.

(** [utf8.DecodeRuneInString]: the first rune of [s] and its width in
    bytes; [(RuneError, 1)] when the encoding is invalid, [(RuneError, 0)]
    when [s] is empty. *)
Definition DecodeRune (s : string) : N * nat :=
  match byte_at s 0 with
  | None => (RuneError, 0%nat)
  | Some s0 =>
      if (s0 <? RuneSelf)%N then (s0, 1%nat)
      else
        match first s0 with
        | None => (RuneError, 1%nat)
        | Some (sz, lo, hi) =>
            match cont lo hi (byte_at s 1) with
            | None => (RuneError, 1%nat)
            | Some x1 =>
                if Nat.eqb sz 2 then ((s0 mod 32) * 64 + x1, 2%nat)%N
                else
                  match cont 128 191 (byte_at s 2) with
                  | None => (RuneError, 1%nat)
                  | Some x2 =>
                      if Nat.eqb sz 3 then
                        ((s0 mod 16) * 4096 + x1 * 64 + x2, 3%nat)%N
                      else
                        match cont 128 191 (byte_at s 3) with
                        | None => (RuneError, 1%nat)
                        | Some x3 =>
                            ((s0 mod 8) * 262144 + x1 * 4096 + x2 * 64 + x3,
                             4%nat)%N
                        end
                  end
            end
        end
  end.

Definition is_surrogate (r : N) : bool := ((55296 <=? r) && (r <=? 57343))%N.

Definition bytes (l : list N) : string :=
  string_of_list_ascii (List.map ascii_of_N l).

(** [utf8.EncodeRune] *)
Definition EncodeRune (r : N) : string :=
  if (r <=? 127)%N then bytes [r]
  else if (r <=? 2047)%N then bytes [192 + r / 64; 128 + r mod 64]%N
  else if (MaxRune <? r)%N || is_surrogate r then bytes [239; 191; 189]%N
  else if (r <=? 65535)%N then
    bytes [224 + r / 4096; 128 + (r / 64) mod 64; 128 + r mod 64]%N
  else
    bytes [240 + r / 262144; 128 + (r / 4096) mod 64;
           128 + (r / 64) mod 64; 128 + r mod 64]%N.

Fixpoint drop (n : nat) (s : string) : string :=
  match n, s with
  | S m, String _ rest => drop m rest
  | _, _ => s
  end.

Fixpoint take (n : nat) (s : string) : string :=
  match n, s with
  | S m, String c rest => String c (take m rest)
  | _, _ => EmptyString
  end.

(** [utf8.ValidString] *)
Fixpoint valid (fuel : nat) (s : string) : bool :=
  match fuel with
  | O => match s with EmptyString => true | _ => false end
  | S fuel' =>
      match s with
      | EmptyString => true
      | _ =>
          let (r, size) := DecodeRune s in
          if (r =? RuneError)%N && Nat.eqb size 1 then false
          else valid fuel' (drop size s)
      end
  end.

Definition ValidString (s : string) : bool := valid (String.length s) s.
End utf8.

Module utf16.
(** [utf16.DecodeRune]: the rune of a surrogate pair, U+FFFD otherwise. *)
Definition DecodeRune (r1 r2 : N) : N :=
  if ((55296 <=? r1) && (r1 <? 56320) && (56320 <=? r2) && (r2 <? 57344))%N
  then ((r1 - 55296) * 1024 + (r2 - 56320) + 65536)%N
  else utf8.RuneError.
End utf16.

(** ** JSON (encoding/json) *)

Module json.
Definition quote_char : ascii := Eval cbv in ascii_of_N 34.
Definition backslash : ascii := "\"%char.

(** [htmlSafeSet]: the ASCII bytes [Marshal] writes as they are. *)
Definition htmlSafe (b : N) : bool :=
  ((32 <=? b) && (b <? 128)
   && negb ((b =? 34) || (b =? 38) || (b =? 60) || (b =? 62) || (b =? 92)))%N.

Definition hex_digit (n : N) : ascii := hex.hextable n.

(** The escape written for an ASCII byte outside [htmlSafeSet]. *)
Definition escape_byte (b : N) : string :=
  if ((b =? 92) || (b =? 34))%N then String backslash (String (ascii_of_N b) EmptyString)
  else if (b =? 10)%N then String backslash "n"
  else if (b =? 13)%N then String backslash "r"
  else if (b =? 9)%N then String backslash "t"
  else
    (String backslash "u00"
     ++ String (hex_digit (b / 16)) (String (hex_digit (b mod 16)) EmptyString))%string.

(** The body of the string literal [Marshal] writes for [s]: ASCII outside
    the safe set is escaped, invalid UTF-8 becomes U+FFFD, U+2028 and
    U+2029 are escaped. *)
Fixpoint quote_body (fuel : nat) (s : string) : string :=
  match fuel with
  | O => EmptyString
  | S fuel' =>
      match s with
      | EmptyString => EmptyString
      | String c rest =>
          let b := N_of_ascii c in
          if (b <? utf8.RuneSelf)%N then
            if htmlSafe b then String c (quote_body fuel' rest)
            else (escape_byte b ++ quote_body fuel' rest)%string
          else
            let (r, size) := utf8.DecodeRune s in
            if (r =? utf8.RuneError)%N && Nat.eqb size 1 then
              (String backslash "ufffd" ++ quote_body fuel' rest)%string
            else if ((r =? 8232) || (r =? 8233))%N then
              (String backslash "u202" ++ String (hex_digit (r mod 16)) EmptyString
               ++ quote_body fuel' (utf8.drop size s))%string
            else
              (utf8.take size s ++ quote_body fuel' (utf8.drop size s))%string
      end
  end.

(** A Go string as a JSON string literal. *)
Definition quote (s : string) : string :=
  (String quote_char (quote_body (String.length s) s)
   ++ String quote_char EmptyString)%string.

(** [strconv.FormatInt(i, 10)] *)
Definition FormatInt (i : Z) : string := NilZero.string_of_int (Z.to_int i).

(** *** Values and their parser *)

#[local] Set Warnings "-register-all".
Inductive value : Type :=
| Null
| Bool (b : bool)
| Number (literal : string)
| Str (s : string)
| Array (elements : list value)
| Object (members : list (string * value)).

Definition is_space (c : ascii) : bool :=
  let n := N_of_ascii c in ((n =? 32) || (n =? 9) || (n =? 10) || (n =? 13))%N.

Fixpoint skip_space (s : string) : string :=
  match s with
  | String c rest => if is_space c then skip_space rest else s
  | EmptyString => EmptyString
  end.

Definition is_digit (c : ascii) : bool :=
  let n := N_of_ascii c in ((48 <=? n) && (n <=? 57))%N.

(** The four hexadecimal digits of a [\u] escape. *)
Definition getu4 (s : string) : option (N * string) :=
  match s with
  | String a (String b (String c (String d rest))) =>
      match hex.fromHexChar a, hex.fromHexChar b, hex.fromHexChar c, hex.fromHexChar d with
      | Some a, Some b, Some c, Some d =>
          Some (a * 4096 + b * 256 + c * 16 + d, rest)%N
      | _, _, _, _ => None
      end
  | _ => None
  end.

(** The escape after a backslash that stands for one byte. *)
Definition simple_escape (e : ascii) : option ascii :=
  let n := N_of_ascii e in
  if ((n =? 34) || (n =? 92) || (n =? 47))%N then Some e
  else if (n =? 98)%N then Some (ascii_of_N 8)
  else if (n =? 102)%N then Some (ascii_of_N 12)
  else if (n =? 110)%N then Some (ascii_of_N 10)
  else if (n =? 114)%N then Some (ascii_of_N 13)
  else if (n =? 116)%N then Some (ascii_of_N 9)
  else None.

Definition prepend (p : string) (r : option (string * string)) : option (string * string) :=
  match r with
  | Some (s, rest) => Some ((p ++ s)%string, rest)
  | None => None
  end.

(** The string literal whose opening quote has been read: its value,
    unquoted as [unquote] does (invalid UTF-8 and lone surrogates become
    U+FFFD), and the input after the closing quote. *)
Fixpoint unquote (fuel : nat) (s : string) : option (string * string) :=
  match fuel with
  | O => None
  | S fuel' =>
      match s with
      | EmptyString => None
      | String c rest =>
          let b := N_of_ascii c in
          if Ascii.eqb c quote_char then Some (EmptyString, rest)
          else if Ascii.eqb c backslash then
            match rest with
            | EmptyString => None
            | String e rest' =>
                if Ascii.eqb e "u"%char then
                  match getu4 rest' with
                  | None => None
                  | Some (rr, rest'') =>
                      if utf8.is_surrogate rr then
                        match rest'' with
                        | String e1 (String e2 rest3) =>
                            if Ascii.eqb e1 backslash && Ascii.eqb e2 "u"%char then
                              match getu4 rest3 with
                              | Some (rr1, rest4) =>
                                  let dec := utf16.DecodeRune rr rr1 in
                                  if negb (dec =? utf8.RuneError)%N then
                                    (* A valid pair; consume. *)
                                    prepend (utf8.EncodeRune dec) (unquote fuel' rest4)
                                  else
                                    prepend (utf8.EncodeRune utf8.RuneError)
                                            (unquote fuel' rest'')
                              | None =>
                                  prepend (utf8.EncodeRune utf8.RuneError)
                                          (unquote fuel' rest'')
                              end
                            else prepend (utf8.EncodeRune utf8.RuneError)
                                         (unquote fuel' rest'')
                        | _ => prepend (utf8.EncodeRune utf8.RuneError)
                                       (unquote fuel' rest'')
                        end
                      else prepend (utf8.EncodeRune rr) (unquote fuel' rest'')
                  end
                else
                  match simple_escape e with
                  | Some x => prepend (String x EmptyString) (unquote fuel' rest')
                  | None => None
                  end
            end
          else if (b <? 32)%N then None (* control characters are invalid *)
          else if (b <? utf8.RuneSelf)%N then
            prepend (String c EmptyString) (unquote fuel' rest)
          else
            (* Coerce to well-formed UTF-8. *)
            let (rr, size) := utf8.DecodeRune s in
            prepend (utf8.EncodeRune rr) (unquote fuel' (utf8.drop size s))
      end
  end.

Fixpoint digits (s : string) : string * string :=
  match s with
  | String c rest =>
      if is_digit c then let (d, r) := digits rest in (String c d, r)
      else (EmptyString, s)
  | EmptyString => (EmptyString, EmptyString)
  end.

(** A number literal: minus sign, integer part without leading zero,
    fraction, exponent. *)
Definition number (s : string) : option (string * string) :=
  let (sign, s1) :=
    match s with
    | String "-"%char r => ("-", r)
    | _ => ("", s)
    end in
  let (int, s2) := digits s1 in
  match int with
  | EmptyString => None
  | String "0"%char (String _ _) => None
  | _ =>
      let frac :=
        match s2 with
        | String "."%char r =>
            let (f, s3) := digits r in
            match f with
            | EmptyString => None
            | _ => Some (("." ++ f)%string, s3)
            end
        | _ => Some ("", s2)
        end in
      match frac with
      | None => None
      | Some (f, s3) =>
          let exp :=
            match s3 with
            | String e r =>
                if Ascii.eqb e "e"%char || Ascii.eqb e "E"%char then
                  let (esign, r1) :=
                    match r with
                    | String x r' =>
                        if Ascii.eqb x "+"%char || Ascii.eqb x "-"%char
                        then (String x EmptyString, r') else ("", r)
                    | EmptyString => ("", r)
                    end in
                  let (d, s4) := digits r1 in
                  match d with
                  | EmptyString => None
                  | _ => Some ((String e esign ++ d)%string, s4)
                  end
                else Some ("", s3)
            | EmptyString => Some ("", s3)
            end in
          match exp with
          | None => None
          | Some (e, s4) => Some ((sign ++ int ++ f ++ e)%string, s4)
          end
      end
  end.

Definition literal (word : string) (v : value) (s : string) : option (value * string) :=
  if String.prefix word s then Some (v, utf8.drop (String.length word) s) else None.

(** One value, after optional white space, and the input that follows it. *)
Fixpoint parse_value (fuel : nat) (s : string) : option (value * string) :=
  match fuel with
  | O => None
  | S fuel' =>
      match skip_space s with
      | EmptyString => None
      | String c rest =>
          if Ascii.eqb c quote_char then
            match unquote (String.length rest) rest with
            | Some (x, r) => Some (Str x, r)
            | None => None
            end
          else if Ascii.eqb c "{"%char then
            match skip_space rest with
            | String "}"%char r => Some (Object [], r)
            | _ =>
                match parse_members fuel' rest with
                | Some (ms, r) => Some (Object ms, r)
                | None => None
                end
            end
          else if Ascii.eqb c "["%char then
            match skip_space rest with
            | String "]"%char r => Some (Array [], r)
            | _ =>
                match parse_elements fuel' rest with
                | Some (vs, r) => Some (Array vs, r)
                | None => None
                end
            end
          else if Ascii.eqb c "t"%char then literal "true" (Bool true) (String c rest)
          else if Ascii.eqb c "f"%char then literal "false" (Bool false) (String c rest)
          else if Ascii.eqb c "n"%char then literal "null" Null (String c rest)
          else
            match number (String c rest) with
            | Some (lit, r) => Some (Number lit, r)
            | None => None
            end
      end
  end

(** The members of an object up to its closing brace. *)
with parse_members (fuel : nat) (s : string) : option (list (string * value) * string) :=
  match fuel with
  | O => None
  | S fuel' =>
      match skip_space s with
      | String c rest =>
          if Ascii.eqb c quote_char then
            match unquote (String.length rest) rest with
            | Some (key, r) =>
                match skip_space r with
                | String ":"%char r1 =>
                    match parse_value fuel' r1 with
                    | Some (v, r2) =>
                        match skip_space r2 with
                        | String ","%char r3 =>
                            match parse_members fuel' r3 with
                            | Some (ms, r4) => Some ((key, v) :: ms, r4)
                            | None => None
                            end
                        | String "}"%char r3 => Some ([(key, v)], r3)
                        | _ => None
                        end
                    | None => None
                    end
                | _ => None
                end
            | None => None
            end
          else None
      | EmptyString => None
      end
  end

with parse_elements (fuel : nat) (s : string) : option (list value * string) :=
  match fuel with
  | O => None
  | S fuel' =>
      match parse_value fuel' s with
      | Some (v, r) =>
          match skip_space r with
          | String ","%char r1 =>
              match parse_elements fuel' r1 with
              | Some (vs, r2) => Some (v :: vs, r2)
              | None => None
              end
          | String "]"%char r1 => Some ([v], r1)
          | _ => None
          end
      | None => None
      end
  end.
End json.

(** ** The token library (github.com/golang-jwt/jwt, v3) *)

Module jwt.
Definition zero_claims : Claims := mkClaims "" "" "" 0 "" 0 "" 0 "".

(** *** Claims as JSON *)

Definition member_string (name value : string) : list string :=
  [(json.quote name ++ ":" ++ json.quote value)%string].

Definition member_string_omitempty (name value : string) : list string :=
  if String.eqb value "" then [] else member_string name value.

Definition member_int_omitempty (name : string) (value : Z) : list string :=
  if value =? 0 then [] else [(json.quote name ++ ":" ++ json.FormatInt value)%string].

(** [json.Marshal] of a [Claims]: the fields in the order of the struct,
    the standard claims left out when they hold their zero value. *)
Definition MarshalClaims (c : Claims) : string :=
  ("{" ++ strings.Join
            (member_string "user_id" (UserID c)
             ++ member_string "role" (Role c)
             ++ member_string_omitempty "aud" (Audience c)
             ++ member_int_omitempty "exp" (ExpiresAt c)
             ++ member_string_omitempty "jti" (Id c)
             ++ member_int_omitempty "iat" (IssuedAt c)
             ++ member_string_omitempty "iss" (Issuer c)
             ++ member_int_omitempty "nbf" (NotBefore c)
             ++ member_string_omitempty "sub" (Subject c))%list
            ","
   ++ "}")%string.

(** [json.Marshal] of the header map: keys in sorted order. *)
Definition MarshalHeader (alg : string) : string :=
  ("{" ++ json.quote "alg" ++ ":" ++ json.quote alg ++ ","
       ++ json.quote "typ" ++ ":" ++ json.quote "JWT" ++ "}")%string.

(** [strconv.ParseInt(s, 10, 64)] on a number literal. *)
Definition ParseInt (s : string) : option Z :=
  match NilZero.int_of_string s with
  | Some d =>
      let z := Z.of_int d in
      if (- 2 ^ 63 <=? z) && (z <? 2 ^ 63) then Some z else None
  | None => None
  end.

Definition set_string (set : string -> Claims) (v : json.value) (c : Claims)
  : option Claims :=
  match v with
  | json.Null => Some c
  | json.Str s => Some (set s)
  | _ => None (* UnmarshalTypeError *)
  end.

Definition set_int (set : Z -> Claims) (v : json.value) (c : Claims)
  : option Claims :=
  match v with
  | json.Null => Some c
  | json.Number lit =>
      match ParseInt lit with
      | Some z => Some (set z)
      | None => None
      end
  | _ => None
  end.

Definition field_names : list string :=
  ["user_id"; "role"; "aud"; "exp"; "jti"; "iat"; "iss"; "nbf"; "sub"].

(** Case folding of a key as [equalFold] sees it against an ASCII field
    name: letters in lower case, and the two runes that fold onto ASCII
    letters, U+017F (long s) and U+212A (Kelvin sign). *)
Fixpoint fold (s : string) : string :=
  match s with
  | EmptyString => EmptyString
  | String a rest =>
      let n := N_of_ascii a in
      if ((65 <=? n) && (n <=? 90))%N then String (ascii_of_N (n + 32)) (fold rest)
      else
        match rest with
        | String b rest1 =>
            if ((n =? 197) && (N_of_ascii b =? 191))%N then String "s"%char (fold rest1)
            else
              match rest1 with
              | String c rest2 =>
                  if ((n =? 226) && (N_of_ascii b =? 132) && (N_of_ascii c =? 170))%N
                  then String "k"%char (fold rest2)
                  else String a (fold rest)
              | EmptyString => String a (fold rest)
              end
        | EmptyString => String a (fold rest)
        end
  end.

(** The field a key selects: the one of that name, else the first whose
    name equals the key under case folding. *)
Definition find_field (key : string) : option string :=
  if existsb (String.eqb key) field_names then Some key
  else List.find (fun name => String.eqb name (fold key)) field_names.

Definition set_field (name : string) (v : json.value) (c : Claims) : option Claims :=
  if String.eqb name "user_id" then
    set_string (fun s => mkClaims s (Role c) (Audience c) (ExpiresAt c) (Id c)
                           (IssuedAt c) (Issuer c) (NotBefore c) (Subject c)) v c
  else if String.eqb name "role" then
    set_string (fun s => mkClaims (UserID c) s (Audience c) (ExpiresAt c) (Id c)
                           (IssuedAt c) (Issuer c) (NotBefore c) (Subject c)) v c
  else if String.eqb name "aud" then
    set_string (fun s => mkClaims (UserID c) (Role c) s (ExpiresAt c) (Id c)
                           (IssuedAt c) (Issuer c) (NotBefore c) (Subject c)) v c
  else if String.eqb name "exp" then
    set_int (fun z => mkClaims (UserID c) (Role c) (Audience c) z (Id c)
                        (IssuedAt c) (Issuer c) (NotBefore c) (Subject c)) v c
  else if String.eqb name "jti" then
    set_string (fun s => mkClaims (UserID c) (Role c) (Audience c) (ExpiresAt c) s
                           (IssuedAt c) (Issuer c) (NotBefore c) (Subject c)) v c
  else if String.eqb name "iat" then
    set_int (fun z => mkClaims (UserID c) (Role c) (Audience c) (ExpiresAt c) (Id c)
                        z (Issuer c) (NotBefore c) (Subject c)) v c
  else if String.eqb name "iss" then
    set_string (fun s => mkClaims (UserID c) (Role c) (Audience c) (ExpiresAt c) (Id c)
                           (IssuedAt c) s (NotBefore c) (Subject c)) v c
  else if String.eqb name "nbf" then
    set_int (fun z => mkClaims (UserID c) (Role c) (Audience c) (ExpiresAt c) (Id c)
                        (IssuedAt c) (Issuer c) z (Subject c)) v c
  else if String.eqb name "sub" then
    set_string (fun s => mkClaims (UserID c) (Role c) (Audience c) (ExpiresAt c) (Id c)
                           (IssuedAt c) (Issuer c) (NotBefore c) s) v c
  else Some c.

(** The members of an object stored into the struct, in order; members
    of unknown name are skipped. *)
Fixpoint set_members (ms : list (string * json.value)) (c : Claims) : option Claims :=
  match ms with
  | [] => Some c
  | (key, v) :: rest =>
      match find_field key with
      | Some name =>
          match set_field name v c with
          | Some c' => set_members rest c'
          | None => None
          end
      | None => set_members rest c
      end
  end.

(** [json.NewDecoder(...).Decode(&claims)]: the first value of the input
    is decoded into the struct; what follows it is not looked at. *)
Definition DecodeClaims (data : string) (c : Claims) : option Claims :=
  match json.parse_value (S (String.length data)) data with
  | Some (json.Null, _) => Some c
  | Some (json.Object ms, _) => set_members ms c
  | _ => None
  end.

(** [json.Unmarshal(headerBytes, &token.Header)]: the whole input must be
    one value; a JSON object gives the map, [null] leaves it nil. *)
Definition UnmarshalHeader (data : string) : option (list (string * json.value)) :=
  match json.parse_value (S (String.length data)) data with
  | Some (v, rest) =>
      match json.skip_space rest with
      | EmptyString =>
          match v with
          | json.Null => Some []
          | json.Object ms => Some ms
          | _ => None
          end
      | _ => None
      end
  | None => None
  end.

(** [token.Header["alg"]]: with repeated keys the last one stays. *)
Fixpoint header_get (key : string) (ms : list (string * json.value)) : option json.value :=
  match ms with
  | [] => None
  | (k, v) :: rest =>
      match header_get key rest with
      | Some v' => Some v'
      | None => if String.eqb k key then Some v else None
      end
  end.

(** *** Segments *)

(** [EncodeSegment]: base64url with the padding stripped. *)
Definition EncodeSegment (seg : string) : string :=
  strings_more.TrimRight (base64.EncodeToString seg) base64.padChar.

(** [DecodeSegment]: the padding is put back, then base64url decoding. *)
Definition DecodeSegment (seg : string) : option string :=
  let l := (String.length seg mod 4)%nat in
  let seg := if (0 <? l)%nat
             then (seg ++ strings_more.Repeat base64.padChar (4 - l))%string
             else seg in
  base64.DecodeString seg.

(** *** Signing methods *)

(** The registered signing methods. The HMAC methods take a []byte key;
    the others (RSA, RSA-PSS, ECDSA, EdDSA, none) refuse one. *)
Inductive SigningMethod : Type :=
| SigningMethodHMAC (Name : string) (Hash : sha2.Params)
| SigningMethodOther (Name : string).

Definition SigningMethodHS256 : SigningMethod := SigningMethodHMAC "HS256" sha2.SHA256.
Definition SigningMethodHS384 : SigningMethod := SigningMethodHMAC "HS384" sha2.SHA384.
Definition SigningMethodHS512 : SigningMethod := SigningMethodHMAC "HS512" sha2.SHA512.

Definition Alg (m : SigningMethod) : string :=
  match m with
  | SigningMethodHMAC name _ => name
  | SigningMethodOther name => name
  end.

Definition GetSigningMethod (alg : string) : option SigningMethod :=
  if String.eqb alg "HS256" then Some SigningMethodHS256
  else if String.eqb alg "HS384" then Some SigningMethodHS384
  else if String.eqb alg "HS512" then Some SigningMethodHS512
  else if existsb (String.eqb alg)
            ["RS256"; "RS384"; "RS512"; "PS256"; "PS384"; "PS512";
             "ES256"; "ES384"; "ES512"; "EdDSA"; "none"]
  then Some (SigningMethodOther alg)
  else None.

(** The MAC of a message under a key, as a byte string. *)
Definition mac (h : sha2.Params) (key message : string) : string :=
  bytes.to_string (hmac.Sum h (bytes.of_string key) (bytes.of_string message)).

Definition ErrInvalidKeyType : error_value := errors_New "key is of invalid type".
Definition ErrSignatureInvalid : error_value := errors_New "signature is invalid".
Definition CorruptInputError : error_value := errors_New "illegal base64 data".

(** [Sign(signingString, key)] *)
Definition Sign (m : SigningMethod) (signingString key : string) : string * error :=
  match m with
  | SigningMethodHMAC _ h => (EncodeSegment (mac h key signingString), None)
  | SigningMethodOther _ => ("", Some ErrInvalidKeyType)
  end.

(** [Verify(signingString, signature, key)] *)
Definition Verify (m : SigningMethod) (signingString signature key : string) : error :=
  match m with
  | SigningMethodHMAC _ h =>
      match DecodeSegment signature with
      | None => Some CorruptInputError
      | Some sig =>
          if negb (hmac.Equal sig (mac h key signingString))
          then Some ErrSignatureInvalid
          else None
      end
  | SigningMethodOther _ => Some ErrInvalidKeyType
  end.

(** *** Tokens *)

Record Token : Type := mkToken {
  Raw : string;
  Method : option SigningMethod;
  Header : list (string * json.value);
  TokenClaims : Claims;
  Signature : string;
  Valid : bool
}.

(** [NewWithClaims(method, claims)] *)
Definition NewWithClaims (method : SigningMethod) (claims : Claims) : Token :=
  mkToken "" (Some method)
          [("typ", json.Str "JWT"); ("alg", json.Str (Alg method))]
          claims "" false.

(** [SigningString()] *)
Definition SigningString (method : SigningMethod) (claims : Claims) : string :=
  strings.Join [EncodeSegment (MarshalHeader (Alg method));
                EncodeSegment (MarshalClaims claims)] ".".

(** [SignedString(key)] of a token made by [NewWithClaims]. *)
Definition SignedString (method : SigningMethod) (claims : Claims) (key : string)
  : string * error :=
  let sstr := SigningString method claims in
  let (sig, err) := Sign method sstr key in
  match err with
  | Some e => ("", Some e)
  | None => (strings.Join [sstr; sig] ".", None)
  end.

Definition ValidationErrorMalformed : Z := 1.
Definition ValidationErrorUnverifiable : Z := 2.
Definition ValidationErrorSignatureInvalid : Z := 4.
Definition ValidationErrorExpired : Z := 16.
Definition ValidationErrorIssuedAt : Z := 32.
Definition ValidationErrorNotValidYet : Z := 128.

(** [StandardClaims.Valid()] at the instant [now] (seconds): the message
    of the last check that failed and the flags of all that failed; no
    flag when the claims are valid. A claim of value zero is not checked.
    (The duration the library adds to the expiry message is left out.) *)
Definition claims_Valid (c : Claims) (now : Z) : string * Z :=
  let e1 := if (ExpiresAt c =? 0) || (now <=? ExpiresAt c) then ("", 0)
            else ("token is expired", ValidationErrorExpired) in
  let e2 := if (IssuedAt c =? 0) || (IssuedAt c <=? now) then e1
            else ("Token used before issued", Z.lor (snd e1) ValidationErrorIssuedAt) in
  if (NotBefore c =? 0) || (NotBefore c <=? now) then e2
  else ("token is not valid yet", Z.lor (snd e2) ValidationErrorNotValidYet).

(** [Parser.ParseUnverified]: the token without its signature checked,
    the segments, and the error. *)
Definition ParseUnverified (tokenString : string) (claims : Claims)
  : option Token * list string * error :=
  let parts := strings.Split tokenString "."%char in
  if negb (Nat.eqb (List.length parts) 3) then
    (None, parts,
     Some (ValidationError "token contains an invalid number of segments"
             ValidationErrorMalformed))
  else
    let token := mkToken tokenString None [] claims "" false in
    match DecodeSegment (List.nth 0 parts "") with
    | None =>
        (Some token, parts,
         Some (ValidationError "illegal base64 data" ValidationErrorMalformed))
    | Some headerBytes =>
        match UnmarshalHeader headerBytes with
        | None =>
            (Some token, parts,
             Some (ValidationError "invalid header" ValidationErrorMalformed))
        | Some header =>
            let token := mkToken tokenString None header claims "" false in
            match DecodeSegment (List.nth 1 parts "") with
            | None =>
                (Some token, parts,
                 Some (ValidationError "illegal base64 data" ValidationErrorMalformed))
            | Some claimBytes =>
                match DecodeClaims claimBytes claims with
                | None =>
                    (Some token, parts,
                     Some (ValidationError "invalid claims" ValidationErrorMalformed))
                | Some claims =>
                    let token := mkToken tokenString None header claims "" false in
                    match header_get "alg" header with
                    | Some (json.Str method) =>
                        match GetSigningMethod method with
                        | Some m =>
                            (Some (mkToken tokenString (Some m) header claims "" false),
                             parts, None)
                        | None =>
                            (Some token, parts,
                             Some (ValidationError "signing method (alg) is unavailable."
                                     ValidationErrorUnverifiable))
                        end
                    | _ =>
                        (Some token, parts,
                         Some (ValidationError "signing method (alg) is unspecified."
                                 ValidationErrorUnverifiable))
                    end
                end
            end
        end
    end.

(** [ParseWithClaims(tokenString, claims, keyFunc)] for a key function
    that returns a [[]byte] key or an error. The claims are validated
    against the clock, then the signature is verified. *)
Definition ParseWithClaims (tokenString : string) (claims : Claims)
    (keyFunc : Token -> string * error) : Go (option Token * error) :=
  let '(token, parts, err) := ParseUnverified tokenString claims in
  match err with
  | Some e => ret (token, Some e)
  | None =>
      let* token := deref token in
      let (key, err) := keyFunc token in
      match err with
      | Some e =>
          ret (Some token, Some (ValidationError (Error e) ValidationErrorUnverifiable))
      | None =>
          (* Validate Claims *)
          let* now := time_Now in
          let vErr := claims_Valid (TokenClaims token) (Unix now) in
          (* Perform validation *)
          let signature := List.nth 2 parts "" in
          let token := mkToken (Raw token) (Method token) (Header token)
                               (TokenClaims token) signature false in
          let* method := deref (Method token) in
          let vErr :=
            match Verify method (strings.Join (List.firstn 2 parts) ".") signature key with
            | Some e => (Error e, Z.lor (snd vErr) ValidationErrorSignatureInvalid)
            | None => vErr
            end in
          if snd vErr =? 0 then
            ret (Some (mkToken (Raw token) (Method token) (Header token)
                               (TokenClaims token) signature true), None)
          else ret (Some token, Some (ValidationError (fst vErr) (snd vErr)))
      end
  end.
End jwt.

(** ** Package infrastructure: the token service *)

Module JwtService.
Section jwt_service.
(** [jwtSecret], read from the environment when the process starts. *)
Variable jwtSecret : string.

(** [GenerateToken] generates a new JWT token. *)
Definition GenerateToken (userID role : string) : Go (string * error) :=
  let* now := time_Now in
  let expiresAt := Unix (Add now (24 * Hour)) in
  let* now := time_Now in
  let issuedAt := Unix now in
  let claims := mkClaims userID role "" expiresAt "" issuedAt "" 0 "" in
  ret (jwt.SignedString jwt.SigningMethodHS256 claims jwtSecret).

(** [ValidateToken] validates a JWT token and returns the claims. *)
Definition ValidateToken (tokenString : string) : Go (option Claims * error) :=
  let* (token, err) :=
    jwt.ParseWithClaims tokenString jwt.zero_claims (fun _ => (jwtSecret, None)) in
  match err with
  | Some e => ret (None, Some e)
  | None =>
      let* token := deref token in
      if jwt.Valid token then ret (Some (jwt.TokenClaims token), None)
      else ret (None, Some (errors_New "invalid token"))
  end.
End jwt_service.
End JwtService.

(** ** Tampering with a token *)

(** The string [s] with the character at position [p] replaced by [c]. *)
Fixpoint replace_at (p : nat) (c : ascii) (s : string) {struct s} : string :=
  match s with
  | EmptyString => EmptyString
  | String x rest =>
      match p with
      | O => String c rest
      | S p' => String x (replace_at p' c rest)
      end
  end.

(** The token a call of [GenerateToken] returned. *)
Definition issued_token (r : outcome (string * error) * World) : string :=
  match fst r with
  | Ret (token, _) => token
  | Panic _ => EmptyString
  end.

(** The part of a token that is signed: its first two segments, as
    [ParseWithClaims] joins them. *)
Definition signing_part (token : string) : string :=
  strings.Join (List.firstn 2 (strings.Split token "."%char)) ".".

(** The hash functions of the registered HMAC signing methods. *)
Definition hmac_hashes : list sha2.Params := [sha2.SHA256; sha2.SHA384; sha2.SHA512].

(** ** Example data *)

Module Examples.
Definition example_clock : nat -> Time :=
  fun n => 1700000000 * Second + Z.of_nat n.

(** Generated identifiers: eleven fixed bytes and a counter. *)
Definition example_ids : nat -> ObjectID :=
  fun n => ("eT" ++ "generated" ++ String (ascii_of_nat (n mod 256)) "")%string.

Definition oid (hex : string) : ObjectID := fst (ObjectIDFromHex hex).

Definition task_id : ObjectID := oid "507f1f77bcf86cd799439011".
Definition alice_id : ObjectID := oid "64b7f0c2a1d3e4f5a6b7c8d9".
Definition mallory_id : ObjectID := oid "ffffffffffffffffffffffff".

Definition empty_world : World :=
  mkWorld example_clock 0 example_ids 0 None (mkCollection [] []) (mkCollection [] []).

Definition stored_task (status : string) : Task.t :=
  Task.mk task_id "Write report" "" (example_clock 0 + Hour) status alice_id
          (example_clock 0 - Hour) (example_clock 0 - Hour).

(** A world whose tasks collection holds one task of the given status. *)
Definition world_with_task (status : string) : World :=
  mkWorld example_clock 0 example_ids 0 None
          (mkCollection [stored_task status] []) (mkCollection [] []).

(** An update of that task, as a controller passes it on. *)
Definition update_to (status : string) : Task.t :=
  Task.mk task_id "Write report" "revised" (example_clock 0 + 2 * Hour) status
          NilObjectID 0 0.

(** A new task as bound from a request body. *)
Definition new_task (title : string) (due : Time) (status : string) : Task.t :=
  Task.mk NilObjectID title "" due status NilObjectID 0 0.
End Examples.

Module UserExamples.
Import UserUsecases.

(** The stand-ins the use case tests inject. *)
Definition mock_userUseCase : userUseCase :=
  mk Repository.NewUserRepository
     (fun _ => ret ("hashedPassword", None))
     (fun _ _ => true)
     (fun _ _ => ret ("mockToken", None)).

Definition alice : User.t :=
  User.mk Examples.alice_id "Alice" "alice@example.com" "hashedPassword" "user"
          (Examples.example_clock 0 - Hour) (Examples.example_clock 0 - Hour).

Definition world_with_alice : World :=
  mkWorld Examples.example_clock 0 Examples.example_ids 0 None
          (mkCollection [] []) (mkCollection [alice] []).
End UserExamples.

Module RequestExamples.
(** A token issued to an administrator, and a request that carries it. *)
Definition admin_token : string :=
  issued_token (JwtService.GenerateToken "mock_secret" "12345" "admin"
                  Examples.empty_world).

Definition admin_claims : Claims :=
  mkClaims "12345" "admin" "" 1700086400 "" 1700000000 "" 0 "".

Definition bearer (token body : string) : http.Request :=
  http.mkRequest {[ "Authorization" := [("Bearer " ++ token)%string] ]} ∅ body.

(** A binding of request bodies that yields a task owned by somebody
    else, whatever the body. *)
Definition bind_foreign_task (_ : string) : Task.t * error :=
  (Task.mk NilObjectID "Write report" "" (Examples.example_clock 0 + Hour) "pending"
           Examples.mallory_id 0 0,
   None).

Definition after_issue : World := snd (time_Now (snd (time_Now Examples.empty_world))).

(** The world after that token was validated in [after_issue]. *)
Definition after_validation : World :=
  snd (JwtService.ValidateToken "mock_secret" admin_token after_issue).
End RequestExamples.

(** ** Vocabulary of the statements *)

(** *** Worlds *)

Section WorldVocabulary.
Import Repository.

(** The instant [time.Now()] returns in [w], and the world afterwards. *)
Definition now_of (w : World) : Time := clock w (reads w).
Definition tick (w : World) : World := snd (time_Now w).

(** The stored task of that identifier, if any. *)
Definition lookup_task (id : ObjectID) (w : World) : option Task.t :=
  List.find (fun d => String.eqb (Task.ID d) id) (docs (tasks w)).

(** The world after the tasks collection received a call. *)
Definition logged (c : Call Task.t) (w : World) : World :=
  set_tasks (mkCollection (docs (tasks w)) (calls (tasks w) ++ [c])) w.

Definition by_id (id : ObjectID) : bson_M := [("_id", any_ObjectID id)].

(** The stored user of that email, if any. *)
Definition lookup_user (email : string) (w : World) : option User.t :=
  List.find (fun d => String.eqb (User.Email d) email) (docs (users w)).

Definition logged_users (c : Call User.t) (w : World) : World :=
  set_users (mkCollection (docs (users w)) (calls (users w) ++ [c])) w.

Definition by_email (email : string) : bson_M := [("email", any_string email)].

End WorldVocabulary.

(** *** Status transitions *)

Section TaskVocabulary.
Import Usecases.taskUseCase Repository Examples.

(** The transitions of C4 on the example task, by evaluation: the result
    of [UpdateTask] for each pair (stored status, incoming status). *)
Definition transition (from to : string) : outcome error :=
  fst (UpdateTask NewTaskRepository ctx_Background (update_to to) (world_with_task from)).

End TaskVocabulary.

(** *** Responses *)

Section ResponseVocabulary.
Import gin Middleware.

Definition forbidden (c : gin.Context) : gin.Context :=
  Abort (JSON http.StatusForbidden (H [("error", "admin access required")]) c).

Definition unauthorized (c : gin.Context) : gin.Context :=
  JSON http.StatusUnauthorized (APIResponse "unauthorized" no_data) c.

End ResponseVocabulary.

(** *** Six-bit values *)

Section Base64Vocabulary.
Import base64.

(** The characters of a list of six-bit values. *)
Fixpoint enc (sx : list N) : string :=
  match sx with
  | [] => EmptyString
  | v :: rest => String (encode_char v) (enc rest)
  end.

(** The bytes of a list of six-bit values, quantum by quantum. *)
Fixpoint bytes_of (sx : list N) : string :=
  match sx with
  | a :: b :: c :: d :: rest => (quantum_bytes [a; b; c; d] ++ bytes_of rest)%string
  | _ => quantum_bytes sx
  end.

(** The six-bit values of a byte string. *)
Fixpoint sextets (src : string) : list N :=
  match src with
  | EmptyString => []
  | String a EmptyString =>
      let a := N_of_ascii a in [a / 4; (a mod 4) * 16]%N
  | String a (String b EmptyString) =>
      let a := N_of_ascii a in
      let b := N_of_ascii b in
      [a / 4; (a mod 4) * 16 + b / 16; (b mod 16) * 4]%N
  | String a (String b (String c rest)) =>
      let a := N_of_ascii a in
      let b := N_of_ascii b in
      let c := N_of_ascii c in
      List.app [a / 4; (a mod 4) * 16 + b / 16; (b mod 16) * 4 + c / 64; c mod 64]%N
               (sextets rest)
  end.

Definition six_bit (sx : list N) : Prop := Forall (fun v => (v < 64)%N) sx.

Definition padding (n : nat) : string :=
  strings_more.Repeat padChar ((4 - n mod 4) mod 4).

End Base64Vocabulary.

(** *** JSON texts *)

Section JsonVocabulary.
Import json.

(** What [Marshal] writes for an ASCII character. *)
Definition esc (c : ascii) : string :=
  if htmlSafe (N_of_ascii c) then String c EmptyString
  else escape_byte (N_of_ascii c).

(** Nothing of a number can start with this input. *)
Definition ends_number (tail : string) : Prop :=
  exists rest, tail = String ","%char rest \/ tail = String "}"%char rest.

(** The claims [GenerateToken] builds. *)
Definition issued_claims (userID role : string) (exp iat : Z) : Claims :=
  mkClaims userID role "" exp "" iat "" 0 "".

Definition int64 (z : Z) : Prop := - 2 ^ 63 <= z < 2 ^ 63.

End JsonVocabulary.

(** *** Token segments *)

Section TokenVocabulary.

(** No character of [s] is [sep]. *)
Fixpoint free_of (sep : ascii) (s : string) : bool :=
  match s with
  | EmptyString => true
  | String c rest => negb (Ascii.eqb c sep) && free_of sep rest
  end.

(** The header segment of every token signed with HS256. *)
Definition header_segment : string := jwt.EncodeSegment (jwt.MarshalHeader "HS256").

End TokenVocabulary.

(** ** Package controllers: the other task handlers *)

Module TaskControllerImpl.
Section handlers.
Import gin.

Variable taskUseCase : TaskUseCase.t.

Definition GetTaskByID : HandlerFunc :=
  fun _ ctx =>
    let (id, err) := ObjectIDFromHex (Param ctx "id") in
    match err with
    | Some _ =>
        ret (JSON http.StatusBadRequest (APIResponse "Invalid task ID" no_data) ctx)
    | None =>
        let* (task, err) := TaskUseCase.GetTaskByID taskUseCase ctx_Background id in
        match err with
        | Some e =>
            if String.eqb (Error e) "task not found" then
              ret (JSON http.StatusNotFound (APIResponse (Error e) no_data) ctx)
            else
              ret (JSON http.StatusInternalServerError
                     (APIResponse "internal server error" no_data) ctx)
        | None =>
            ret (JSON http.StatusOK
                   (APIResponse "Task retrieved successfully" (data_task task)) ctx)
        end
    end.

Definition GetTasksByUserID : HandlerFunc :=
  fun _ ctx =>
    let (userID, exists_) := Get ctx "user_id" in
    if negb exists_ || any_eqb userID any_nil then
      ret (JSON http.StatusUnauthorized (APIResponse "unauthorized" no_data) ctx)
    else
      match userID with
      | any_string userID =>
          let (id, err) := ObjectIDFromHex userID in
          match err with
          | Some _ =>
              ret (JSON http.StatusBadRequest
                     (APIResponse "Invalid user ID" no_data) ctx)
          | None =>
              let* (tasks, err) :=
                TaskUseCase.GetTasksByUserID taskUseCase ctx_Background id in
              match err with
              | Some e =>
                  ret (JSON http.StatusInternalServerError
                         (APIResponse (Error e) no_data) ctx)
              | None =>
                  ret (JSON http.StatusOK
                         (APIResponse "Tasks retrieved successfully" (data_tasks tasks))
                         ctx)
              end
          end
      | _ => panic Controllers.interface_conversion
      end.

Definition DeleteTask : HandlerFunc :=
  fun _ ctx =>
    let (id, err) := ObjectIDFromHex (Param ctx "id") in
    match err with
    | Some _ =>
        ret (JSON http.StatusBadRequest (APIResponse "Invalid task ID" no_data) ctx)
    | None =>
        let* err := TaskUseCase.DeleteTask taskUseCase ctx_Background id in
        match err with
        | Some e => ret (JSON http.StatusBadRequest (APIResponse (Error e) no_data) ctx)
        | None =>
            ret (JSON http.StatusOK (APIResponse "Task deleted successfully" no_data) ctx)
        end
    end.
End handlers.
End TaskControllerImpl.

(** ** Package routers: the other protected task routes *)

(** The handlers that [SetupRouter] registers on the route, after the gate,
    in the order of the source. The handlers that [gin.Default()] puts
    before them, Logger and Recovery, are no part of the list: Logger writes
    to the log only, and Recovery acts only when a handler panics. *)
Module SetupRouter.
Definition GET_api_tasks (GetTasksByUserID authMiddleware : gin.HandlerFunc)
  : list gin.HandlerFunc :=
  [authMiddleware; GetTasksByUserID].
End SetupRouter.

(** ** Package main: the wiring *)

Module main.
(** [middleware1] and [middleware2] write a line to the log and call
    [c.Next()]; the log is no part of the model. *)
Definition middleware1 : gin.HandlerFunc := fun next c => next c.
Definition middleware2 : gin.HandlerFunc := fun next c => next c.

(** The use case [main] builds, over the Mongo-backed repository. *)
Definition taskUseCase : TaskUseCase.t := NewTaskUseCase Repository.NewTaskRepository.

Section routes.
Variable ShouldBindJSON : string -> Task.t * error.

(** The handler chains of the router [main] sets up, with [middleware1] in
    the place of the authentication gate and [middleware2] in the place of
    the admin gate. *)
Definition POST_api_tasks : list gin.HandlerFunc :=
  Routers.POST_api_tasks (Controllers.CreateTask ShouldBindJSON taskUseCase) middleware1.

Definition GET_api_admin_tasks : list gin.HandlerFunc :=
  Routers.GET_api_admin_tasks (Controllers.GetAllTasks taskUseCase)
    middleware1 middleware2.
End routes.

Definition GET_api_tasks : list gin.HandlerFunc :=
  SetupRouter.GET_api_tasks (TaskControllerImpl.GetTasksByUserID taskUseCase) middleware1.
End main.

(** ** Vocabulary of the statements about users *)

(** The stored user of that identifier, if any. *)
Definition lookup_user_by_id (id : ObjectID) (w : World) : option User.t :=
  List.find (fun d => String.eqb (User.ID d) id) (docs (users w)).

(** ** Vocabulary of the statements about tokens *)

(** The HMAC signing methods the library registers: their names and hash
    functions. *)
Definition hmac_methods : list (string * sha2.Params) :=
  [("HS256", sha2.SHA256); ("HS384", sha2.SHA384); ("HS512", sha2.SHA512)].

(** * Properties *)

Open Scope list_scope.

(** ** Strings *)

Lemma append_String (c : ascii) (s t : string) :
  (String c s ++ t)%string = String c (s ++ t)%string.
Proof. reflexivity. Qed.

Lemma append_empty (t : string) : ("" ++ t)%string = t.
Proof. reflexivity. Qed.

Lemma append_empty_r (s : string) : (s ++ "")%string = s.
Proof. induction s as [|c s IH]; [reflexivity|]. rewrite append_String. now rewrite IH. Qed.

Lemma append_assoc (s t u : string) :
  ((s ++ t) ++ u)%string = (s ++ t ++ u)%string.
Proof.
  induction s as [|c s IH]; [reflexivity|]. rewrite !append_String. now rewrite IH.
Qed.

Lemma length_append (s t : string) :
  String.length (s ++ t)%string = (String.length s + String.length t)%nat.
Proof.
  induction s as [|c s IH]; [reflexivity|]. rewrite append_String. cbn [String.length].
  now rewrite IH.
Qed.

Ltac str_simpl := rewrite ?append_String, ?append_empty.

(** ** Task use case *)

Section TaskUseCaseFacts.
Import Usecases.taskUseCase.

Lemma time_Now_eq w : time_Now w = (Ret (now_of w), tick w).
Proof. reflexivity. Qed.

Lemma eqb_empty_false (s : string) : s <> "" -> String.eqb s "" = false.
Proof. intros H. now apply String.eqb_neq. Qed.

Lemma Before_false (t u : Time) : ~ t < u -> Before t u = false.
Proof. intros H. unfold Before. now apply Z.ltb_ge, Z.nlt_ge. Qed.

Lemma Before_true (t u : Time) : t < u -> Before t u = true.
Proof. intros H. unfold Before. now apply Z.ltb_lt. Qed.

(** After validation, [CreateTask] is the repository's [Create] on the task
    with its status overwritten. *)
Lemma CreateTask_valid repo ctx task w :
  Task.Title task <> "" ->
  ~ Task.DueDate task < now_of w ->
  CreateTask repo ctx task w =
  TaskRepository.Create repo ctx (Task.with_Status StatusPending task) (tick w).
Proof.
  intros Ht Hd. unfold CreateTask.
  rewrite (eqb_empty_false _ Ht).
  unfold bind at 1. rewrite time_Now_eq.
  now rewrite (Before_false _ _ Hd).
Qed.

(** Before validation passes nothing is delegated. *)
Lemma CreateTask_empty_title repo ctx task w :
  Task.Title task = "" ->
  CreateTask repo ctx task w =
  (Ret (None, Some (errors_New "task title is required")), w).
Proof. intros Ht. unfold CreateTask. now rewrite Ht. Qed.

Lemma CreateTask_past_due repo ctx task w :
  Task.Title task <> "" ->
  Task.DueDate task < now_of w ->
  CreateTask repo ctx task w =
  (Ret (None, Some (errors_New "due date cannot be in the past")), tick w).
Proof.
  intros Ht Hd. unfold CreateTask.
  rewrite (eqb_empty_false _ Ht).
  unfold bind at 1. rewrite time_Now_eq.
  now rewrite (Before_true _ _ Hd).
Qed.

(** After validation, [UpdateTask] fetches the stored task and decides on
    its status. *)
Lemma UpdateTask_valid repo ctx task w :
  Task.Title task <> "" ->
  ~ Task.DueDate task < now_of w ->
  UpdateTask repo ctx task w =
  match TaskRepository.GetByID repo ctx (Task.ID task) (tick w) with
  | (Ret (existingTask, err), w1) =>
      match err, existingTask with
      | Some e, _ => (Ret (Some e), w1)
      | None, None => (Panic nil_dereference, w1)
      | None, Some existing =>
          if String.eqb (Task.Status existing) StatusCompleted
             && negb (String.eqb (Task.Status task) StatusCompleted)
          then (Ret (Some (errors_New "cannot change status of completed task")), w1)
          else TaskRepository.Update repo ctx task w1
      end
  | (Panic msg, w1) => (Panic msg, w1)
  end.
Proof.
  intros Ht Hd. unfold UpdateTask.
  rewrite (eqb_empty_false _ Ht).
  unfold bind at 1. rewrite time_Now_eq.
  rewrite (Before_false _ _ Hd).
  unfold bind at 1.
  destruct (TaskRepository.GetByID repo ctx (Task.ID task) (tick w)) as [[[t e]|msg] w1];
    [|reflexivity].
  destruct e as [e|]; [reflexivity|].
  destruct t as [existing|]; [|reflexivity].
  unfold bind, deref, ret.
  now destruct (_ && _).
Qed.

End TaskUseCaseFacts.

(** ** The Mongo-backed task repository *)

Section MongoTaskRepository.
Import Repository.

Lemma matches_by_id id (d : Task.t) :
  mongo.matches (by_id id) d = String.eqb (Task.ID d) id.
Proof. unfold mongo.matches, by_id. cbn. now rewrite andb_true_r. Qed.

Lemma find_by_id id (ds : list Task.t) :
  List.find (mongo.matches (by_id id)) ds =
  List.find (fun d => String.eqb (Task.ID d) id) ds.
Proof.
  induction ds as [|d ds IH]; [reflexivity|].
  cbn [List.find]. rewrite matches_by_id. now rewrite IH.
Qed.

Lemma GetByID_tasks ctx id w :
  fault w = None ->
  TaskRepository.GetByID NewTaskRepository ctx id w =
  (Ret (lookup_task id w, None), logged (CallFindOne (by_id id)) w).
Proof.
  intros Hf. cbn. unfold taskRepository.GetByID. cbn.
  unfold mongo.FindOne, bind, mongo.record, mongo.get_fault, mongo.get_docs. cbn.
  rewrite Hf. fold (by_id id). rewrite find_by_id. unfold lookup_task.
  destruct (List.find _ _); reflexivity.
Qed.

Lemma GetByID_tasks_fault ctx id w e :
  fault w = Some e ->
  TaskRepository.GetByID NewTaskRepository ctx id w =
  (Ret (None, if is_ErrNoDocuments e then None else Some e),
   logged (CallFindOne (by_id id)) w).
Proof.
  intros Hf. cbn. unfold taskRepository.GetByID. cbn.
  unfold mongo.FindOne, bind, mongo.record, mongo.get_fault. cbn.
  rewrite Hf. cbn. destruct (is_ErrNoDocuments e); reflexivity.
Qed.

Lemma update_first_found (filter : bson_M) (f : Task.t -> Task.t) ds d :
  List.find (mongo.matches filter) ds = Some d ->
  exists ds', mongo.update_first filter f ds = Some ds'
              /\ length ds' = length ds.
Proof.
  revert d. induction ds as [|x ds IH]; intros d; [discriminate|].
  cbn. destruct (mongo.matches filter x).
  - intros _. now eexists.
  - intros H. destruct (IH _ H) as [ds' [-> Hl]]. eexists. split; [reflexivity|].
    cbn. now rewrite Hl.
Qed.

Lemma UpdateOne_tasks ctx filter v w :
  fault w = None ->
  mongo.UpdateOne tasks_handle ctx filter (bson_set v) w =
  match mongo.update_first filter (fun d => Task.with_ID (Task.ID d) (Task.bson v))
          (docs (tasks w)) with
  | Some ds' =>
      (Ret (Some {| MatchedCount := 1; ModifiedCount := 1 |}, None),
       set_tasks (mkCollection ds' (calls (tasks w) ++ [CallUpdateOne filter v])) w)
  | None =>
      (Ret (Some {| MatchedCount := 0; ModifiedCount := 0 |}, None),
       logged (CallUpdateOne filter v) w)
  end.
Proof.
  intros Hf.
  unfold mongo.UpdateOne, bind, mongo.record, mongo.get_fault, mongo.get_docs,
    mongo.put_docs, ret.
  cbn [coll_get coll_set tasks_handle tasks set_tasks fault docs calls doc_id
       doc_with_id doc_bson Task_Document].
  rewrite Hf.
  destruct (mongo.update_first _ _ _); reflexivity.
Qed.

(** Updating a stored task succeeds when the server can be reached. *)
Lemma Update_tasks_stored ctx task existing w :
  fault w = None ->
  lookup_task (Task.ID task) w = Some existing ->
  exists w',
    TaskRepository.Update NewTaskRepository ctx task w = (Ret None, w')
    /\ In (CallUpdateOne (by_id (Task.ID task))
             (Task.with_UpdatedAt (now_of w) task))
          (calls (tasks w')).
Proof.
  intros Hf Hl.
  unfold NewTaskRepository, TaskRepository.Update, taskRepository.Update,
    MongoCollectionWrapper, CollectionInterface.UpdateOne.
  unfold bind at 1. rewrite time_Now_eq.
  unfold bind at 1.
  change (Task.ID (Task.with_UpdatedAt (now_of w) task)) with (Task.ID task).
  fold (by_id (Task.ID task)).
  rewrite UpdateOne_tasks by exact Hf.
  unfold lookup_task in Hl. rewrite <- find_by_id in Hl.
  destruct (update_first_found (by_id (Task.ID task))
              (fun d => Task.with_ID (Task.ID d)
                         (Task.bson (Task.with_UpdatedAt (now_of w) task)))
              (docs (tasks (tick w))) _ Hl) as [ds' [Hu _]].
  rewrite Hu. cbn. eexists. split; [reflexivity|].
  cbn. apply in_or_app. right. now left.
Qed.

End MongoTaskRepository.

(** ** Task lifecycle: the claims about [CreateTask] and [UpdateTask] *)

Section TaskClaims.
Import Usecases.taskUseCase Repository Examples.

Lemma InsertOne_tasks_result ctx doc w r e w' :
  mongo.InsertOne tasks_handle ctx doc w = (Ret (Some r, e), w') ->
  exists id,
    InsertedID r = any_ObjectID id
    /\ docs (tasks w') = docs (tasks w) ++ [Task.bson (Task.with_ID id doc)]
    /\ calls (tasks w') = calls (tasks w) ++ [CallInsertOne doc].
Proof.
  unfold mongo.InsertOne, bind, mongo.record, mongo.get_fault, mongo.get_docs,
    mongo.put_docs, ret, NewObjectID.
  cbn [coll_get coll_set tasks_handle tasks set_tasks fault docs calls doc_id
       doc_with_id doc_bson Task_Document].
  destruct (fault w); [discriminate|].
  destruct (String.eqb (Task.ID doc) NilObjectID);
    cbn [coll_get coll_set tasks_handle tasks set_tasks fault docs calls];
    destruct (mongo.has_id _ _); try discriminate;
    intros H; injection H as <- _ <-; eexists; cbn; eauto.
Qed.

(** What the Mongo-backed [Create] returns is what it stored, in its BSON
    form: the task it was given, with the time stamps and the identifier
    filled in. *)
Lemma Create_tasks_result ctx task w created e w' :
  TaskRepository.Create NewTaskRepository ctx task w = (Ret (Some created, e), w') ->
  Task.Status created = Task.Status task
  /\ Task.UserID created = Task.UserID task
  /\ Task.Title created = Task.Title task
  /\ docs (tasks w') = docs (tasks w) ++ [Task.bson created]
  /\ exists doc, calls (tasks w') = calls (tasks w) ++ [CallInsertOne doc]
                 /\ Task.Status doc = Task.Status task
                 /\ Task.UserID doc = Task.UserID task.
Proof.
  unfold NewTaskRepository, TaskRepository.Create, taskRepository.Create,
    MongoCollectionWrapper, CollectionInterface.InsertOne.
  destruct ctx; [discriminate|].
  unfold bind at 1. rewrite time_Now_eq.
  unfold bind at 1. rewrite time_Now_eq.
  unfold bind at 1.
  destruct (mongo.InsertOne _ _ _ _) as [[[r e']|msg] w1] eqn:Hins; [|discriminate].
  destruct e' as [e'|]; [discriminate|].
  destruct r as [r|]; [|discriminate].
  apply InsertOne_tasks_result in Hins. destruct Hins as [id [Hid [Hd Hc]]].
  unfold bind, deref, ret. rewrite Hid.
  intros H. injection H as <- _ <-.
  rewrite Hd, Hc. repeat split. eexists. repeat split.
Qed.

(** C7: for every task with a non-empty title and a due date in the
    future, [CreateTask] overwrites the status with "pending", whatever the
    caller supplied, and only then delegates to the repository's [Create]:
    the call equals [Create] on the task whose status is "pending"; with
    the Mongo-backed repository the task created, the document inserted and
    the task stored (the created one in its BSON form) carry that status. *)
Theorem CreateTask_forces_status_pending
  (taskRepo : TaskRepository.t) (ctx : Context) (task : Task.t) (w : World) :
  Task.Title task <> "" ->
  now_of w < Task.DueDate task ->
  Task.Status (Task.with_Status StatusPending task) = "pending"
  /\ CreateTask taskRepo ctx task w =
     TaskRepository.Create taskRepo ctx (Task.with_Status StatusPending task) (tick w)
  /\ forall created e w',
       CreateTask NewTaskRepository ctx task w = (Ret (Some created, e), w') ->
       Task.Status created = "pending"
       /\ docs (tasks w') = docs (tasks w) ++ [Task.bson created]
       /\ Task.Status (Task.bson created) = "pending"
       /\ exists doc, calls (tasks w') = calls (tasks w) ++ [CallInsertOne doc]
                      /\ Task.Status doc = "pending".
Proof.
  intros Ht Hd. split; [reflexivity|]. split.
  - apply CreateTask_valid; [exact Ht|lia].
  - intros created e w'. rewrite CreateTask_valid; [|exact Ht|lia].
    intros H. apply Create_tasks_result in H.
    destruct H as [Hs [_ [_ [Hdocs [doc [Hc [Hsd _]]]]]]].
    split; [exact Hs|]. split; [exact Hdocs|]. split; [exact Hs|].
    exists doc. split; [exact Hc|exact Hsd].
Qed.

(** The caller asks for status "completed"; the task is created "pending". *)
Lemma CreateTask_forces_status_pending_witness :
  Task.Title (new_task "T" (now_of empty_world + Hour) "completed") <> ""
  /\ now_of empty_world < Task.DueDate (new_task "T" (now_of empty_world + Hour) "completed")
  /\ (Task.Status (Task.with_Status StatusPending
                     (new_task "T" (now_of empty_world + Hour) "completed")) = "pending"
      /\ CreateTask NewTaskRepository ctx_Background
           (new_task "T" (now_of empty_world + Hour) "completed") empty_world =
         TaskRepository.Create NewTaskRepository ctx_Background
           (Task.with_Status StatusPending
              (new_task "T" (now_of empty_world + Hour) "completed"))
           (tick empty_world)
      /\ forall created e w',
           CreateTask NewTaskRepository ctx_Background
             (new_task "T" (now_of empty_world + Hour) "completed") empty_world
           = (Ret (Some created, e), w') ->
           Task.Status created = "pending"
           /\ docs (tasks w') = docs (tasks empty_world) ++ [Task.bson created]
           /\ Task.Status (Task.bson created) = "pending"
           /\ exists doc, calls (tasks w') = calls (tasks empty_world) ++ [CallInsertOne doc]
                          /\ Task.Status doc = "pending").
Proof.
  split; [discriminate|]. split; [reflexivity|].
  apply (CreateTask_forces_status_pending NewTaskRepository ctx_Background
           (new_task "T" (now_of empty_world + Hour) "completed") empty_world).
  - discriminate.
  - reflexivity.
Defined.

(** With the example data the call does succeed. *)
Example CreateTask_example :
  let r := CreateTask NewTaskRepository ctx_Background
             (new_task "T" (now_of empty_world + Hour) "completed") empty_world in
  option_map Task.Status (fst (match fst r with Ret x => x | Panic _ => (None, None) end))
  = Some "pending"
  /\ List.map Task.Status (docs (tasks (snd r))) = ["pending"].
Proof. vm_compute. split; reflexivity. Qed.

End TaskClaims.

Section TaskClaims2.
Import Usecases.taskUseCase Repository Examples.

(** C6 as stated fails at the boundary: a due date equal to the instant
    read by [time.Now()] is not [Before] it, so [CreateTask] goes on and
    the repository's [Create] inserts the task. And with an empty title the
    error is the title's, not the due date's. *)
Lemma CreateTask_due_now_is_accepted :
  (let r := CreateTask NewTaskRepository ctx_Background
              (new_task "T" (now_of empty_world) "") empty_world in
   Task.DueDate (new_task "T" (now_of empty_world) "") = now_of empty_world
   /\ fst r = Ret (Some (Task.mk (example_ids 0) "T" "" (now_of empty_world) "pending"
                           NilObjectID (example_clock 1) (example_clock 2)),
                   None)
   /\ List.length (calls (tasks (snd r))) = 1%nat
   /\ List.length (docs (tasks (snd r))) = 1%nat)
  /\ fst (CreateTask NewTaskRepository ctx_Background
            (new_task "" (now_of empty_world - Hour) "") empty_world)
     = Ret (None, Some (errors_New "task title is required")).
Proof. vm_compute. repeat split. Qed.

(** C6, amended: for every task whose due date is strictly before the
    instant of the call, [CreateTask] fails with a validation error and
    does not invoke the repository's [Create]: nothing but the clock reading
    separates the world after from the world before, whatever the
    repository. The error is the due-date error when the title is not
    empty; with an empty title it is the title error, raised first. *)
Theorem CreateTask_rejects_past_due_date
  (taskRepo : TaskRepository.t) (ctx : Context) (task : Task.t) (w : World) :
  Task.DueDate task < now_of w ->
  CreateTask taskRepo ctx task w =
  (if String.eqb (Task.Title task) ""
   then (Ret (None, Some (errors_New "task title is required")), w)
   else (Ret (None, Some (errors_New "due date cannot be in the past")), tick w))
  /\ tasks (snd (CreateTask taskRepo ctx task w)) = tasks w.
Proof.
  intros Hd. destruct (String.eqb_spec (Task.Title task) "") as [Ht|Ht].
  - rewrite (CreateTask_empty_title _ _ _ _ Ht). now split.
  - rewrite (CreateTask_past_due _ _ _ _ Ht Hd). now split.
Qed.

Lemma CreateTask_rejects_past_due_date_witness :
  Task.DueDate (new_task "T" (now_of empty_world - Hour) "") < now_of empty_world
  /\ (CreateTask NewTaskRepository ctx_Background
        (new_task "T" (now_of empty_world - Hour) "") empty_world =
      (if String.eqb (Task.Title (new_task "T" (now_of empty_world - Hour) "")) ""
       then (Ret (None, Some (errors_New "task title is required")), empty_world)
       else (Ret (None, Some (errors_New "due date cannot be in the past")),
             tick empty_world))
      /\ tasks (snd (CreateTask NewTaskRepository ctx_Background
                       (new_task "T" (now_of empty_world - Hour) "") empty_world))
         = tasks empty_world).
Proof.
  split; [reflexivity|].
  apply (CreateTask_rejects_past_due_date NewTaskRepository ctx_Background
           (new_task "T" (now_of empty_world - Hour) "") empty_world).
  reflexivity.
Defined.

(** C5: for every stored task whose status is "completed" and every
    update with a valid title and due date whose status is not "completed",
    [UpdateTask] returns the error "cannot change status of completed task"
    without invoking the repository's [Update]: the collection received the
    lookup only and its documents are unchanged. *)
Theorem UpdateTask_completed_is_terminal
  (ctx : Context) (task existing : Task.t) (w : World) :
  Task.Title task <> "" ->
  ~ Task.DueDate task < now_of w ->
  fault w = None ->
  lookup_task (Task.ID task) w = Some existing ->
  Task.Status existing = StatusCompleted ->
  Task.Status task <> StatusCompleted ->
  exists w',
    UpdateTask NewTaskRepository ctx task w =
    (Ret (Some (errors_New "cannot change status of completed task")), w')
    /\ docs (tasks w') = docs (tasks w)
    /\ calls (tasks w') = calls (tasks w) ++ [CallFindOne (by_id (Task.ID task))].
Proof.
  intros Ht Hd Hf Hl Hs Hn.
  rewrite (UpdateTask_valid _ _ _ _ Ht Hd).
  rewrite GetByID_tasks by exact Hf.
  change (lookup_task (Task.ID task) (tick w)) with (lookup_task (Task.ID task) w).
  rewrite Hl, Hs. rewrite String.eqb_refl.
  apply String.eqb_neq in Hn. rewrite Hn. cbn [negb andb].
  eexists. split; [reflexivity|]. split; reflexivity.
Qed.

Lemma UpdateTask_completed_is_terminal_witness :
  exists w',
    UpdateTask NewTaskRepository ctx_Background (update_to "pending")
      (world_with_task "completed") =
    (Ret (Some (errors_New "cannot change status of completed task")), w')
    /\ docs (tasks w') = docs (tasks (world_with_task "completed"))
    /\ calls (tasks w') =
       calls (tasks (world_with_task "completed"))
       ++ [CallFindOne (by_id (Task.ID (update_to "pending")))].
Proof.
  apply (UpdateTask_completed_is_terminal ctx_Background (update_to "pending")
           (stored_task "completed") (world_with_task "completed")).
  - discriminate.
  - vm_compute. discriminate.
  - reflexivity.
  - reflexivity.
  - reflexivity.
  - discriminate.
Defined.

End TaskClaims2.

Section TaskClaims3.
Import Usecases.taskUseCase Repository Examples.

Lemma find_update_first id (f : Task.t -> Task.t) ds d :
  (forall x, Task.ID (f x) = Task.ID x) ->
  List.find (mongo.matches (by_id id)) ds = Some d ->
  exists ds',
    mongo.update_first (by_id id) f ds = Some ds'
    /\ List.find (fun x => String.eqb (Task.ID x) id) ds' = Some (f d).
Proof.
  intros Hid. revert d. induction ds as [|x ds IH]; intros d; [discriminate|].
  cbn [List.find mongo.update_first].
  destruct (mongo.matches (by_id id) x) eqn:Hm.
  - intros H. injection H as <-. eexists. split; [reflexivity|].
    cbn [List.find]. rewrite Hid. rewrite matches_by_id in Hm. now rewrite Hm.
  - intros H. destruct (IH _ H) as [ds' [-> Hf]]. eexists. split; [reflexivity|].
    cbn [List.find]. rewrite matches_by_id in Hm. now rewrite Hm.
Qed.

(** The Mongo-backed [Update] of a stored task: it succeeds, and the stored
    task then carries the fields of the update, in their BSON form. *)
Lemma Update_tasks_overwrites ctx task existing w :
  fault w = None ->
  lookup_task (Task.ID task) w = Some existing ->
  exists w',
    TaskRepository.Update NewTaskRepository ctx task w = (Ret None, w')
    /\ lookup_task (Task.ID task) w' =
       Some (Task.with_ID (Task.ID existing)
               (Task.bson (Task.with_UpdatedAt (now_of w) task)))
    /\ calls (tasks w') =
       calls (tasks w)
       ++ [CallUpdateOne (by_id (Task.ID task)) (Task.with_UpdatedAt (now_of w) task)].
Proof.
  intros Hf Hl.
  unfold NewTaskRepository, TaskRepository.Update, taskRepository.Update,
    MongoCollectionWrapper, CollectionInterface.UpdateOne.
  unfold bind at 1. rewrite time_Now_eq.
  unfold bind at 1.
  change (Task.ID (Task.with_UpdatedAt (now_of w) task)) with (Task.ID task).
  fold (by_id (Task.ID task)).
  rewrite UpdateOne_tasks by exact Hf.
  unfold lookup_task in Hl. rewrite <- find_by_id in Hl.
  destruct (find_update_first (Task.ID task)
              (fun d => Task.with_ID (Task.ID d)
                          (Task.bson (Task.with_UpdatedAt (now_of w) task)))
              (docs (tasks (tick w))) existing (fun x => eq_refl) Hl)
    as [ds' [Hu Hfind]].
  rewrite Hu. cbn. eexists. split; [reflexivity|].
  split; [exact Hfind|reflexivity].
Qed.

(** C10: when the task id of an update matches no stored task, the task
    repository's [GetByID] returns a nil task with a nil error, and
    [UpdateTask], which reads the Status field of that result without a nil
    guard, panics with a nil pointer dereference (nothing having been
    updated); when the id does match a stored task the read is safe and
    [UpdateTask] returns normally. So, with the server reachable, the
    dereference is safe exactly when the task id exists in the store. *)
Theorem UpdateTask_nil_dereference_when_absent
  (ctx : Context) (task : Task.t) (w : World) :
  Task.Title task <> "" ->
  ~ Task.DueDate task < now_of w ->
  fault w = None ->
  (lookup_task (Task.ID task) w = None ->
     fst (TaskRepository.GetByID NewTaskRepository ctx (Task.ID task) (tick w))
       = Ret (None, None)
     /\ fst (UpdateTask NewTaskRepository ctx task w) = Panic nil_dereference
     /\ docs (tasks (snd (UpdateTask NewTaskRepository ctx task w))) = docs (tasks w))
  /\ (forall existing, lookup_task (Task.ID task) w = Some existing ->
        exists err, fst (UpdateTask NewTaskRepository ctx task w) = Ret err).
Proof.
  intros Ht Hd Hf. split.
  - intros Hl. rewrite (UpdateTask_valid _ _ _ _ Ht Hd).
    rewrite GetByID_tasks by exact Hf.
    change (lookup_task (Task.ID task) (tick w)) with (lookup_task (Task.ID task) w).
    rewrite Hl. repeat split.
  - intros existing Hl. rewrite (UpdateTask_valid _ _ _ _ Ht Hd).
    rewrite GetByID_tasks by exact Hf.
    change (lookup_task (Task.ID task) (tick w)) with (lookup_task (Task.ID task) w).
    rewrite Hl.
    destruct (_ && _); [now eexists|].
    destruct (Update_tasks_overwrites ctx task existing
                (logged (CallFindOne (by_id (Task.ID task))) (tick w)) Hf Hl)
      as [w' [-> _]].
    now eexists.
Qed.

Lemma UpdateTask_nil_dereference_when_absent_witness :
  (lookup_task (Task.ID (update_to "in_progress")) empty_world = None ->
     fst (TaskRepository.GetByID NewTaskRepository ctx_Background
            (Task.ID (update_to "in_progress")) (tick empty_world))
       = Ret (None, None)
     /\ fst (UpdateTask NewTaskRepository ctx_Background (update_to "in_progress")
               empty_world) = Panic nil_dereference
     /\ docs (tasks (snd (UpdateTask NewTaskRepository ctx_Background
                            (update_to "in_progress") empty_world)))
        = docs (tasks empty_world))
  /\ (forall existing,
        lookup_task (Task.ID (update_to "in_progress")) empty_world = Some existing ->
        exists err, fst (UpdateTask NewTaskRepository ctx_Background
                           (update_to "in_progress") empty_world) = Ret err).
Proof.
  apply (UpdateTask_nil_dereference_when_absent ctx_Background
           (update_to "in_progress") empty_world).
  - discriminate.
  - vm_compute. discriminate.
  - reflexivity.
Defined.

(** The two sides of C10 on example data: the empty store, and a store
    holding the task. *)
Example UpdateTask_absent_example :
  lookup_task (Task.ID (update_to "in_progress")) empty_world = None
  /\ fst (UpdateTask NewTaskRepository ctx_Background (update_to "in_progress")
            empty_world) = Panic nil_dereference
  /\ fst (UpdateTask NewTaskRepository ctx_Background (update_to "in_progress")
            (world_with_task "pending")) = Ret None.
Proof. vm_compute. repeat split. Qed.

(** C4, what the code does: every update (valid title and due date) of a
    stored task whose status is not "completed" is accepted, whatever the
    incoming status; the repository's [Update] is invoked and the stored
    task takes the incoming status. In particular in_progress -> pending and
    pending -> completed are accepted, which C4 says are rejected. *)
Theorem UpdateTask_accepts_any_change_of_uncompleted
  (ctx : Context) (task existing : Task.t) (w : World) :
  Task.Title task <> "" ->
  ~ Task.DueDate task < now_of w ->
  fault w = None ->
  lookup_task (Task.ID task) w = Some existing ->
  Task.Status existing <> StatusCompleted ->
  exists w' stored,
    UpdateTask NewTaskRepository ctx task w = (Ret None, w')
    /\ lookup_task (Task.ID task) w' = Some stored
    /\ Task.Status stored = Task.Status task.
Proof.
  intros Ht Hd Hf Hl Hs.
  rewrite (UpdateTask_valid _ _ _ _ Ht Hd).
  rewrite GetByID_tasks by exact Hf.
  change (lookup_task (Task.ID task) (tick w)) with (lookup_task (Task.ID task) w).
  rewrite Hl. apply String.eqb_neq in Hs. rewrite Hs. cbn [andb].
  destruct (Update_tasks_overwrites ctx task existing
              (logged (CallFindOne (by_id (Task.ID task))) (tick w)) Hf Hl)
    as [w' [-> [Hl' _]]].
  exists w'. eexists. split; [reflexivity|]. split; [exact Hl'|reflexivity].
Qed.

(** The stored task is "in_progress", the update asks for "pending". *)
Lemma UpdateTask_accepts_any_change_of_uncompleted_witness :
  exists w' stored,
    UpdateTask NewTaskRepository ctx_Background (update_to "pending")
      (world_with_task "in_progress") = (Ret None, w')
    /\ lookup_task (Task.ID (update_to "pending")) w' = Some stored
    /\ Task.Status stored = Task.Status (update_to "pending").
Proof.
  apply (UpdateTask_accepts_any_change_of_uncompleted ctx_Background
           (update_to "pending") (stored_task "in_progress")
           (world_with_task "in_progress")).
  - discriminate.
  - vm_compute. discriminate.
  - reflexivity.
  - reflexivity.
  - discriminate.
Defined.

Example UpdateTask_transitions :
  transition "pending" "in_progress" = Ret None
  /\ transition "in_progress" "completed" = Ret None
  /\ transition "pending" "pending" = Ret None
  /\ transition "completed" "completed" = Ret None
  /\ transition "completed" "pending"
     = Ret (Some (errors_New "cannot change status of completed task"))
  /\ transition "completed" "in_progress"
     = Ret (Some (errors_New "cannot change status of completed task"))
  /\ transition "in_progress" "pending" = Ret None
  /\ transition "pending" "completed" = Ret None.
Proof. vm_compute. repeat split. Qed.

End TaskClaims3.

(** ** Login *)

Section LoginClaims.
Import UserUsecases Repository Examples UserExamples.

Lemma find_by_email email (ds : list User.t) :
  List.find (mongo.matches (by_email email)) ds =
  List.find (fun d => String.eqb (User.Email d) email) ds.
Proof.
  induction ds as [|d ds IH]; [reflexivity|].
  cbn [List.find]. rewrite IH.
  unfold mongo.matches, by_email. cbn. now rewrite andb_true_r.
Qed.

(** The Mongo-backed [GetByEmail]: absence is a nil user with a nil error. *)
Lemma GetByEmail_users ctx email w :
  fault w = None ->
  UserRepository.GetByEmail NewUserRepository ctx email w =
  (Ret (lookup_user email w, None), logged_users (CallFindOne (by_email email)) w).
Proof.
  intros Hf.
  unfold NewUserRepository, UserRepository.GetByEmail, userRepository.GetByEmail.
  unfold mongo.FindOne, bind, mongo.record, mongo.get_fault, mongo.get_docs, ret.
  cbn [coll_get coll_set users_handle users set_users fault docs calls].
  rewrite Hf. fold (by_email email). rewrite find_by_email. unfold lookup_user.
  destruct (List.find _ _); reflexivity.
Qed.

Lemma GetByEmail_users_fault ctx email w e :
  fault w = Some e ->
  UserRepository.GetByEmail NewUserRepository ctx email w =
  (Ret (None, if is_ErrNoDocuments e then None else Some e),
   logged_users (CallFindOne (by_email email)) w).
Proof.
  intros Hf.
  unfold NewUserRepository, UserRepository.GetByEmail, userRepository.GetByEmail.
  unfold mongo.FindOne, bind, mongo.record, mongo.get_fault, ret.
  cbn [coll_get coll_set users_handle users set_users fault docs calls].
  rewrite Hf. cbn. destruct (is_ErrNoDocuments e); reflexivity.
Qed.

(** C3, what the code does: for every email that is not in the store,
    [Login] over the Mongo-backed repository does not return "invalid
    credentials": the repository reports absence as a nil user with a nil
    error, [Login] only tests the error and then reads [user.Password]
    through the nil pointer, which panics, for every password. *)
Theorem Login_unknown_email_panics
  (u : userUseCase) (ctx : Context) (email password : string) (w : World) :
  userRepo u = NewUserRepository ->
  fault w = None ->
  lookup_user email w = None ->
  fst (Login u ctx email password w) = Panic nil_dereference.
Proof.
  intros Hr Hf Hl. unfold Login. rewrite Hr.
  unfold bind at 1. rewrite GetByEmail_users by exact Hf.
  rewrite Hl. reflexivity.
Qed.

Lemma Login_unknown_email_panics_witness :
  fst (Login mock_userUseCase ctx_Background "nobody@example.com" "secret1"
         world_with_alice) = Panic nil_dereference.
Proof.
  apply (Login_unknown_email_panics mock_userUseCase ctx_Background
           "nobody@example.com" "secret1" world_with_alice);
    reflexivity.
Defined.

(** Only a failure of the lookup itself is reported as "invalid
    credentials" with an empty token. *)
Lemma Login_lookup_error
  (u : userUseCase) (ctx : Context) (email password : string) (w : World) e :
  userRepo u = NewUserRepository ->
  fault w = Some e ->
  is_ErrNoDocuments e = false ->
  fst (Login u ctx email password w) =
  Ret (None, "", Some (errors_New "invalid credentials")).
Proof.
  intros Hr Hf He. unfold Login. rewrite Hr.
  unfold bind at 1. rewrite (GetByEmail_users_fault _ _ _ _ Hf).
  rewrite He. reflexivity.
Qed.

(** A known email with the right password logs in. *)
Example Login_known_email :
  fst (Login mock_userUseCase ctx_Background "alice@example.com" "secret1"
         world_with_alice) = Ret (Some alice, "mockToken", None).
Proof. vm_compute. reflexivity. Qed.

End LoginClaims.

(** ** Access guard *)

(** The administrator's token validates; the world afterwards is the one
    validation leaves. *)
Lemma admin_token_validates :
  JwtService.ValidateToken "mock_secret" RequestExamples.admin_token
    RequestExamples.after_issue
  = (Ret (Some RequestExamples.admin_claims, None), RequestExamples.after_validation).
Proof.
  unfold RequestExamples.after_validation.
  rewrite (surjective_pairing
             (JwtService.ValidateToken "mock_secret" RequestExamples.admin_token
                RequestExamples.after_issue)) at 1.
  f_equal; vm_compute; reflexivity.
Qed.

Section AccessGuard.
Import gin Middleware.

(** The role gate on its own: it reads the key "role". *)
Lemma AdminMiddleware_admits next c :
  Keys c !! "role" = Some (any_string "admin") ->
  AdminMiddleware next c = next c.
Proof. intros Hk. unfold AdminMiddleware, Get. now rewrite Hk. Qed.

Lemma AdminMiddleware_rejects_absent next c :
  Keys c !! "role" = None ->
  AdminMiddleware next c = ret (forbidden c).
Proof. intros Hk. unfold AdminMiddleware, Get. now rewrite Hk. Qed.

Lemma AdminMiddleware_rejects_other next c v :
  Keys c !! "role" = Some v ->
  v <> any_string "admin" ->
  AdminMiddleware next c = ret (forbidden c).
Proof.
  intros Hk Hv. unfold AdminMiddleware, Get. rewrite Hk.
  destruct v as [|s| | |]; try reflexivity.
  cbn [any_eq_string negb orb].
  destruct (String.eqb_spec s "admin") as [->|_]; [now destruct Hv|reflexivity].
Qed.

(** What the authentication gate attaches: the key "claims", nothing else. *)
Lemma AuthMiddleware_passes validateToken next r token claims w w1 :
  strings.Split (GetHeader (new_context r) "Authorization") " " = ["Bearer"; token] ->
  validateToken token w = (Ret (claims, None), w1) ->
  AuthMiddleware validateToken next (new_context r) w =
  next (Set_ "claims" (any_Claims claims) (new_context r)) w1.
Proof.
  intros Hs Hv. unfold AuthMiddleware.
  destruct (String.eqb_spec (GetHeader (new_context r) "Authorization") "") as [He|_].
  - rewrite He in Hs. discriminate.
  - rewrite Hs. cbn [List.length Nat.eqb negb orb List.nth].
    rewrite String.eqb_refl. cbn [negb].
    unfold bind. now rewrite Hv.
Qed.

Lemma authenticated_keys claims r :
  Keys (Set_ "claims" (any_Claims claims) (new_context r)) = {[ "claims" := any_Claims claims ]}.
Proof. reflexivity. Qed.

(** C1, what the code does: a request that passed the authentication gate
    is rejected by the admin role gate with 403 "admin access required"
    whatever the role of its Claims, "admin" included: the authentication
    gate stores the Claims under the key "claims" and the role gate looks
    for the key "role", which nothing sets. The handler after the gates is
    not called. *)
Theorem AdminMiddleware_rejects_authenticated_admin
  (validateToken : string -> Go (option Claims * error))
  (GetAllTasks : HandlerFunc) (r : http.Request) (token : string)
  (claims : Claims) (w w1 : World) :
  strings.Split (GetHeader (new_context r) "Authorization") " " = ["Bearer"; token] ->
  validateToken token w = (Ret (Some claims, None), w1) ->
  Role claims = "admin" ->
  ServeHTTP (Routers.GET_api_admin_tasks GetAllTasks
               (AuthMiddleware validateToken) AdminMiddleware) r w =
  (Ret (forbidden (Set_ "claims" (any_Claims (Some claims)) (new_context r))), w1)
  /\ gin.status (forbidden (Set_ "claims" (any_Claims (Some claims)) (new_context r)))
     = Some 403.
Proof.
  intros Hs Hv _. split; [|reflexivity].
  unfold ServeHTTP, Routers.GET_api_admin_tasks.
  cbn [Next]. unfold bind at 1.
  rewrite (AuthMiddleware_passes _ _ _ _ _ _ _ Hs Hv).
  cbn [Next]. unfold bind at 2.
  rewrite AdminMiddleware_rejects_absent by reflexivity.
  reflexivity.
Qed.

(** C1, example: a request with a token issued to an administrator. *)
Lemma AdminMiddleware_rejects_authenticated_admin_witness :
  ServeHTTP (Routers.GET_api_admin_tasks
               (Controllers.GetAllTasks (NewTaskUseCase Repository.NewTaskRepository))
               (AuthMiddleware (JwtService.ValidateToken "mock_secret")) AdminMiddleware)
            (RequestExamples.bearer RequestExamples.admin_token "")
            RequestExamples.after_issue
  = (Ret (forbidden
            (Set_ "claims" (any_Claims (Some RequestExamples.admin_claims))
               (new_context (RequestExamples.bearer RequestExamples.admin_token "")))),
     RequestExamples.after_validation)
  /\ gin.status
       (forbidden
          (Set_ "claims" (any_Claims (Some RequestExamples.admin_claims))
             (new_context (RequestExamples.bearer RequestExamples.admin_token ""))))
     = Some 403.
Proof.
  apply (AdminMiddleware_rejects_authenticated_admin
           (JwtService.ValidateToken "mock_secret")
           (Controllers.GetAllTasks (NewTaskUseCase Repository.NewTaskRepository))
           (RequestExamples.bearer RequestExamples.admin_token "")
           RequestExamples.admin_token RequestExamples.admin_claims
           RequestExamples.after_issue RequestExamples.after_validation).
  - vm_compute. reflexivity.
  - exact admin_token_validates.
  - reflexivity.
Defined.

End AccessGuard.

(** ** The create-task endpoint *)

Section CreateTaskEndpoint.
Import gin Middleware.

(** Behind the authentication gate the create-task handler never creates a
    task. The gate attaches the Claims under the key
    "claims"; the handler looks for the key "user_id", finds none, and
    answers 401 "unauthorized" without binding the body or calling the use
    case: the world is the one token validation left. *)
Theorem CreateTask_behind_AuthMiddleware_is_unauthorized
  (validateToken : string -> Go (option Claims * error))
  (ShouldBindJSON : string -> Task.t * error) (taskUseCase : TaskUseCase.t)
  (r : http.Request) (token : string) (claims : Claims) (w w1 : World) :
  strings.Split (GetHeader (new_context r) "Authorization") " " = ["Bearer"; token] ->
  validateToken token w = (Ret (Some claims, None), w1) ->
  ServeHTTP (Routers.POST_api_tasks
               (Controllers.CreateTask ShouldBindJSON taskUseCase)
               (AuthMiddleware validateToken)) r w =
  (Ret (finish (unauthorized (Set_ "claims" (any_Claims (Some claims)) (new_context r)))),
   w1)
  /\ gin.status
       (finish (unauthorized (Set_ "claims" (any_Claims (Some claims)) (new_context r))))
     = Some 401.
Proof.
  intros Hs Hv. split; [|reflexivity].
  unfold ServeHTTP, Routers.POST_api_tasks.
  cbn [Next]. unfold bind at 1.
  rewrite (AuthMiddleware_passes _ _ _ _ _ _ _ Hs Hv).
  cbn [Next]. unfold bind at 2.
  unfold Controllers.CreateTask, Get. rewrite authenticated_keys.
  reflexivity.
Qed.

(** An authenticated request whose body binds to a task owned by somebody
    else. *)
Lemma CreateTask_behind_AuthMiddleware_is_unauthorized_witness :
  ServeHTTP (Routers.POST_api_tasks
               (Controllers.CreateTask RequestExamples.bind_foreign_task
                  (NewTaskUseCase Repository.NewTaskRepository))
               (AuthMiddleware (JwtService.ValidateToken "mock_secret")))
            (RequestExamples.bearer RequestExamples.admin_token "{}")
            RequestExamples.after_issue
  = (Ret (finish
            (unauthorized
               (Set_ "claims" (any_Claims (Some RequestExamples.admin_claims))
                  (new_context (RequestExamples.bearer RequestExamples.admin_token "{}"))))),
     RequestExamples.after_validation)
  /\ gin.status
       (finish
          (unauthorized
             (Set_ "claims" (any_Claims (Some RequestExamples.admin_claims))
                (new_context (RequestExamples.bearer RequestExamples.admin_token "{}")))))
     = Some 401.
Proof.
  apply (CreateTask_behind_AuthMiddleware_is_unauthorized
           (JwtService.ValidateToken "mock_secret")
           RequestExamples.bind_foreign_task
           (NewTaskUseCase Repository.NewTaskRepository)
           (RequestExamples.bearer RequestExamples.admin_token "{}")
           RequestExamples.admin_token RequestExamples.admin_claims
           RequestExamples.after_issue RequestExamples.after_validation).
  - vm_compute. reflexivity.
  - exact admin_token_validates.
Defined.

(** With the key "user_id" in the context, as the controller tests set it,
    the handler hands the use case the bound task with its UserID
    overwritten by the identifier of the context: the UserID of the request
    body is never used. *)
Lemma CreateTask_owner_from_context
  (ShouldBindJSON : string -> Task.t * error) (taskUseCase : TaskUseCase.t)
  next (c : gin.Context) (userID : string) (id : ObjectID) (task : Task.t) (w : World) :
  Keys c !! "user_id" = Some (any_string userID) ->
  ObjectIDFromHex userID = (id, None) ->
  ShouldBindJSON (http.Body (Request c)) = (task, None) ->
  Controllers.CreateTask ShouldBindJSON taskUseCase next c w =
  match TaskUseCase.CreateTask taskUseCase ctx_Background (Task.with_UserID id task) w with
  | (Ret (createdTask, None), w') =>
      (Ret (JSON http.StatusCreated
              (APIResponse "Task created successfully" (data_task createdTask)) c), w')
  | (Ret (_, Some e), w') =>
      (Ret (JSON http.StatusBadRequest (APIResponse (Error e) no_data) c), w')
  | (Panic msg, w') => (Panic msg, w')
  end.
Proof.
  intros Hk Hid Hb. unfold Controllers.CreateTask, Get.
  rewrite Hk, Hb, Hid. cbn [negb]. unfold bind.
  destruct (TaskUseCase.CreateTask _ _ _ _) as [[[t [e|]]|msg] w']; reflexivity.
Qed.







End CreateTaskEndpoint.

(** ** Base64 *)

Section Base64Facts.
Import base64.

Ltac euclid := zify; Z.to_euclidean_division_equations; lia.

Lemma string_ind3 (P : string -> Prop) :
  P EmptyString ->
  (forall a, P (String a EmptyString)) ->
  (forall a b, P (String a (String b EmptyString))) ->
  (forall a b c s, P s -> P (String a (String b (String c s)))) ->
  forall s, P s.
Proof.
  intros H0 H1 H2 H3.
  assert (H : forall s, P s /\ (forall a, P (String a s)) /\ (forall a b, P (String a (String b s)))).
  { induction s as [|x s [IH0 [IH1 IH2]]].
    - repeat split; auto.
    - repeat split; auto. }
  intros s. apply H.
Qed.

Lemma list_ind4 {A} (P : list A -> Prop) :
  P [] ->
  (forall a, P [a]) ->
  (forall a b, P [a; b]) ->
  (forall a b c, P [a; b; c]) ->
  (forall a b c d l, P l -> P (a :: b :: c :: d :: l)) ->
  forall l, P l.
Proof.
  intros H0 H1 H2 H3 H4.
  assert (H : forall l, P l /\ (forall a, P (a :: l)) /\ (forall a b, P (a :: b :: l))
                        /\ (forall a b c, P (a :: b :: c :: l))).
  { induction l as [|x l [I0 [I1 [I2 I3]]]]; repeat split; auto. }
  intros l. apply H.
Qed.

Lemma byte_bound (a : ascii) : (N_of_ascii a < 256)%N.
Proof. apply N_ascii_bounded. Qed.

Lemma decodeMap_encode_char (v : N) :
  (v < 64)%N -> decodeMap (encode_char v) = Some v.
Proof.
  intros Hv.
  assert (H : forallb (fun n => match decodeMap (encode_char (N.of_nat n)) with
                                | Some v' => (v' =? N.of_nat n)%N
                                | None => false
                                end) (List.seq 0 64) = true) by (vm_compute; reflexivity).
  rewrite forallb_forall in H.
  specialize (H (N.to_nat v)). rewrite N2Nat.id in H.
  destruct (decodeMap (encode_char v)) as [v'|].
  - f_equal. apply N.eqb_eq. apply H. apply in_seq. lia.
  - discriminate H. apply in_seq. lia.
Qed.

Lemma decodeMap_Some (c : ascii) (v : N) :
  decodeMap c = Some v -> (v < 64)%N /\ encode_char v = c.
Proof.
  destruct c as [[] [] [] [] [] [] [] []]; vm_compute; intros H;
    first [discriminate H | injection H as <-; split; reflexivity].
Qed.

Lemma encode_char_not_special (v : N) :
  (v < 64)%N ->
  is_newline (encode_char v) = false
  /\ Ascii.eqb (encode_char v) padChar = false
  /\ Ascii.eqb (encode_char v) "."%char = false.
Proof.
  intros Hv.
  assert (H : forallb (fun n => let c := encode_char (N.of_nat n) in
                                negb (is_newline c) && negb (Ascii.eqb c padChar)
                                && negb (Ascii.eqb c "."%char))
                      (List.seq 0 64) = true) by (vm_compute; reflexivity).
  rewrite forallb_forall in H.
  specialize (H (N.to_nat v)). rewrite N2Nat.id in H.
  assert (Hin : In (N.to_nat v) (List.seq 0 64)) by (apply in_seq; lia).
  specialize (H Hin). cbn zeta in H.
  apply andb_prop in H. destruct H as [H H3]. apply andb_prop in H. destruct H as [H1 H2].
  repeat split; now apply negb_true_iff.
Qed.

Lemma sextets_six_bit (b : string) : six_bit (sextets b).
Proof.
  induction b as [| x | x y | x y z s IH] using string_ind3; cbn [sextets].
  - constructor.
  - pose proof (byte_bound x). repeat constructor; euclid.
  - pose proof (byte_bound x). pose proof (byte_bound y). repeat constructor; euclid.
  - pose proof (byte_bound x). pose proof (byte_bound y). pose proof (byte_bound z).
    cbn [List.app]. repeat (constructor; [euclid|]). exact IH.
Qed.

Lemma ascii_of_N_of_ascii_eq (a : ascii) (n : N) :
  n = N_of_ascii a -> ascii_of_N n = a.
Proof. intros ->. apply ascii_N_embedding. Qed.

(** Decoding the six-bit values of a byte string gives the bytes back. *)
Lemma bytes_of_sextets (b : string) : bytes_of (sextets b) = b.
Proof.
  induction b as [| x | x y | x y z s IH] using string_ind3; cbn [sextets].
  - reflexivity.
  - cbn [bytes_of quantum_bytes]. pose proof (byte_bound x).
    repeat f_equal; apply ascii_of_N_of_ascii_eq; euclid.
  - cbn [bytes_of quantum_bytes]. pose proof (byte_bound x). pose proof (byte_bound y).
    repeat f_equal; apply ascii_of_N_of_ascii_eq; euclid.
  - cbn [List.app bytes_of quantum_bytes]. rewrite IH.
    pose proof (byte_bound x). pose proof (byte_bound y). pose proof (byte_bound z).
    str_simpl.
    repeat f_equal; apply ascii_of_N_of_ascii_eq; euclid.
Qed.

Lemma TrimRight_cons_ne (x c : ascii) (rest : string) :
  Ascii.eqb x c = false ->
  strings_more.TrimRight (String x rest) c = String x (strings_more.TrimRight rest c).
Proof.
  intros H. cbn [strings_more.TrimRight]. rewrite H.
  now destruct (strings_more.TrimRight rest c).
Qed.

(** A segment is the characters of the six-bit values of its bytes. *)
Lemma EncodeSegment_enc (b : string) : jwt.EncodeSegment b = enc (sextets b).
Proof.
  unfold jwt.EncodeSegment.
  induction b as [| x | x y | x y z s IH] using string_ind3.
  - reflexivity.
  - pose proof (sextets_six_bit (String x EmptyString)) as H.
    cbn [sextets] in H. inversion H as [|? ? H1 H']; subst. inversion H' as [|? ? H2 _]; subst.
    cbn [EncodeToString sextets enc].
    rewrite !TrimRight_cons_ne by (now apply encode_char_not_special).
    reflexivity.
  - pose proof (sextets_six_bit (String x (String y EmptyString))) as H.
    cbn [sextets] in H. inversion H as [|? ? H1 H']; subst.
    inversion H' as [|? ? H2 H'']; subst. inversion H'' as [|? ? H3 _]; subst.
    cbn [EncodeToString sextets enc].
    rewrite !TrimRight_cons_ne by (now apply encode_char_not_special).
    reflexivity.
  - pose proof (sextets_six_bit (String x (String y (String z s)))) as H.
    cbn [sextets List.app] in H. inversion H as [|? ? H1 H']; subst.
    inversion H' as [|? ? H2 H'']; subst. inversion H'' as [|? ? H3 H3']; subst.
    inversion H3' as [|? ? H4 _]; subst.
    cbn [EncodeToString sextets enc List.app].
    rewrite !TrimRight_cons_ne by (now apply encode_char_not_special).
    now rewrite IH.
Qed.

Lemma length_enc (sx : list N) : String.length (enc sx) = List.length sx.
Proof. induction sx as [|v sx IH]; [reflexivity|]. cbn. now rewrite IH. Qed.

Lemma mod4_SSSS (n : nat) : (S (S (S (S n))) mod 4 = n mod 4)%nat.
Proof.
  replace (S (S (S (S n)))) with (n + 1 * 4)%nat by lia. apply Nat.Div0.mod_add.
Qed.

Lemma mod3_SSS (n : nat) : (S (S (S n)) mod 3 = n mod 3)%nat.
Proof.
  replace (S (S (S n))) with (n + 1 * 3)%nat by lia. apply Nat.Div0.mod_add.
Qed.

(** The number of six-bit values of [n] bytes. *)
Lemma length_sextets (b : string) :
  List.length (sextets b) =
  (4 * (String.length b / 3)
   + match String.length b mod 3 with 0 => 0 | 1 => 2 | _ => 3 end)%nat.
Proof.
  induction b as [| x | x y | x y z s IH] using string_ind3; try reflexivity.
  cbn [sextets List.app List.length String.length]. rewrite IH, mod3_SSS.
  replace (S (S (S (String.length s)))) with (String.length s + 1 * 3)%nat by lia.
  rewrite Nat.div_add by lia. lia.
Qed.

Lemma decode_step (c : ascii) (v : N) (rest : string) (q : list N) :
  decodeMap c = Some v ->
  decode (String c rest) q =
  if Nat.eqb (List.length q) 3 then
    match decode rest [] with
    | Some bytes => Some (quantum_bytes (q ++ [v]) ++ bytes)%string
    | None => None
    end
  else decode rest (q ++ [v]).
Proof. intros H. cbn [decode]. now rewrite H. Qed.

Lemma decode_quantum (a b c d : N) (rest : string) :
  six_bit [a; b; c; d] ->
  decode (enc [a; b; c; d] ++ rest) [] =
  match decode rest [] with
  | Some bytes => Some (quantum_bytes [a; b; c; d] ++ bytes)%string
  | None => None
  end.
Proof.
  intros H. inversion H as [|? ? Ha H1]; subst. inversion H1 as [|? ? Hb H2]; subst.
  inversion H2 as [|? ? Hc H3]; subst. inversion H3 as [|? ? Hd _]; subst.
  cbn [enc]. str_simpl.
  rewrite (decode_step _ a) by now apply decodeMap_encode_char.
  cbn [List.length Nat.eqb List.app].
  rewrite (decode_step _ b) by now apply decodeMap_encode_char.
  cbn [List.length Nat.eqb List.app].
  rewrite (decode_step _ c) by now apply decodeMap_encode_char.
  cbn [List.length Nat.eqb List.app].
  rewrite (decode_step _ d) by now apply decodeMap_encode_char.
  reflexivity.
Qed.

(** Decoding a padded segment gives the bytes of its six-bit values. *)
Lemma decode_enc (sx : list N) :
  six_bit sx ->
  (List.length sx mod 4 <> 1)%nat ->
  decode (enc sx ++ padding (List.length sx)) [] = Some (bytes_of sx).
Proof.
  induction sx as [| a | a b | a b c | a b c d l IH] using list_ind4; intros H Hl.
  - reflexivity.
  - now destruct Hl.
  - inversion H as [|? ? Ha H1]; subst. inversion H1 as [|? ? Hb _]; subst.
    cbn [enc]. str_simpl. unfold padding. cbn [List.length Nat.modulo Nat.sub].
    rewrite (decode_step _ a) by now apply decodeMap_encode_char.
    cbn [List.length Nat.eqb List.app].
    rewrite (decode_step _ b) by now apply decodeMap_encode_char.
    reflexivity.
  - inversion H as [|? ? Ha H1]; subst. inversion H1 as [|? ? Hb H2]; subst.
    inversion H2 as [|? ? Hc _]; subst.
    cbn [enc]. str_simpl. unfold padding.
    rewrite (decode_step _ a) by now apply decodeMap_encode_char.
    cbn [List.length Nat.eqb List.app].
    rewrite (decode_step _ b) by now apply decodeMap_encode_char.
    cbn [List.length Nat.eqb List.app].
    rewrite (decode_step _ c) by now apply decodeMap_encode_char.
    reflexivity.
  - inversion H as [|? ? Ha H1]; subst. inversion H1 as [|? ? Hb H2]; subst.
    inversion H2 as [|? ? Hc H3]; subst. inversion H3 as [|? ? Hd H4]; subst.
    change (enc (a :: b :: c :: d :: l)) with (enc [a; b; c; d] ++ enc l)%string.
    rewrite append_assoc.
    rewrite decode_quantum by (repeat constructor; assumption).
    unfold padding in *. cbn [List.length] in *. rewrite mod4_SSSS in *.
    now rewrite IH.
Qed.

(** [DecodeSegment] undoes [EncodeSegment]. *)
Lemma DecodeSegment_enc (sx : list N) :
  six_bit sx ->
  (List.length sx mod 4 <> 1)%nat ->
  jwt.DecodeSegment (enc sx) = Some (bytes_of sx).
Proof.
  intros H Hl. unfold jwt.DecodeSegment, DecodeString. rewrite length_enc.
  rewrite <- (decode_enc sx H Hl). unfold padding.
  assert (Hlt : (List.length sx mod 4 < 4)%nat) by (apply Nat.mod_upper_bound; lia).
  destruct (List.length sx mod 4)%nat as [|[|[|[|n]]]] eqn:E; try lia.
  - cbn. now rewrite append_empty_r.
  - reflexivity.
  - reflexivity.
Qed.

Lemma length_sextets_mod4 (b : string) : (List.length (sextets b) mod 4 <> 1)%nat.
Proof.
  rewrite length_sextets.
  assert (H3 : (String.length b mod 3 < 3)%nat) by (apply Nat.mod_upper_bound; lia).
  rewrite Nat.add_comm, Nat.mul_comm, Nat.Div0.mod_add.
  destruct (String.length b mod 3)%nat as [|[|[|n]]]; cbn; lia.
Qed.

(** Round trip of a segment. *)
Lemma DecodeSegment_EncodeSegment (b : string) :
  jwt.DecodeSegment (jwt.EncodeSegment b) = Some b.
Proof.
  rewrite EncodeSegment_enc.
  rewrite DecodeSegment_enc by (apply sextets_six_bit || apply length_sextets_mod4).
  now rewrite bytes_of_sextets.
Qed.

(** *** A character of a segment replaced *)

Lemma decode_invalid (pre : list N) (c : ascii) (rest : string) (q : list N) :
  six_bit pre ->
  decodeMap c = None -> is_newline c = false -> Ascii.eqb c padChar = false ->
  decode (enc pre ++ String c rest) q = None.
Proof.
  intros Hp Hc Hn He. revert q. induction Hp as [|v pre Hv _ IH]; intros q.
  - cbn [enc]. str_simpl. cbn [decode]. now rewrite Hc, Hn, He.
  - cbn [enc]. str_simpl. rewrite (decode_step _ v) by now apply decodeMap_encode_char.
    destruct (Nat.eqb (List.length q) 3); now rewrite IH.
Qed.

Lemma decode_pad_inside (pre : list N) (v : N) (rest : string) (q : list N) :
  six_bit pre -> (v < 64)%N ->
  decode (enc pre ++ String padChar (String (encode_char v) rest)) q = None.
Proof.
  intros Hp Hv. revert q. induction Hp as [|w pre Hw _ IH]; intros q.
  - cbn [enc]. str_simpl.
    destruct (encode_char_not_special v Hv) as [Hn [He _]].
    cbn -[encode_char]. rewrite Hn, He.
    destruct q as [|a [|b [|c [|d q]]]]; reflexivity.
  - cbn [enc]. str_simpl. rewrite (decode_step _ w) by now apply decodeMap_encode_char.
    destruct (Nat.eqb (List.length q) 3); now rewrite IH.
Qed.

Lemma newline_not_in_alphabet (c : ascii) : is_newline c = true -> decodeMap c = None.
Proof.
  unfold is_newline. intros H. apply orb_prop in H.
  destruct H as [H|H]; apply Ascii.eqb_eq in H; subst; reflexivity.
Qed.

Lemma decode_newline (pre : list N) (c : ascii) (rest : string) (q : list N) :
  six_bit pre -> is_newline c = true ->
  decode (enc pre ++ String c rest) q = decode (enc pre ++ rest) q.
Proof.
  intros Hp Hc. revert q. induction Hp as [|w pre Hw _ IH]; intros q.
  - cbn [enc]. str_simpl. cbn [decode].
    now rewrite (newline_not_in_alphabet c Hc), Hc.
  - cbn [enc]. str_simpl. rewrite !(decode_step _ w) by now apply decodeMap_encode_char.
    destruct (Nat.eqb (List.length q) 3); now rewrite IH.
Qed.

Lemma decode_short_padding (sx : list N) :
  six_bit sx -> (List.length sx mod 4 = 2)%nat ->
  decode (enc sx ++ String padChar EmptyString) [] = None.
Proof.
  induction sx as [| a | a b | a b c | a b c d l IH] using list_ind4; intros H Hl;
    try discriminate Hl.
  - inversion H as [|? ? Ha H1]; subst. inversion H1 as [|? ? Hb _]; subst.
    cbn [enc]. str_simpl.
    rewrite (decode_step _ a) by now apply decodeMap_encode_char.
    cbn [List.length Nat.eqb List.app].
    rewrite (decode_step _ b) by now apply decodeMap_encode_char.
    reflexivity.
  - inversion H as [|? ? Ha H1]; subst. inversion H1 as [|? ? Hb H2]; subst.
    inversion H2 as [|? ? Hc H3]; subst. inversion H3 as [|? ? Hd H4]; subst.
    change (enc (a :: b :: c :: d :: l)) with (enc [a; b; c; d] ++ enc l)%string.
    rewrite append_assoc.
    rewrite decode_quantum by (repeat constructor; assumption).
    cbn [List.length] in Hl. rewrite mod4_SSSS in Hl.
    now rewrite IH.
Qed.

Lemma ascii_of_N_inj (m n : N) :
  (m < 256)%N -> (n < 256)%N -> ascii_of_N m = ascii_of_N n -> m = n.
Proof.
  intros Hm Hn H. apply (f_equal N_of_ascii) in H.
  now rewrite !N_ascii_embedding in H.
Qed.

(** Lists of six-bit values that decode to the same bytes agree everywhere
    but, possibly, at their last value. *)
Lemma bytes_of_inj (sx sx' : list N) :
  six_bit sx -> six_bit sx' ->
  List.length sx = List.length sx' ->
  bytes_of sx = bytes_of sx' ->
  forall i, (S i < List.length sx)%nat -> List.nth i sx 0%N = List.nth i sx' 0%N.
Proof.
  revert sx'.
  induction sx as [| a | a b | a b c | a b c d l IH] using list_ind4;
    intros sx' H H' Hlen Hb i Hi.
  - cbn in Hi. lia.
  - cbn in Hi. lia.
  - destruct sx' as [|a' [|b' [|? ?]]]; try discriminate Hlen.
    inversion H as [|? ? Ha H1]; subst. inversion H1 as [|? ? Hb0 _]; subst.
    inversion H' as [|? ? Ha' H1']; subst. inversion H1' as [|? ? Hb' _]; subst.
    cbn [bytes_of quantum_bytes] in Hb. injection Hb as Hb.
    apply ascii_of_N_inj in Hb; [|euclid|euclid].
    destruct i as [|[|i]]; cbn in Hi |- *; try lia. euclid.
  - destruct sx' as [|a' [|b' [|c' [|? ?]]]]; try discriminate Hlen.
    inversion H as [|? ? Ha H1]; subst. inversion H1 as [|? ? Hb0 H2]; subst.
    inversion H2 as [|? ? Hc _]; subst.
    inversion H' as [|? ? Ha' H1']; subst. inversion H1' as [|? ? Hb' H2']; subst.
    inversion H2' as [|? ? Hc' _]; subst.
    cbn [bytes_of quantum_bytes] in Hb. injection Hb as Hb1 Hb2.
    apply ascii_of_N_inj in Hb1; [|euclid|euclid].
    apply ascii_of_N_inj in Hb2; [|euclid|euclid].
    destruct i as [|[|[|i]]]; cbn in Hi |- *; try lia; euclid.
  - destruct sx' as [|a' [|b' [|c' [|d' l']]]]; try discriminate Hlen.
    inversion H as [|? ? Ha H1]; subst. inversion H1 as [|? ? Hb0 H2]; subst.
    inversion H2 as [|? ? Hc H3]; subst. inversion H3 as [|? ? Hd H4]; subst.
    inversion H' as [|? ? Ha' H1']; subst. inversion H1' as [|? ? Hb' H2']; subst.
    inversion H2' as [|? ? Hc' H3']; subst. inversion H3' as [|? ? Hd' H4']; subst.
    cbn [bytes_of quantum_bytes] in Hb. rewrite !append_String, !append_empty in Hb.
    injection Hb as Hb1 Hb2 Hb3 Hrest.
    apply ascii_of_N_inj in Hb1; [|euclid|euclid].
    apply ascii_of_N_inj in Hb2; [|euclid|euclid].
    apply ascii_of_N_inj in Hb3; [|euclid|euclid].
    destruct i as [|[|[|[|i]]]]; cbn [List.nth]; try euclid.
    apply (IH l' H4 H4'); [cbn in Hlen; lia|exact Hrest|cbn in Hi; lia].
Qed.

Lemma enc_app (l1 l2 : list N) : enc (l1 ++ l2) = (enc l1 ++ enc l2)%string.
Proof. induction l1 as [|v l1 IH]; [reflexivity|]. cbn. now rewrite IH. Qed.

Lemma replace_at_enc (sx : list N) (p : nat) (c : ascii) :
  (p < List.length sx)%nat ->
  replace_at p c (enc sx) =
  (enc (List.firstn p sx) ++ String c (enc (List.skipn (S p) sx)))%string.
Proof.
  revert p. induction sx as [|v sx IH]; intros p Hp; [cbn in Hp; lia|].
  destruct p as [|p].
  - reflexivity.
  - cbn [replace_at enc List.firstn List.skipn]. str_simpl.
    rewrite IH by (cbn in Hp; lia). reflexivity.
Qed.

Lemma length_replace_at (p : nat) (c : ascii) (s : string) :
  String.length (replace_at p c s) = String.length s.
Proof.
  revert p. induction s as [|x s IH]; intros p; [reflexivity|].
  destruct p; cbn; [reflexivity|now rewrite IH].
Qed.

Lemma six_bit_firstn (n : nat) (sx : list N) : six_bit sx -> six_bit (List.firstn n sx).
Proof.
  unfold six_bit. intros H. revert n.
  induction H as [|v sx Hv _ IH]; intros [|n]; cbn; try constructor; auto.
Qed.

Lemma six_bit_skipn (n : nat) (sx : list N) : six_bit sx -> six_bit (List.skipn n sx).
Proof.
  unfold six_bit. intros H. revert n.
  induction H as [|v sx Hv Hs IH]; intros [|n]; cbn; try constructor; auto.
Qed.

Lemma six_bit_app (l1 l2 : list N) : six_bit l1 -> six_bit l2 -> six_bit (l1 ++ l2).
Proof. intros H1 H2. apply Forall_app. now split. Qed.

Lemma six_bit_nth (sx : list N) (i : nat) : six_bit sx -> (List.nth i sx 0 < 64)%N.
Proof.
  unfold six_bit. intros H. revert i.
  induction H as [|v sx Hv _ IH]; intros [|i]; cbn; auto; lia.
Qed.

(** The values after position [p], when [p] is not the last position. *)
Lemma skipn_nonempty (sx : list N) (p : nat) :
  (S p < List.length sx)%nat ->
  exists v rest, List.skipn (S p) sx = v :: rest.
Proof.
  intros Hp. destruct (List.skipn (S p) sx) as [|v rest] eqn:E.
  - apply (f_equal (@List.length N)) in E. rewrite List.length_skipn in E. cbn in E. lia.
  - eauto.
Qed.

(** Any change of a character of a segment other than its last one: the
    segment no longer decodes to the same bytes. Stated for segments whose
    last quantum holds three characters, as those of a 32-byte MAC. *)
Lemma DecodeSegment_tampered (sx : list N) (p : nat) (c : ascii) :
  six_bit sx ->
  (List.length sx mod 4 = 3)%nat ->
  (S p < List.length sx)%nat ->
  c <> encode_char (List.nth p sx 0%N) ->
  jwt.DecodeSegment (replace_at p c (enc sx)) <> Some (bytes_of sx).
Proof.
  intros H Hl Hp Hc.
  unfold jwt.DecodeSegment, DecodeString.
  rewrite length_replace_at, length_enc, Hl. cbn [Nat.ltb Nat.leb Nat.sub strings_more.Repeat].
  rewrite replace_at_enc by lia.
  destruct (skipn_nonempty sx p Hp) as [v [rest Hs]].
  assert (Hsk : six_bit (List.skipn (S p) sx)) by now apply six_bit_skipn.
  rewrite Hs in Hsk. inversion Hsk as [|? ? Hv Hrest]; subst.
  pose proof (six_bit_firstn p sx H) as Hpre.
  rewrite append_assoc, append_String.
  destruct (decodeMap c) as [v'|] eqn:Hd.
  - (* another character of the alphabet *)
    apply decodeMap_Some in Hd. destruct Hd as [Hv' <-].
    set (sx' := List.firstn p sx ++ v' :: List.skipn (S p) sx).
    assert (Hsx' : six_bit sx').
    { apply six_bit_app; [exact Hpre|]. constructor; [exact Hv'|].
      now apply six_bit_skipn. }
    assert (Hlen : List.length sx' = List.length sx).
    { unfold sx'. rewrite List.length_app. cbn [List.length].
      rewrite List.length_firstn, List.length_skipn. lia. }
    assert (Henc : (enc (List.firstn p sx)
                    ++ String (encode_char v')
                         (enc (List.skipn (S p) sx) ++ String padChar EmptyString))%string
                   = (enc sx' ++ padding (List.length sx'))%string).
    { unfold padding. rewrite Hlen, Hl. unfold sx'. rewrite enc_app. cbn [enc].
      rewrite append_assoc, append_String. reflexivity. }
    rewrite Henc. rewrite decode_enc by (try exact Hsx'; rewrite Hlen, Hl; lia).
    intros Heq. injection Heq as Heq.
    pose proof (bytes_of_inj sx' sx Hsx' H Hlen Heq p ltac:(lia)) as Hn.
    apply Hc. rewrite <- Hn. unfold sx'.
    rewrite List.app_nth2 by (rewrite List.length_firstn; lia).
    rewrite List.length_firstn. replace (p - Nat.min p (List.length sx))%nat with 0%nat by lia.
    reflexivity.
  - destruct (is_newline c) eqn:Hn.
    + (* a line feed or carriage return is skipped: the padding is short *)
      rewrite decode_newline by assumption.
      rewrite <- append_assoc, <- enc_app.
      rewrite decode_short_padding; [discriminate| |].
      * apply six_bit_app; [exact Hpre|]. now apply six_bit_skipn.
      * rewrite List.length_app, List.length_firstn, List.length_skipn.
        replace (Nat.min p (List.length sx) + (List.length sx - S p))%nat
          with (List.length sx - 1)%nat by lia.
        assert (Hdm := Nat.div_mod_eq (List.length sx) 4). rewrite Hl in Hdm.
        replace (List.length sx - 1)%nat with (2 + (List.length sx / 4) * 4)%nat by lia.
        now rewrite Nat.Div0.mod_add.
    + destruct (Ascii.eqb c padChar) eqn:He.
      * (* padding inside the segment *)
        apply Ascii.eqb_eq in He. subst c. rewrite Hs. cbn [enc]. str_simpl.
        rewrite decode_pad_inside by assumption. discriminate.
      * (* a character outside the alphabet *)
        rewrite decode_invalid by assumption. discriminate.
Qed.

(** The last character of a segment whose last quantum holds three
    characters carries four bits of the data and two bits that the decoder
    drops. *)
Lemma bytes_of_snoc_last (pre : list N) (v v' : N) :
  six_bit pre -> (v < 64)%N -> (v' < 64)%N ->
  (List.length pre mod 4 = 2)%nat ->
  bytes_of (pre ++ [v']) = bytes_of (pre ++ [v]) ->
  (v' / 4 = v / 4)%N.
Proof.
  induction pre as [| a | a b | a b c | a b c d l IH] using list_ind4;
    intros H Hv Hv' Hl Hb; try discriminate Hl.
  - inversion H as [|? ? Ha H1]; subst. inversion H1 as [|? ? Hb0 _]; subst.
    cbn [List.app bytes_of quantum_bytes] in Hb. injection Hb as Hb.
    apply ascii_of_N_inj in Hb; [|euclid|euclid]. euclid.
  - inversion H as [|? ? Ha H1]; subst. inversion H1 as [|? ? Hb0 H2]; subst.
    inversion H2 as [|? ? Hc H3]; subst. inversion H3 as [|? ? Hd H4]; subst.
    cbn [List.app bytes_of quantum_bytes] in Hb.
    rewrite !append_String, !append_empty in Hb.
    injection Hb as Hrest.
    cbn [List.length] in Hl. rewrite mod4_SSSS in Hl.
    now apply IH.
Qed.

Lemma bytes_of_snoc_same (pre : list N) (v v' : N) :
  (List.length pre mod 4 = 2)%nat ->
  (v' / 4 = v / 4)%N ->
  bytes_of (pre ++ [v']) = bytes_of (pre ++ [v]).
Proof.
  induction pre as [| a | a b | a b c | a b c d l IH] using list_ind4;
    intros Hl Hv; try discriminate Hl.
  - cbn [List.app bytes_of quantum_bytes]. now rewrite Hv.
  - cbn [List.app bytes_of]. cbn [List.length] in Hl. rewrite mod4_SSSS in Hl.
    now rewrite (IH Hl Hv).
Qed.

Lemma bytes_of_snoc_ne (pre : list N) (v : N) :
  (List.length pre mod 4 = 2)%nat -> bytes_of pre <> bytes_of (pre ++ [v]).
Proof.
  induction pre as [| a | a b | a b c | a b c d l IH] using list_ind4;
    intros Hl; try discriminate Hl.
  - cbn [List.app bytes_of quantum_bytes]. discriminate.
  - cbn [List.app bytes_of quantum_bytes]. rewrite !append_String, !append_empty.
    cbn [List.length] in Hl. rewrite mod4_SSSS in Hl.
    intros E. injection E as E. now apply (IH Hl).
Qed.

Lemma DecodeSegment_tampered_snoc (pre : list N) (v : N) (c : ascii) :
  six_bit pre -> (v < 64)%N ->
  (List.length pre mod 4 = 2)%nat ->
  (forall v', decodeMap c = Some v' -> (v' / 4 <> v / 4)%N) ->
  jwt.DecodeSegment (enc pre ++ String c EmptyString) <> Some (bytes_of (pre ++ [v])).
Proof.
  intros Hp Hv Hl Hc.
  assert (Hlen : (String.length (enc pre ++ String c EmptyString) mod 4 = 3)%nat).
  { rewrite length_append, length_enc. cbn [String.length].
    assert (Hdm := Nat.div_mod_eq (List.length pre) 4). rewrite Hl in Hdm.
    replace (List.length pre + 1)%nat with (3 + (List.length pre / 4) * 4)%nat by lia.
    now rewrite Nat.Div0.mod_add. }
  unfold jwt.DecodeSegment, DecodeString. rewrite Hlen.
  cbn [Nat.ltb Nat.leb Nat.sub strings_more.Repeat].
  rewrite append_assoc, append_String, append_empty.
  destruct (decodeMap c) as [v'|] eqn:Hd.
  - pose proof (Hc v' eq_refl) as Hne.
    apply decodeMap_Some in Hd. destruct Hd as [Hv' <-].
    assert (Hsx' : six_bit (pre ++ [v'])).
    { apply six_bit_app; [exact Hp|]. now repeat constructor. }
    assert (Hlen' : (List.length (pre ++ [v']) mod 4 = 3)%nat).
    { rewrite List.length_app. cbn [List.length].
      assert (Hdm := Nat.div_mod_eq (List.length pre) 4). rewrite Hl in Hdm.
      replace (List.length pre + 1)%nat with (3 + (List.length pre / 4) * 4)%nat by lia.
      now rewrite Nat.Div0.mod_add. }
    assert (Henc : (enc pre ++ String (encode_char v') (String padChar EmptyString))%string
                   = (enc (pre ++ [v']) ++ padding (List.length (pre ++ [v'])))%string).
    { unfold padding. rewrite Hlen'. rewrite enc_app. cbn [enc].
      rewrite append_assoc, append_String. reflexivity. }
    rewrite Henc. rewrite decode_enc by (try exact Hsx'; rewrite Hlen'; lia).
    intros Heq. injection Heq as Heq. apply Hne.
    now apply (bytes_of_snoc_last pre v v' Hp Hv Hv' Hl).
  - destruct (is_newline c) eqn:Hn.
    + rewrite decode_newline by assumption.
      rewrite decode_short_padding by assumption. discriminate.
    + destruct (Ascii.eqb c padChar) eqn:He.
      * apply Ascii.eqb_eq in He. subst c.
        assert (Hpad : String padChar (String padChar EmptyString)
                       = padding (List.length pre)).
        { unfold padding. rewrite Hl. reflexivity. }
        rewrite Hpad. rewrite decode_enc by (try exact Hp; rewrite Hl; lia).
        intros Heq. injection Heq as Heq. now apply (bytes_of_snoc_ne pre v Hl).
      * rewrite decode_invalid by assumption. discriminate.
Qed.

Lemma firstn_snoc_last (sx : list N) :
  sx <> [] ->
  sx = List.firstn (List.length sx - 1) sx ++ [List.nth (List.length sx - 1) sx 0%N].
Proof.
  intros Hne. destruct (List.exists_last Hne) as [pre [v ->]].
  rewrite List.length_app. cbn [List.length].
  replace (List.length pre + 1 - 1)%nat with (List.length pre) by lia.
  rewrite List.firstn_app, List.firstn_all, Nat.sub_diag. cbn [List.firstn].
  rewrite List.app_nil_r.
  rewrite List.app_nth2 by lia. rewrite Nat.sub_diag. reflexivity.
Qed.

(** A change of the last character of such a segment: the segment no longer
    decodes to the same bytes, unless the new character stands for a value
    with the same four leading bits. *)
Lemma DecodeSegment_tampered_last (sx : list N) (c : ascii) :
  six_bit sx ->
  (List.length sx mod 4 = 3)%nat ->
  (forall v', decodeMap c = Some v' ->
              (v' / 4 <> List.nth (List.length sx - 1) sx 0 / 4)%N) ->
  jwt.DecodeSegment (replace_at (List.length sx - 1) c (enc sx)) <> Some (bytes_of sx).
Proof.
  intros H Hl Hc.
  assert (Hne : sx <> []) by (intros ->; discriminate Hl).
  assert (Hpos : (0 < List.length sx)%nat) by (destruct sx; [congruence|cbn; lia]).
  rewrite replace_at_enc by lia.
  replace (S (List.length sx - 1)) with (List.length sx) by lia.
  rewrite List.skipn_all. cbn [enc].
  rewrite (firstn_snoc_last sx Hne) at 3.
  apply DecodeSegment_tampered_snoc.
  - now apply six_bit_firstn.
  - now apply six_bit_nth.
  - rewrite List.length_firstn.
    replace (Nat.min (List.length sx - 1) (List.length sx)) with (List.length sx - 1)%nat
      by lia.
    assert (Hdm := Nat.div_mod_eq (List.length sx) 4). rewrite Hl in Hdm.
    replace (List.length sx - 1)%nat with (2 + (List.length sx / 4) * 4)%nat by lia.
    now rewrite Nat.Div0.mod_add.
  - exact Hc.
Qed.

End Base64Facts.

(** ** UTF-8 *)

Section Utf8Facts.
Import utf8.

Ltac euclid := zify; Z.to_euclidean_division_equations; lia.

Ltac break_if :=
  match goal with
  | H : context [if ?b then _ else _] |- _ =>
      let E := fresh "E" in destruct b eqn:E
  end.

Lemma utf8_take_drop (n : nat) (s : string) : (take n s ++ drop n s)%string = s.
Proof.
  revert s. induction n as [|n IH]; intros [|c s]; cbn [take drop]; str_simpl;
    try reflexivity.
  now rewrite IH.
Qed.

Lemma length_drop (n : nat) (s : string) :
  String.length (drop n s) = (String.length s - n)%nat.
Proof.
  revert s. induction n as [|n IH]; intros [|c s]; cbn [drop String.length]; auto.
Qed.

Lemma ascii_eq_N (a : ascii) (n : N) : n = N_of_ascii a -> ascii_of_N n = a.
Proof. intros ->. apply ascii_N_embedding. Qed.

(** What [first] announces. *)
Lemma first_spec (s0 : N) (sz : nat) (lo hi : N) :
  first s0 = Some (sz, lo, hi) ->
  (sz = 2%nat /\ 194 <= s0 <= 223 /\ lo = 128 /\ hi = 191)%N
  \/ (sz = 3%nat /\ s0 = 224 /\ lo = 160 /\ hi = 191)%N
  \/ (sz = 3%nat /\ (225 <= s0 <= 236 \/ 238 <= s0 <= 239) /\ lo = 128 /\ hi = 191)%N
  \/ (sz = 3%nat /\ s0 = 237 /\ lo = 128 /\ hi = 159)%N
  \/ (sz = 4%nat /\ s0 = 240 /\ lo = 144 /\ hi = 191)%N
  \/ (sz = 4%nat /\ 241 <= s0 <= 243 /\ lo = 128 /\ hi = 191)%N
  \/ (sz = 4%nat /\ s0 = 244 /\ lo = 128 /\ hi = 143)%N.
Proof.
  unfold first. intros H.
  repeat break_if; try discriminate H; injection H as <- <- <-; lia.
Qed.

Lemma cont_spec (lo hi : N) (b : option N) (x : N) :
  cont lo hi b = Some x ->
  exists y, b = Some y /\ (lo <= y <= hi)%N /\ x = (y mod 64)%N.
Proof.
  unfold cont. destruct b as [y|]; [|discriminate].
  intros H. break_if; [|discriminate]. injection H as <-. exists y. repeat split; lia.
Qed.

(** A multi-byte rune that decodes without error: its width is 2, 3 or 4,
    its bytes are the ones [EncodeRune] writes, and nothing beyond them is
    looked at. *)
Lemma DecodeRune_valid (c0 : ascii) (rest : string) (r : N) (size : nat) :
  (128 <= N_of_ascii c0)%N ->
  DecodeRune (String c0 rest) = (r, size) ->
  (r =? RuneError)%N && Nat.eqb size 1 = false ->
  (2 <= size <= 4)%nat
  /\ (size <= String.length (String c0 rest))%nat
  /\ EncodeRune r = take size (String c0 rest)
  /\ (forall tail, DecodeRune (take size (String c0 rest) ++ tail) = (r, size)).
Proof.
  intros H0 Hd Hv. unfold DecodeRune, byte_at in Hd. cbn [String.get] in Hd.
  pose proof (N_ascii_bounded c0) as B0.
  destruct (N_of_ascii c0 <? RuneSelf)%N eqn:E0; [unfold RuneSelf in E0; lia|].
  destruct (first (N_of_ascii c0)) as [[[sz lo] hi]|] eqn:Ef;
    [|cbn [cont] in Hd; injection Hd as <- <-; discriminate Hv].
  destruct rest as [|c1 rest];
    [cbn [cont] in Hd; injection Hd as <- <-; discriminate Hv|].
  cbn [String.get] in Hd.
  destruct (cont lo hi (Some (N_of_ascii c1))) as [x1|] eqn:E1;
    [|cbn [cont] in Hd; injection Hd as <- <-; discriminate Hv].
  apply cont_spec in E1. destruct E1 as [y1 [Hy1 [R1 ->]]]. injection Hy1 as <-.
  pose proof (N_ascii_bounded c1) as B1.
  apply first_spec in Ef.
  destruct (Nat.eqb sz 2) eqn:S2.
  { apply Nat.eqb_eq in S2. subst sz. injection Hd as <- <-.
    assert (Hs0 : (194 <= N_of_ascii c0 <= 223 /\ lo = 128 /\ hi = 191)%N) by lia.
    repeat split; try (cbn; lia).
    - unfold EncodeRune, is_surrogate, MaxRune.
      assert (E : ((N_of_ascii c0 mod 32 * 64 + N_of_ascii c1 mod 64 <=? 127) = false)%N)
        by (apply N.leb_gt; euclid).
      rewrite E.
      assert (E' : ((N_of_ascii c0 mod 32 * 64 + N_of_ascii c1 mod 64 <=? 2047) = true)%N)
        by (apply N.leb_le; euclid).
      rewrite E'. cbn [bytes List.map string_of_list_ascii take].
      repeat f_equal; apply ascii_eq_N; euclid.
    - intros tail. cbn [take]. str_simpl. unfold DecodeRune, byte_at. cbn [String.get].
      rewrite E0.
      destruct (first (N_of_ascii c0)) as [[[sz' lo'] hi']|] eqn:Ef'.
      + apply first_spec in Ef'.
        assert (sz' = 2%nat /\ lo' = 128%N /\ hi' = 191%N) as [-> [-> ->]] by lia.
        unfold cont.
        assert (Ec : ((128 <=? N_of_ascii c1) && (N_of_ascii c1 <=? 191) = true)%N) by lia.
        rewrite Ec. reflexivity.
      + unfold first in Ef'. repeat break_if; try discriminate Ef'; lia. }
  destruct rest as [|c2 rest];
    [cbn [cont] in Hd; injection Hd as <- <-; discriminate Hv|].
  cbn [String.get] in Hd.
  destruct (cont 128 191 (Some (N_of_ascii c2))) as [x2|] eqn:E2;
    [|cbn [cont] in Hd; injection Hd as <- <-; discriminate Hv].
  apply cont_spec in E2. destruct E2 as [y2 [Hy2 [R2 ->]]]. injection Hy2 as <-.
  pose proof (N_ascii_bounded c2) as B2.
  destruct (Nat.eqb sz 3) eqn:S3.
  { apply Nat.eqb_eq in S3. subst sz. injection Hd as <- <-.
    repeat split; try (cbn; lia).
    - unfold EncodeRune, is_surrogate, MaxRune.
      set (r := (N_of_ascii c0 mod 16 * 4096 + N_of_ascii c1 mod 64 * 64
                 + N_of_ascii c2 mod 64)%N).
      assert (Hr : (2048 <= r <= 65535 /\ ~ (55296 <= r <= 57343))%N)
        by (unfold r; euclid).
      assert (E : ((r <=? 127) = false)%N) by lia. rewrite E.
      assert (E' : ((r <=? 2047) = false)%N) by lia. rewrite E'.
      assert (E'' : ((1114111 <? r) || ((55296 <=? r) && (r <=? 57343)) = false)%N) by lia.
      rewrite E''.
      assert (E3 : ((r <=? 65535) = true)%N) by lia. rewrite E3.
      cbn [bytes List.map string_of_list_ascii take].
      repeat f_equal; apply ascii_eq_N; unfold r; euclid.
    - intros tail. cbn [take]. str_simpl. unfold DecodeRune, byte_at. cbn [String.get].
      rewrite E0.
      destruct (first (N_of_ascii c0)) as [[[sz' lo'] hi']|] eqn:Ef'.
      + apply first_spec in Ef'.
        assert (sz' = 3%nat /\ lo' = lo /\ hi' = hi) as [-> [-> ->]] by lia.
        unfold cont.
        assert (Ec : ((lo <=? N_of_ascii c1) && (N_of_ascii c1 <=? hi) = true)%N) by lia.
        rewrite Ec. cbn [Nat.eqb].
        assert (Ec2 : ((128 <=? N_of_ascii c2) && (N_of_ascii c2 <=? 191) = true)%N) by lia.
        rewrite Ec2. reflexivity.
      + unfold first in Ef'. repeat break_if; try discriminate Ef'; lia. }
  destruct rest as [|c3 rest];
    [cbn [cont] in Hd; injection Hd as <- <-; discriminate Hv|].
  cbn [String.get] in Hd.
  destruct (cont 128 191 (Some (N_of_ascii c3))) as [x3|] eqn:E3;
    [|cbn [cont] in Hd; injection Hd as <- <-; discriminate Hv].
  apply cont_spec in E3. destruct E3 as [y3 [Hy3 [R3 ->]]]. injection Hy3 as <-.
  pose proof (N_ascii_bounded c3) as B3.
  injection Hd as <- <-.
  assert (Hsz : sz = 4%nat).
  { apply Nat.eqb_neq in S2. apply Nat.eqb_neq in S3. lia. }
  subst sz.
  repeat split; try (cbn; lia).
  - unfold EncodeRune, is_surrogate, MaxRune.
    set (r := (N_of_ascii c0 mod 8 * 262144 + N_of_ascii c1 mod 64 * 4096
               + N_of_ascii c2 mod 64 * 64 + N_of_ascii c3 mod 64)%N).
    assert (Hr : (65536 <= r <= 1114111)%N) by (unfold r; euclid).
    assert (E : ((r <=? 127) = false)%N) by lia. rewrite E.
    assert (E' : ((r <=? 2047) = false)%N) by lia. rewrite E'.
    assert (E'' : ((1114111 <? r) || ((55296 <=? r) && (r <=? 57343)) = false)%N) by lia.
    rewrite E''.
    assert (E4 : ((r <=? 65535) = false)%N) by lia. rewrite E4.
    cbn [bytes List.map string_of_list_ascii take].
    repeat f_equal; apply ascii_eq_N; unfold r; euclid.
  - intros tail. cbn [take]. str_simpl. unfold DecodeRune, byte_at. cbn [String.get].
    rewrite E0.
    destruct (first (N_of_ascii c0)) as [[[sz' lo'] hi']|] eqn:Ef'.
    + apply first_spec in Ef'.
      assert (sz' = 4%nat /\ lo' = lo /\ hi' = hi) as [-> [-> ->]] by lia.
      unfold cont.
      assert (Ec : ((lo <=? N_of_ascii c1) && (N_of_ascii c1 <=? hi) = true)%N) by lia.
      rewrite Ec. cbn [Nat.eqb].
      assert (Ec2 : ((128 <=? N_of_ascii c2) && (N_of_ascii c2 <=? 191) = true)%N) by lia.
      rewrite Ec2.
      assert (Ec3 : ((128 <=? N_of_ascii c3) && (N_of_ascii c3 <=? 191) = true)%N) by lia.
      rewrite Ec3. reflexivity.
    + unfold first in Ef'. repeat break_if; try discriminate Ef'; lia.
Qed.

End Utf8Facts.

(** ** JSON strings *)

Section JsonStringFacts.
Import json.

Lemma quote_body_ascii (n : nat) (c : ascii) (rest : string) :
  (N_of_ascii c < 128)%N ->
  quote_body (S n) (String c rest) = (esc c ++ quote_body n rest)%string.
Proof.
  intros Hc. cbn [quote_body]. unfold utf8.RuneSelf.
  apply N.ltb_lt in Hc. rewrite Hc. unfold esc.
  now destruct (htmlSafe (N_of_ascii c)).
Qed.

(** Reading back what was written for an ASCII character gives the
    character. *)
Lemma unquote_esc (c : ascii) (fuel : nat) (X : string) :
  (N_of_ascii c < 128)%N ->
  unquote (S fuel) (esc c ++ X) = prepend (String c EmptyString) (unquote fuel X).
Proof.
  intros Hc.
  destruct c as [[] [] [] [] [] [] [] []];
    try (exfalso; vm_compute in Hc; discriminate Hc);
    match goal with
    | |- context [esc ?c] =>
        let e := eval vm_compute in (esc c) in change (esc c) with e
    end;
    rewrite ?append_String, ?append_empty; reflexivity.
Qed.

Lemma drop_take_append (n : nat) (s tail : string) :
  (n <= String.length s)%nat ->
  utf8.drop n (utf8.take n s ++ tail) = tail.
Proof.
  revert s. induction n as [|n IH]; intros [|c s] Hn; cbn in Hn; try lia;
    cbn [utf8.take utf8.drop]; str_simpl; try reflexivity.
  cbn [utf8.drop]. apply IH. lia.
Qed.

Lemma unquote_line_separator (r : N) (fuel : nat) (X : string) :
  r = 8232%N \/ r = 8233%N ->
  unquote (S fuel)
    ((String backslash "u202" ++ String (hex_digit (r mod 16)) EmptyString) ++ X)
  = prepend (utf8.EncodeRune r) (unquote fuel X).
Proof. intros [-> | ->]; reflexivity. Qed.

Lemma prepend_Some (p s rest : string) :
  prepend p (Some (s, rest)) = Some ((p ++ s)%string, rest).
Proof. reflexivity. Qed.

(** A string literal written by [Marshal] for a valid UTF-8 string reads
    back as that string. *)
Lemma unquote_quote_body (n : nat) :
  forall s, utf8.valid n s = true ->
  forall fuel tail, (n < fuel)%nat ->
  unquote fuel (quote_body n s ++ String quote_char tail) = Some (s, tail).
Proof.
  induction n as [|n IH]; intros s Hv fuel tail Hf.
  - destruct s; [|discriminate Hv]. destruct fuel; [lia|]. reflexivity.
  - destruct s as [|c rest].
    { destruct fuel; [lia|]. reflexivity. }
    destruct fuel as [|fuel]; [lia|].
    cbn [utf8.valid] in Hv.
    destruct (utf8.DecodeRune (String c rest)) as [r size] eqn:Hd.
    destruct ((r =? utf8.RuneError)%N && Nat.eqb size 1) eqn:He; [discriminate Hv|].
    destruct (N.ltb_spec (N_of_ascii c) 128) as [Hc|Hc].
    + (* ASCII *)
      assert (Hs : size = 1%nat).
      { unfold utf8.DecodeRune, utf8.byte_at in Hd. cbn [String.get] in Hd.
        unfold utf8.RuneSelf in Hd. apply N.ltb_lt in Hc. rewrite Hc in Hd.
        now injection Hd as _ <-. }
      subst size. cbn [utf8.drop] in Hv.
      rewrite quote_body_ascii by exact Hc.
      rewrite append_assoc, unquote_esc by exact Hc.
      rewrite (IH rest Hv) by lia. reflexivity.
    + (* a multi-byte rune *)
      destruct (DecodeRune_valid c rest r size Hc Hd He) as [Hsz [Hlen [Henc Hdec]]].
      cbn [quote_body]. unfold utf8.RuneSelf.
      assert (Hge : ((N_of_ascii c <? 128) = false)%N) by now apply N.ltb_ge.
      rewrite Hge, Hd, He.
      assert (Hhead : exists t, utf8.take size (String c rest) = String c t).
      { destruct size as [|size]; [lia|]. cbn [utf8.take]. eauto. }
      destruct Hhead as [t Ht].
      pose proof (N_ascii_bounded c) as Bc.
      destruct ((r =? 8232) || (r =? 8233))%N eqn:Hr.
      * (* U+2028 and U+2029 are escaped *)
        assert (Hr' : r = 8232%N \/ r = 8233%N) by lia.
        rewrite !append_assoc.
        rewrite <- (append_assoc (String backslash "u202")).
        rewrite unquote_line_separator by exact Hr'.
        rewrite (IH _ Hv) by lia. rewrite prepend_Some, Henc, utf8_take_drop.
        reflexivity.
      * rewrite append_assoc. rewrite Ht at 1. rewrite append_String.
        cbn [unquote].
        assert (E1 : Ascii.eqb c quote_char = false).
        { apply Ascii.eqb_neq. intros ->. vm_compute in Hc. now apply Hc. }
        assert (E2 : Ascii.eqb c backslash = false).
        { apply Ascii.eqb_neq. intros ->. vm_compute in Hc. now apply Hc. }
        rewrite E1, E2.
        assert (E3 : ((N_of_ascii c <? 32) = false)%N) by lia.
        rewrite E3. unfold utf8.RuneSelf. rewrite Hge.
        rewrite <- append_String, <- Ht. rewrite Hdec.
        rewrite drop_take_append by exact Hlen.
        rewrite (IH _ Hv) by lia. rewrite prepend_Some, Henc, utf8_take_drop.
        reflexivity.
Qed.

End JsonStringFacts.

(** ** JSON numbers and objects *)

Section JsonFacts.
Import json.

Lemma digits_string_of_uint (d : uint) (tail : string) :
  ends_number tail ->
  digits (NilEmpty.string_of_uint d ++ tail) = (NilEmpty.string_of_uint d, tail).
Proof.
  intros [rest Ht]. induction d; cbn [NilEmpty.string_of_uint]; str_simpl;
    try (cbn [digits]; rewrite IHd; reflexivity).
  destruct Ht as [-> | ->]; reflexivity.
Qed.

Lemma to_uint_no_leading_zero (p : positive) (d : uint) : Pos.to_uint p <> D0 d.
Proof.
  intros H.
  assert (Hn : unorm (Pos.to_uint p) = Pos.to_uint p).
  { rewrite <- (DecimalPos.Unsigned.to_of (Pos.to_uint p)).
    now rewrite DecimalPos.Unsigned.of_to. }
  rewrite H in Hn. rewrite unorm_D0 in Hn.
  destruct (nzhead d) eqn:Hz;
    try (rewrite unorm_nzhead in Hn by (rewrite Hz; discriminate);
         now apply nzhead_nonzero in Hn).
  assert (H0 : unorm d = Decimal.zero) by (apply unorm_0; exact Hz).
  rewrite H0 in Hn. injection Hn as Hn. subst d.
  now apply (DecimalPos.Unsigned.to_uint_nonzero p).
Qed.

(** A decimal integer written by [FormatInt] is read as one number
    literal. *)
Lemma number_string_of_uint (p : positive) (tail : string) :
  ends_number tail ->
  number (NilEmpty.string_of_uint (Pos.to_uint p) ++ tail)
  = Some (NilEmpty.string_of_uint (Pos.to_uint p), tail)
  /\ number (String "-"%char (NilEmpty.string_of_uint (Pos.to_uint p)) ++ tail)
     = Some (String "-"%char (NilEmpty.string_of_uint (Pos.to_uint p)), tail).
Proof.
  intros Ht.
  pose proof (to_uint_no_leading_zero p) as Hz.
  pose proof (DecimalPos.Unsigned.to_uint_nonnil p) as Hn.
  pose proof (digits_string_of_uint (Pos.to_uint p) tail Ht) as Hd.
  destruct (Pos.to_uint p) as [|d|d|d|d|d|d|d|d|d|d] eqn:E;
    [now destruct Hn | now destruct (Hz d) | ..];
    cbn [NilEmpty.string_of_uint] in *; rewrite ?append_String in *;
    unfold number; rewrite Hd;
    destruct Ht as [rest [-> | ->]]; cbn -[NilEmpty.string_of_uint];
    rewrite ?append_empty_r; split; reflexivity.
Qed.

Lemma FormatInt_eq (z : Z) :
  z <> 0 ->
  exists p, FormatInt z = NilEmpty.string_of_uint (Pos.to_uint p)
            \/ FormatInt z = String "-"%char (NilEmpty.string_of_uint (Pos.to_uint p)).
Proof.
  intros Hz. pose proof DecimalPos.Unsigned.to_uint_nonnil as Hn.
  destruct z as [|p|p]; [now destruct Hz| |]; exists p; [left|right];
    unfold FormatInt; cbn [Z.to_int NilZero.string_of_int]; unfold NilZero.string_of_uint;
    specialize (Hn p); now destruct (Pos.to_uint p).
Qed.

Lemma number_FormatInt (z : Z) (tail : string) :
  z <> 0 -> ends_number tail ->
  number (FormatInt z ++ tail) = Some (FormatInt z, tail).
Proof.
  intros Hz Ht. destruct (FormatInt_eq z Hz) as [p [-> | ->]];
    now apply number_string_of_uint.
Qed.

Lemma ParseInt_FormatInt (z : Z) :
  - 2 ^ 63 <= z < 2 ^ 63 -> jwt.ParseInt (FormatInt z) = Some z.
Proof.
  intros Hr. unfold jwt.ParseInt, FormatInt.
  rewrite NilZero.isi.
  - rewrite DecimalZ.of_to.
    assert (E : (- 2 ^ 63 <=? z) && (z <? 2 ^ 63) = true) by lia.
    now rewrite E.
  - destruct z; cbn; try discriminate.
    intros H. injection H as H. now apply DecimalPos.Unsigned.to_uint_nonnil in H.
  - destruct z; cbn; try discriminate.
    intros H. injection H as H. now apply DecimalPos.Unsigned.to_uint_nonnil in H.
Qed.

Lemma length_take (n : nat) (s : string) :
  (n <= String.length s)%nat -> String.length (utf8.take n s) = n.
Proof.
  revert s. induction n as [|n IH]; intros [|c s] Hn; cbn in Hn |- *; try lia.
  rewrite IH; lia.
Qed.

Lemma length_esc (c : ascii) : (1 <= String.length (esc c))%nat.
Proof.
  unfold esc, escape_byte.
  repeat match goal with |- context [if ?b then _ else _] => destruct b end;
    rewrite ?length_append; cbn [String.length]; lia.
Qed.

(** Escaping does not shorten a valid string. *)
Lemma length_quote_body (n : nat) :
  forall s, utf8.valid n s = true ->
  (String.length s <= String.length (quote_body n s))%nat.
Proof.
  induction n as [|n IH]; intros s Hv.
  - destruct s; [cbn; lia|discriminate Hv].
  - destruct s as [|c rest]; [cbn; lia|].
    cbn [utf8.valid] in Hv.
    destruct (utf8.DecodeRune (String c rest)) as [r size] eqn:Hd.
    destruct ((r =? utf8.RuneError)%N && Nat.eqb size 1) eqn:He; [discriminate Hv|].
    destruct (N.ltb_spec (N_of_ascii c) 128) as [Hc|Hc].
    + assert (Hs : size = 1%nat).
      { unfold utf8.DecodeRune, utf8.byte_at in Hd. cbn [String.get] in Hd.
        unfold utf8.RuneSelf in Hd. apply N.ltb_lt in Hc. rewrite Hc in Hd.
        now injection Hd as _ <-. }
      subst size. cbn [utf8.drop] in Hv.
      rewrite quote_body_ascii by exact Hc. rewrite length_append.
      pose proof (length_esc c). specialize (IH rest Hv). cbn [String.length]. lia.
    + destruct (DecodeRune_valid c rest r size Hc Hd He) as [Hsz [Hlen [Henc Hdec]]].
      cbn [quote_body]. unfold utf8.RuneSelf.
      assert (Hge : ((N_of_ascii c <? 128) = false)%N) by now apply N.ltb_ge.
      rewrite Hge, Hd, He. specialize (IH _ Hv). rewrite length_drop in IH.
      destruct ((r =? 8232) || (r =? 8233))%N.
      * rewrite !length_append. cbn [String.length] in *. lia.
      * rewrite length_append, length_take by exact Hlen. lia.
Qed.

Lemma quote_append (s tail : string) :
  (quote s ++ tail)%string =
  String quote_char (quote_body (String.length s) s ++ String quote_char tail).
Proof.
  unfold quote. rewrite !append_String. f_equal.
  now rewrite append_assoc, append_String, append_empty.
Qed.

(** A string value written by [Marshal] is parsed as that string. *)
Lemma parse_value_quote (fuel : nat) (s tail : string) :
  utf8.ValidString s = true ->
  parse_value (S fuel) (quote s ++ tail) = Some (Str s, tail).
Proof.
  intros Hv. rewrite quote_append.
  cbn [parse_value skip_space]. change (is_space quote_char) with false. cbv iota.
  rewrite Ascii.eqb_refl.
  rewrite (unquote_quote_body _ s Hv).
  - reflexivity.
  - rewrite length_append. cbn [String.length].
    pose proof (length_quote_body _ s Hv). lia.
Qed.

Lemma parse_value_number (fuel : nat) (c : ascii) (rest : string) :
  is_digit c || Ascii.eqb c "-"%char = true ->
  parse_value (S fuel) (String c rest) =
  match number (String c rest) with
  | Some (lit, r) => Some (Number lit, r)
  | None => None
  end.
Proof.
  intros Hc.
  destruct c as [[] [] [] [] [] [] [] []];
    try (exfalso; vm_compute in Hc; discriminate Hc); reflexivity.
Qed.

Lemma FormatInt_head (z : Z) :
  z <> 0 ->
  exists c rest, FormatInt z = String c rest
                 /\ is_digit c || Ascii.eqb c "-"%char = true.
Proof.
  intros Hz. destruct (FormatInt_eq z Hz) as [p [-> | ->]].
  - pose proof (DecimalPos.Unsigned.to_uint_nonnil p) as Hn.
    destruct (Pos.to_uint p); [now destruct Hn|..];
      cbn [NilEmpty.string_of_uint]; eexists; eexists; split; reflexivity.
  - eexists; eexists; split; reflexivity.
Qed.

(** A number written by [Marshal] is parsed as its literal. *)
Lemma parse_value_FormatInt (fuel : nat) (z : Z) (tail : string) :
  z <> 0 -> ends_number tail ->
  parse_value (S fuel) (FormatInt z ++ tail) = Some (Number (FormatInt z), tail).
Proof.
  intros Hz Ht. destruct (FormatInt_head z Hz) as [c [rest [E Hc]]].
  pose proof (number_FormatInt z tail Hz Ht) as Hn.
  rewrite E in *. rewrite append_String in *.
  rewrite parse_value_number by exact Hc. now rewrite Hn.
Qed.

(** A member followed by a comma, and the last member of an object. *)
Lemma parse_members_cons (fuel : nat) (key X : string) v r3 ms r4 :
  utf8.ValidString key = true ->
  parse_value fuel X = Some (v, String ","%char r3) ->
  parse_members fuel r3 = Some (ms, r4) ->
  parse_members (S fuel) (quote key ++ String ":"%char X) = Some ((key, v) :: ms, r4).
Proof.
  intros Hk Hv Hm. rewrite quote_append.
  cbn [parse_members skip_space]. change (is_space quote_char) with false. cbv iota.
  rewrite Ascii.eqb_refl.
  rewrite (unquote_quote_body _ key Hk).
  - cbn [skip_space]. change (is_space ":"%char) with false. cbv iota.
    rewrite Hv. cbn [skip_space]. change (is_space ","%char) with false. cbv iota.
    now rewrite Hm.
  - rewrite length_append. cbn [String.length].
    pose proof (length_quote_body _ key Hk). lia.
Qed.

Lemma parse_members_last (fuel : nat) (key X : string) v r3 :
  utf8.ValidString key = true ->
  parse_value fuel X = Some (v, String "}"%char r3) ->
  parse_members (S fuel) (quote key ++ String ":"%char X) = Some ([(key, v)], r3).
Proof.
  intros Hk Hv. rewrite quote_append.
  cbn [parse_members skip_space]. change (is_space quote_char) with false. cbv iota.
  rewrite Ascii.eqb_refl.
  rewrite (unquote_quote_body _ key Hk).
  - cbn [skip_space]. change (is_space ":"%char) with false. cbv iota.
    rewrite Hv. cbn [skip_space]. change (is_space "}"%char) with false. cbv iota.
    reflexivity.
  - rewrite length_append. cbn [String.length].
    pose proof (length_quote_body _ key Hk). lia.
Qed.

End JsonFacts.

(** ** Claims as JSON: decoding what was marshalled *)

Section ClaimsJson.
Import json.

Lemma parse_object (fuel : nat) (key X : string) ms r :
  parse_members fuel (quote key ++ X) = Some (ms, r) ->
  parse_value (S fuel) (String "{"%char (quote key ++ X)) = Some (Object ms, r).
Proof.
  rewrite quote_append. intros H.
  cbn [parse_value skip_space]. change (is_space "{"%char) with false. cbv iota.
  change (Ascii.eqb "{"%char quote_char) with false.
  change (Ascii.eqb "{"%char "{"%char) with true. cbv iota.
  cbn [skip_space]. change (is_space quote_char) with false. cbv iota.
  unfold quote_char at 1. cbv iota. fold quote_char. now rewrite H.
Qed.

Lemma set_user_id (s : string) (c : Claims) :
  jwt.set_field "user_id" (Str s) c =
  Some (mkClaims s (Role c) (Audience c) (ExpiresAt c) (Id c) (IssuedAt c)
          (Issuer c) (NotBefore c) (Subject c)).
Proof. reflexivity. Qed.

Lemma set_role (s : string) (c : Claims) :
  jwt.set_field "role" (Str s) c =
  Some (mkClaims (UserID c) s (Audience c) (ExpiresAt c) (Id c) (IssuedAt c)
          (Issuer c) (NotBefore c) (Subject c)).
Proof. reflexivity. Qed.

Lemma set_exp (z : Z) (c : Claims) :
  int64 z ->
  jwt.set_field "exp" (Number (FormatInt z)) c =
  Some (mkClaims (UserID c) (Role c) (Audience c) z (Id c) (IssuedAt c)
          (Issuer c) (NotBefore c) (Subject c)).
Proof.
  intros Hz.
  change (jwt.set_field "exp" (Number (FormatInt z)) c)
    with (match jwt.ParseInt (FormatInt z) with
          | Some z' => Some (mkClaims (UserID c) (Role c) (Audience c) z' (Id c)
                               (IssuedAt c) (Issuer c) (NotBefore c) (Subject c))
          | None => None
          end).
  now rewrite ParseInt_FormatInt.
Qed.

Lemma set_iat (z : Z) (c : Claims) :
  int64 z ->
  jwt.set_field "iat" (Number (FormatInt z)) c =
  Some (mkClaims (UserID c) (Role c) (Audience c) (ExpiresAt c) (Id c) z
          (Issuer c) (NotBefore c) (Subject c)).
Proof.
  intros Hz.
  change (jwt.set_field "iat" (Number (FormatInt z)) c)
    with (match jwt.ParseInt (FormatInt z) with
          | Some z' => Some (mkClaims (UserID c) (Role c) (Audience c) (ExpiresAt c)
                               (Id c) z' (Issuer c) (NotBefore c) (Subject c))
          | None => None
          end).
  now rewrite ParseInt_FormatInt.
Qed.

Lemma set_members_cons key name v rest (c c' : Claims) :
  jwt.find_field key = Some name ->
  jwt.set_field name v c = Some c' ->
  jwt.set_members ((key, v) :: rest) c = jwt.set_members rest c'.
Proof. intros Hf Hs. cbn [jwt.set_members]. now rewrite Hf, Hs. Qed.

Lemma colon_append (X : string) : (":" ++ X)%string = String ":"%char X.
Proof. reflexivity. Qed.

Lemma comma_append (X : string) : ("," ++ X)%string = String ","%char X.
Proof. reflexivity. Qed.

Lemma brace_append (X : string) : ("{" ++ X)%string = String "{"%char X.
Proof. reflexivity. Qed.

Lemma ends_number_comma (r : string) : ends_number (String ","%char r).
Proof. exists r. now left. Qed.

Lemma ends_number_brace (r : string) : ends_number (String "}"%char r).
Proof. exists r. now right. Qed.

(** Decoding the JSON of issued claims gives the claims back, for a user
    id and a role that are valid UTF-8. *)
Lemma DecodeClaims_MarshalClaims (userID role : string) (exp iat : Z) :
  utf8.ValidString userID = true ->
  utf8.ValidString role = true ->
  int64 exp -> int64 iat ->
  jwt.DecodeClaims (jwt.MarshalClaims (issued_claims userID role exp iat)) jwt.zero_claims
  = Some (issued_claims userID role exp iat).
Proof.
  intros Hu Hr He Hi.
  unfold jwt.DecodeClaims.
  remember (String.length (jwt.MarshalClaims (issued_claims userID role exp iat))) as F eqn:HF.
  assert (HF5 : (5 <= F)%nat).
  { subst F. unfold jwt.MarshalClaims, jwt.member_string. cbn [List.app strings.Join].
    rewrite brace_append, quote_append. cbn [String.length].
    rewrite !length_append. cbn [String.length].
    rewrite ?length_append. cbn [String.length]. lia. }
  destruct F as [|[|[|[|[|F]]]]]; try lia. clear HF HF5.
  unfold jwt.MarshalClaims, jwt.member_string, jwt.member_string_omitempty,
    jwt.member_int_omitempty, issued_claims.
  cbn [UserID Role Audience ExpiresAt Id IssuedAt Issuer NotBefore Subject].
  change (String.eqb "" "") with true. change (0 =? 0) with true. cbv iota.
  destruct (Z.eqb_spec exp 0) as [E0|E0]; destruct (Z.eqb_spec iat 0) as [I0|I0];
    cbn [List.app strings.Join];
    rewrite brace_append, !append_assoc, !colon_append, ?comma_append;
    change ("}" : string) with (String "}"%char EmptyString).
  - (* neither exp nor iat *)
    erewrite parse_object.
    2:{ eapply parse_members_cons; [reflexivity| |].
        - now apply parse_value_quote.
        - eapply parse_members_last; [reflexivity|].
          now apply parse_value_quote. }
    erewrite set_members_cons; [|reflexivity|apply set_user_id].
    erewrite set_members_cons; [|reflexivity|apply set_role].
    subst. reflexivity.
  - (* iat only *)
    erewrite parse_object.
    2:{ eapply parse_members_cons; [reflexivity| |].
        - now apply parse_value_quote.
        - eapply parse_members_cons; [reflexivity| |].
          + now apply parse_value_quote.
          + eapply parse_members_last; [reflexivity|].
            apply parse_value_FormatInt; [exact I0|apply ends_number_brace]. }
    erewrite set_members_cons; [|reflexivity|apply set_user_id].
    erewrite set_members_cons; [|reflexivity|apply set_role].
    erewrite set_members_cons; [|reflexivity|apply set_iat; exact Hi].
    subst. reflexivity.
  - (* exp only *)
    erewrite parse_object.
    2:{ eapply parse_members_cons; [reflexivity| |].
        - now apply parse_value_quote.
        - eapply parse_members_cons; [reflexivity| |].
          + now apply parse_value_quote.
          + eapply parse_members_last; [reflexivity|].
            apply parse_value_FormatInt; [exact E0|apply ends_number_brace]. }
    erewrite set_members_cons; [|reflexivity|apply set_user_id].
    erewrite set_members_cons; [|reflexivity|apply set_role].
    erewrite set_members_cons; [|reflexivity|apply set_exp; exact He].
    subst. reflexivity.
  - (* both *)
    erewrite parse_object.
    2:{ eapply parse_members_cons; [reflexivity| |].
        - now apply parse_value_quote.
        - eapply parse_members_cons; [reflexivity| |].
          + now apply parse_value_quote.
          + eapply parse_members_cons; [reflexivity| |].
            * apply parse_value_FormatInt; [exact E0|apply ends_number_comma].
            * eapply parse_members_last; [reflexivity|].
              apply parse_value_FormatInt; [exact I0|apply ends_number_brace]. }
    erewrite set_members_cons; [|reflexivity|apply set_user_id].
    erewrite set_members_cons; [|reflexivity|apply set_role].
    erewrite set_members_cons; [|reflexivity|apply set_exp; exact He].
    erewrite set_members_cons; [|reflexivity|apply set_iat; exact Hi].
    reflexivity.
Qed.

End ClaimsJson.

(** ** Splitting and joining *)

Section SplitFacts.

Lemma Split_nonempty (s : string) (sep : ascii) : strings.Split s sep <> [].
Proof.
  destruct s as [|c s]; cbn [strings.Split]; [discriminate|].
  destruct (Ascii.eqb c sep); [discriminate|].
  destruct (strings.Split s sep); discriminate.
Qed.

Lemma Split_free (s : string) (sep : ascii) :
  free_of sep s = true -> strings.Split s sep = [s].
Proof.
  induction s as [|c s IH]; [reflexivity|].
  cbn [free_of strings.Split]. intros H. apply andb_prop in H. destruct H as [Hc Hs].
  apply negb_true_iff in Hc. rewrite Hc. now rewrite (IH Hs).
Qed.

Lemma Split_app_sep (a b : string) (sep : ascii) :
  strings.Split (a ++ String sep b) sep = strings.Split a sep ++ strings.Split b sep.
Proof.
  induction a as [|c a IH].
  - rewrite append_empty. cbn [strings.Split]. now rewrite Ascii.eqb_refl.
  - rewrite append_String. cbn [strings.Split]. destruct (Ascii.eqb c sep).
    + now rewrite IH.
    + rewrite IH. pose proof (Split_nonempty a sep) as Hn.
      destruct (strings.Split a sep); [now destruct Hn|reflexivity].
Qed.

(** Appending text without separator to a string lengthens its last part
    only. *)
Lemma length_Split_app_free (a b : string) (sep : ascii) :
  free_of sep b = true ->
  List.length (strings.Split (a ++ b) sep) = List.length (strings.Split a sep).
Proof.
  intros Hb. induction a as [|c a IH].
  - rewrite append_empty. now rewrite (Split_free b sep Hb).
  - rewrite append_String. cbn [strings.Split]. destruct (Ascii.eqb c sep).
    + cbn [List.length]. now rewrite IH.
    + pose proof (Split_nonempty a sep) as Hn. pose proof (Split_nonempty (a ++ b) sep) as Hn'.
      destruct (strings.Split a sep); [now destruct Hn|].
      destruct (strings.Split (a ++ b) sep); [now destruct Hn'|].
      cbn [List.length] in *. exact IH.
Qed.

Lemma Join_Split (s : string) (sep : ascii) :
  strings.Join (strings.Split s sep) (String sep EmptyString) = s.
Proof.
  induction s as [|c s IH]; [reflexivity|].
  cbn [strings.Split]. pose proof (Split_nonempty s sep) as Hn.
  destruct (Ascii.eqb_spec c sep) as [->|Hc].
  - destruct (strings.Split s sep) as [|p ps] eqn:E; [now destruct Hn|].
    change (strings.Join (EmptyString :: p :: ps) (String sep EmptyString))
      with ("" ++ String sep EmptyString ++ strings.Join (p :: ps) (String sep EmptyString))%string.
    rewrite IH. reflexivity.
  - destruct (strings.Split s sep) as [|p ps] eqn:E; [now destruct Hn|].
    destruct ps as [|p' ps].
    + cbn [strings.Join] in *. now rewrite IH.
    + change (strings.Join (String c p :: p' :: ps) (String sep EmptyString))
        with (String c p ++ String sep EmptyString
              ++ strings.Join (p' :: ps) (String sep EmptyString))%string.
      change (strings.Join (p :: p' :: ps) (String sep EmptyString))
        with (p ++ String sep EmptyString
              ++ strings.Join (p' :: ps) (String sep EmptyString))%string in IH.
      rewrite append_String. now rewrite IH.
Qed.

Lemma replace_at_app_l (p : nat) (c : ascii) (a b : string) :
  (p < String.length a)%nat ->
  replace_at p c (a ++ b) = (replace_at p c a ++ b)%string.
Proof.
  revert p. induction a as [|x a IH]; intros p Hp; [cbn in Hp; lia|].
  rewrite append_String. destruct p as [|p]; cbn [replace_at]; rewrite ?append_String.
  - reflexivity.
  - rewrite IH by (cbn in Hp; lia). reflexivity.
Qed.

Lemma replace_at_app_r (p : nat) (c : ascii) (a b : string) :
  replace_at (String.length a + p) c (a ++ b) = (a ++ replace_at p c b)%string.
Proof.
  induction a as [|x a IH]; [reflexivity|].
  rewrite append_String. cbn [String.length Nat.add replace_at]. now rewrite IH.
Qed.

Lemma get_append_r (p : nat) (a b : string) :
  String.get (String.length a + p) (a ++ b) = String.get p b.
Proof. induction a as [|x a IH]; [reflexivity|]. exact IH. Qed.

Lemma free_of_enc (sx : list N) : six_bit sx -> free_of "."%char (enc sx) = true.
Proof.
  unfold six_bit. induction 1 as [|v sx Hv _ IH]; [reflexivity|].
  cbn [enc free_of]. destruct (encode_char_not_special v Hv) as [_ [_ Hd]].
  now rewrite Hd, IH.
Qed.

Lemma free_of_EncodeSegment (b : string) : free_of "."%char (jwt.EncodeSegment b) = true.
Proof. rewrite EncodeSegment_enc. apply free_of_enc, sextets_six_bit. Qed.

Lemma free_of_app (sep : ascii) (a b : string) :
  free_of sep (a ++ b) = free_of sep a && free_of sep b.
Proof.
  induction a as [|x a IH]; [reflexivity|].
  rewrite append_String. cbn [free_of]. rewrite IH. now rewrite andb_assoc.
Qed.

End SplitFacts.

(** ** Tokens *)

Section TokenFacts.

(** The three segments of a signed token. *)
Lemma SignedString_eq (claims : Claims) (key : string) :
  jwt.SignedString jwt.SigningMethodHS256 claims key =
  ((jwt.SigningString jwt.SigningMethodHS256 claims ++ "."
    ++ jwt.EncodeSegment (jwt.mac sha2.SHA256 key
                            (jwt.SigningString jwt.SigningMethodHS256 claims)))%string,
   None).
Proof. reflexivity. Qed.

Lemma SigningString_eq (claims : Claims) :
  jwt.SigningString jwt.SigningMethodHS256 claims =
  (header_segment ++ "." ++ jwt.EncodeSegment (jwt.MarshalClaims claims))%string.
Proof. reflexivity. Qed.

Lemma Split_SigningString (claims : Claims) :
  strings.Split (jwt.SigningString jwt.SigningMethodHS256 claims) "."%char =
  [header_segment; jwt.EncodeSegment (jwt.MarshalClaims claims)].
Proof.
  rewrite SigningString_eq.
  change ("." ++ jwt.EncodeSegment (jwt.MarshalClaims claims))%string
    with (String "."%char (jwt.EncodeSegment (jwt.MarshalClaims claims))).
  rewrite Split_app_sep.
  rewrite !Split_free by apply free_of_EncodeSegment. reflexivity.
Qed.

(** The header of an issued token names HS256. *)
Lemma header_decodes :
  jwt.DecodeSegment header_segment = Some (jwt.MarshalHeader "HS256")
  /\ jwt.UnmarshalHeader (jwt.MarshalHeader "HS256")
     = Some [("alg", json.Str "HS256"); ("typ", json.Str "JWT")].
Proof. split; vm_compute; reflexivity. Qed.

Lemma length_big_endian (n : nat) (x : Z) : List.length (bytes.big_endian n x) = n.
Proof.
  revert x. induction n as [|n IH]; intros x; [reflexivity|].
  cbn [bytes.big_endian]. rewrite List.length_app, IH. cbn. lia.
Qed.

(** An HMAC-SHA256 value has 32 bytes. *)
Lemma length_mac_SHA256 (key message : string) :
  String.length (jwt.mac sha2.SHA256 key message) = 32%nat.
Proof.
  unfold jwt.mac, hmac.Sum.
  set (m := (hmac.xor_pad 92 _ ++ _)%list). clearbody m.
  unfold sha2.Sum.
  destruct (List.fold_left _ _ _) as [[[[[[[a b] c] d] e] f] g] h].
  unfold bytes.to_string. cbn [sha2.state_words sha2.out_words sha2.SHA256 List.firstn
                               List.flat_map].
  assert (L : forall l, String.length (string_of_list_ascii l) = List.length l).
  { induction l as [|x l IH]; [reflexivity|]. cbn. now rewrite IH. }
  rewrite L, List.length_map, !List.length_app, !length_big_endian. reflexivity.
Qed.

End TokenFacts.

(** ** Issue then validate *)

Section RoundTrip.
Import JwtService.

Lemma GenerateToken_eq (jwtSecret userID role : string) (w : World) :
  GenerateToken jwtSecret userID role w =
  (Ret (jwt.SignedString jwt.SigningMethodHS256
          (issued_claims userID role
             (Unix (Add (now_of w) (24 * Hour))) (Unix (now_of (tick w))))
          jwtSecret),
   tick (tick w)).
Proof. reflexivity. Qed.

(** A token signed with HS256 under a key parses and verifies under that
    key when its claims decode and are inside their validity window. *)
Lemma ParseWithClaims_signed (claims : Claims) (key : string) (w : World) :
  jwt.DecodeClaims (jwt.MarshalClaims claims) jwt.zero_claims = Some claims ->
  snd (jwt.claims_Valid claims (Unix (now_of w))) = 0 ->
  exists token,
    jwt.ParseWithClaims (fst (jwt.SignedString jwt.SigningMethodHS256 claims key))
      jwt.zero_claims (fun _ => (key, None)) w
    = (Ret (Some token, None), tick w)
    /\ jwt.Valid token = true
    /\ jwt.TokenClaims token = claims.
Proof.
  intros Hdec Hval.
  rewrite SignedString_eq. cbn [fst].
  set (sstr := jwt.SigningString jwt.SigningMethodHS256 claims).
  set (sig := jwt.EncodeSegment (jwt.mac sha2.SHA256 key sstr)).
  assert (Hparts : strings.Split (sstr ++ "." ++ sig) "."%char
                   = [header_segment; jwt.EncodeSegment (jwt.MarshalClaims claims); sig]).
  { change ("." ++ sig)%string with (String "."%char sig).
    rewrite Split_app_sep. unfold sstr. rewrite Split_SigningString.
    unfold sig. rewrite Split_free by apply free_of_EncodeSegment. reflexivity. }
  destruct header_decodes as [Hh Hu].
  unfold jwt.ParseWithClaims, jwt.ParseUnverified.
  rewrite Hparts. cbn [List.length Nat.eqb negb List.nth].
  rewrite Hh, Hu. rewrite DecodeSegment_EncodeSegment, Hdec.
  change (jwt.header_get "alg" [("alg", json.Str "HS256"); ("typ", json.Str "JWT")])
    with (Some (json.Str "HS256")).
  cbv iota beta.
  change (jwt.GetSigningMethod "HS256") with (Some jwt.SigningMethodHS256).
  cbv iota beta. unfold bind at 1. cbn [deref ret].
  unfold bind at 1. rewrite time_Now_eq.
  cbn [jwt.TokenClaims jwt.Method jwt.Raw jwt.Header].
  unfold bind at 1. cbn [deref ret].
  cbn [List.firstn].
  change (strings.Join [header_segment; jwt.EncodeSegment (jwt.MarshalClaims claims)] ".")
    with sstr.
  cbn [List.nth].
  unfold jwt.Verify, jwt.SigningMethodHS256. unfold sig.
  rewrite DecodeSegment_EncodeSegment.
  unfold hmac.Equal. rewrite String.eqb_refl. cbn [negb].
  rewrite Hval. cbn [Z.eqb]. eexists. split; [reflexivity|]. split; reflexivity.
Qed.

Lemma Unix_le (t u : Time) : t <= u -> Unix t <= Unix u.
Proof. intros H. unfold Unix, Second. apply Z.div_le_mono; lia. Qed.

(** C9, amended: for every subject id and role that are valid UTF-8,
    validating a token after issuing it, under the same secret and at an
    instant between the issue and the expiry 24 hours later, succeeds and
    yields Claims whose subject id and role are the ones passed to
    [GenerateToken]. (The two int64 hypotheses say that the instants are
    ones a Go [time.Time] can hold.) *)
Theorem ValidateToken_GenerateToken
  (jwtSecret userID role : string) (w w' : World) :
  utf8.ValidString userID = true ->
  utf8.ValidString role = true ->
  int64 (Unix (Add (now_of w) (24 * Hour))) ->
  int64 (Unix (now_of (tick w))) ->
  now_of (tick w) <= now_of w' <= Add (now_of w) (24 * Hour) ->
  exists token claims,
    GenerateToken jwtSecret userID role w = (Ret (token, None), tick (tick w))
    /\ ValidateToken jwtSecret token w' = (Ret (Some claims, None), tick w')
    /\ UserID claims = userID
    /\ Role claims = role.
Proof.
  intros Hu Hr He Hi [Hlo Hhi].
  set (claims := issued_claims userID role
                   (Unix (Add (now_of w) (24 * Hour))) (Unix (now_of (tick w)))).
  assert (Hdec : jwt.DecodeClaims (jwt.MarshalClaims claims) jwt.zero_claims = Some claims)
    by now apply DecodeClaims_MarshalClaims.
  assert (Hval : snd (jwt.claims_Valid claims (Unix (now_of w'))) = 0).
  { unfold jwt.claims_Valid, claims, issued_claims.
    cbn [ExpiresAt IssuedAt NotBefore].
    apply Unix_le in Hlo. apply Unix_le in Hhi.
    assert (E1 : (Unix (Add (now_of w) (24 * Hour)) =? 0)
                 || (Unix (now_of w') <=? Unix (Add (now_of w) (24 * Hour))) = true) by lia.
    assert (E2 : (Unix (now_of (tick w)) =? 0)
                 || (Unix (now_of (tick w)) <=? Unix (now_of w')) = true) by lia.
    rewrite E1, E2. reflexivity. }
  destruct (ParseWithClaims_signed claims jwtSecret w' Hdec Hval) as [token [Hp [Hv Hc]]].
  exists (fst (jwt.SignedString jwt.SigningMethodHS256 claims jwtSecret)), claims.
  split; [rewrite GenerateToken_eq; reflexivity|].
  split; [|split; reflexivity].
  unfold ValidateToken, bind. rewrite Hp. cbn [deref ret]. rewrite Hv, Hc. reflexivity.
Qed.

End RoundTrip.

(** ** Tampered tokens *)

Section Tampering.
Import JwtService.

Lemma ParseUnverified_inv (t : string) (c : Claims) tok parts :
  jwt.ParseUnverified t c = (tok, parts, None) ->
  parts = strings.Split t "."%char
  /\ List.length parts = 3%nat
  /\ exists hdr hm cb cl alg m,
       jwt.DecodeSegment (List.nth 0 parts "") = Some hdr
       /\ jwt.UnmarshalHeader hdr = Some hm
       /\ jwt.DecodeSegment (List.nth 1 parts "") = Some cb
       /\ jwt.DecodeClaims cb c = Some cl
       /\ jwt.header_get "alg" hm = Some (json.Str alg)
       /\ jwt.GetSigningMethod alg = Some m
       /\ tok = Some (jwt.mkToken t (Some m) hm cl "" false).
Proof.
  unfold jwt.ParseUnverified.
  destruct (Nat.eqb (List.length (strings.Split t ".")) 3) eqn:El; cbn [negb];
    [|discriminate].
  apply Nat.eqb_eq in El.
  destruct (jwt.DecodeSegment (List.nth 0 (strings.Split t ".") "")) as [hdr|] eqn:E1;
    [|discriminate].
  destruct (jwt.UnmarshalHeader hdr) as [hm|] eqn:E2; [|discriminate].
  destruct (jwt.DecodeSegment (List.nth 1 (strings.Split t ".") "")) as [cb|] eqn:E3;
    [|discriminate].
  destruct (jwt.DecodeClaims cb c) as [cl|] eqn:E4; [|discriminate].
  destruct (jwt.header_get "alg" hm) as [[| | |alg| |]|] eqn:E5; try discriminate.
  destruct (jwt.GetSigningMethod alg) as [m|] eqn:E6; [|discriminate].
  intros H. injection H as <- <-.
  split; [reflexivity|]. split; [exact El|].
  exists hdr, hm, cb, cl, alg, m. rewrite E1, E3. repeat split; assumption.
Qed.

(** Whenever verification of the signature fails for the method the header
    selects, [ParseWithClaims] returns an error. *)
Lemma ParseWithClaims_rejects (t : string) (c : Claims) (key : string) (w : World) :
  (forall hdr hm alg m,
     List.length (strings.Split t "."%char) = 3%nat ->
     jwt.DecodeSegment (List.nth 0 (strings.Split t "."%char) "") = Some hdr ->
     jwt.UnmarshalHeader hdr = Some hm ->
     jwt.header_get "alg" hm = Some (json.Str alg) ->
     jwt.GetSigningMethod alg = Some m ->
     jwt.Verify m (signing_part t) (List.nth 2 (strings.Split t "."%char) "") key <> None) ->
  exists tok e w',
    jwt.ParseWithClaims t c (fun _ => (key, None)) w = (Ret (tok, Some e), w').
Proof.
  intros Hver. unfold jwt.ParseWithClaims.
  destruct (jwt.ParseUnverified t c) as [[tok parts] [e|]] eqn:Hp.
  - now eexists _, _, _.
  - apply ParseUnverified_inv in Hp.
    destruct Hp as (-> & Hl & hdr & hm & cb & cl & alg & m & E1 & E2 & E3 & E4 & E5 & E6 & ->).
    specialize (Hver hdr hm alg m Hl E1 E2 E5 E6).
    unfold bind at 1. cbn [deref ret].
    unfold bind at 1. rewrite time_Now_eq.
    cbn [jwt.TokenClaims jwt.Method jwt.Raw jwt.Header].
    unfold bind at 1. cbn [deref ret].
    fold (signing_part t).
    destruct (jwt.Verify m (signing_part t) (List.nth 2 (strings.Split t ".") "") key)
      as [e|]; [|now destruct Hver].
    cbn [snd].
    assert (E : (Z.lor (snd (jwt.claims_Valid cl (Unix (now_of w))))
                   jwt.ValidationErrorSignatureInvalid =? 0) = false).
    { apply Z.eqb_neq. intros H0. apply Z.lor_eq_0_iff in H0. destruct H0 as [_ H0].
      discriminate H0. }
    rewrite E. now eexists _, _, _.
Qed.

Lemma ValidateToken_rejects (jwtSecret t : string) (w : World) :
  (forall hdr hm alg m,
     List.length (strings.Split t "."%char) = 3%nat ->
     jwt.DecodeSegment (List.nth 0 (strings.Split t "."%char) "") = Some hdr ->
     jwt.UnmarshalHeader hdr = Some hm ->
     jwt.header_get "alg" hm = Some (json.Str alg) ->
     jwt.GetSigningMethod alg = Some m ->
     jwt.Verify m (signing_part t) (List.nth 2 (strings.Split t "."%char) "") jwtSecret
     <> None) ->
  exists e w', ValidateToken jwtSecret t w = (Ret (None, Some e), w').
Proof.
  intros Hver.
  destruct (ParseWithClaims_rejects t jwt.zero_claims jwtSecret w Hver) as [tok [e [w' Hp]]].
  unfold ValidateToken, bind. rewrite Hp. now eexists _, _.
Qed.

(** The hash of a registered HMAC method. *)
Lemma GetSigningMethod_HMAC (alg name : string) (h : sha2.Params) :
  jwt.GetSigningMethod alg = Some (jwt.SigningMethodHMAC name h) ->
  In h hmac_hashes.
Proof.
  unfold jwt.GetSigningMethod, hmac_hashes.
  repeat match goal with |- context [if ?b then _ else _] => destruct b end;
    intros H; try discriminate H; injection H as _ <-; cbn; auto.
Qed.

Lemma get_enc (sx : list N) (q : nat) :
  (q < List.length sx)%nat ->
  String.get q (enc sx) = Some (base64.encode_char (List.nth q sx 0%N)).
Proof.
  revert q. induction sx as [|v sx IH]; intros q Hq; [cbn in Hq; lia|].
  destruct q as [|q]; [reflexivity|]. cbn [enc String.get List.nth]. apply IH.
  cbn in Hq. lia.
Qed.


Lemma length_sextets_32 (b : string) :
  String.length b = 32%nat -> List.length (sextets b) = 43%nat.
Proof. intros H. rewrite length_sextets, H. reflexivity. Qed.

(** The signature segment with one character changed: verification under
    HS256 fails, unless the character is the last one and the new one
    stands for a value with the same four leading bits. *)
Lemma Verify_tampered_signature (key sstr : string) (q : nat) (c : ascii) :
  let sig := jwt.EncodeSegment (jwt.mac sha2.SHA256 key sstr) in
  (q < String.length sig)%nat ->
  String.get q sig <> Some c ->
  (S q = String.length sig ->
   forall o v v',
     String.get q sig = Some o ->
     base64.decodeMap o = Some v -> base64.decodeMap c = Some v' ->
     (v' / 4 <> v / 4)%N) ->
  jwt.Verify jwt.SigningMethodHS256 sstr (replace_at q c sig) key <> None.
Proof.
  intros sig Hq Hc Hlast. unfold sig in *. clear sig.
  set (macv := jwt.mac sha2.SHA256 key sstr) in *.
  pose proof (length_mac_SHA256 key sstr) as Hlen. fold macv in Hlen.
  rewrite EncodeSegment_enc in *.
  pose proof (length_sextets_32 macv Hlen) as H43.
  rewrite length_enc in Hq, Hlast.
  rewrite get_enc in Hc, Hlast by lia.
  assert (Ht : jwt.DecodeSegment (replace_at q c (enc (sextets macv))) <> Some macv).
  { rewrite <- (bytes_of_sextets macv) at 2.
    destruct (Nat.eq_dec (S q) (List.length (sextets macv))) as [El|El].
    - replace q with (List.length (sextets macv) - 1)%nat in * by lia.
      apply DecodeSegment_tampered_last.
      + apply sextets_six_bit.
      + rewrite H43. reflexivity.
      + intros v' Hv'.
        apply (Hlast El _ _ _ eq_refl); [|exact Hv'].
        apply decodeMap_encode_char, six_bit_nth, sextets_six_bit.
    - apply DecodeSegment_tampered.
      + apply sextets_six_bit.
      + rewrite H43. reflexivity.
      + lia.
      + intros ->. now apply Hc. }
  unfold jwt.Verify, jwt.SigningMethodHS256.
  destruct (jwt.DecodeSegment (replace_at q c (enc (sextets macv)))) as [b|];
    [|discriminate].
  unfold hmac.Equal. fold macv.
  destruct (String.eqb_spec b macv) as [->|_]; [now destruct Ht|discriminate].
Qed.

(** The other side of the proviso on the last character: a replacement
    with the same four leading bits leaves the decoded signature as it was,
    so verification under HS256 still succeeds. *)
Lemma Verify_same_leading_bits (key sstr : string) (v' : N) :
  let sig := jwt.EncodeSegment (jwt.mac sha2.SHA256 key sstr) in
  (v' < 64)%N ->
  (forall o v, String.get (String.length sig - 1) sig = Some o ->
               base64.decodeMap o = Some v -> (v' / 4 = v / 4)%N) ->
  jwt.Verify jwt.SigningMethodHS256 sstr
    (replace_at (String.length sig - 1) (base64.encode_char v') sig) key = None.
Proof.
  intros sig Hv' Hsame. unfold sig in *. clear sig.
  set (macv := jwt.mac sha2.SHA256 key sstr) in *.
  pose proof (length_mac_SHA256 key sstr) as Hlen. fold macv in Hlen.
  rewrite EncodeSegment_enc in *.
  pose proof (length_sextets_32 macv Hlen) as H43.
  rewrite length_enc in *.
  set (sx := sextets macv) in *.
  assert (Hne : sx <> []) by (intros E; rewrite E in H43; discriminate).
  assert (Hsix : six_bit sx) by apply sextets_six_bit.
  set (pre := List.firstn (List.length sx - 1) sx).
  set (v := List.nth (List.length sx - 1) sx 0%N).
  assert (Hsx : sx = pre ++ [v]) by apply (firstn_snoc_last sx Hne).
  assert (Hpre : (List.length pre mod 4 = 2)%nat).
  { unfold pre. rewrite List.length_firstn, H43. reflexivity. }
  assert (Hv : (v' / 4 = v / 4)%N).
  { apply (Hsame (base64.encode_char v)).
    - rewrite get_enc by lia. reflexivity.
    - apply decodeMap_encode_char. now apply six_bit_nth. }
  assert (Hrep : replace_at (List.length sx - 1) (base64.encode_char v') (enc sx)
                 = enc (pre ++ [v'])).
  { rewrite replace_at_enc by lia.
    replace (S (List.length sx - 1)) with (List.length sx) by lia.
    rewrite List.skipn_all. fold pre. now rewrite enc_app. }
  rewrite Hrep.
  unfold jwt.Verify, jwt.SigningMethodHS256.
  rewrite DecodeSegment_enc.
  - rewrite (bytes_of_snoc_same pre v v' Hpre Hv), <- Hsx.
    unfold sx. rewrite bytes_of_sextets. fold macv.
    unfold hmac.Equal. now rewrite String.eqb_refl.
  - apply six_bit_app; [now apply six_bit_firstn|now repeat constructor].
  - rewrite List.length_app. cbn [List.length]. unfold pre.
    rewrite List.length_firstn, H43. cbn. lia.
Qed.

(** A token issued for [claims] under [key], with the character at
    position [p] replaced by [c]. *)
Lemma ValidateToken_tampered_token (key : string) (claims : Claims)
    (p : nat) (c : ascii) (w : World) :
  let sstr := jwt.SigningString jwt.SigningMethodHS256 claims in
  let token := fst (jwt.SignedString jwt.SigningMethodHS256 claims key) in
  String.get p token <> Some c ->
  (p < String.length token)%nat ->
  (S p = String.length token ->
   forall o v v',
     String.get p token = Some o ->
     base64.decodeMap o = Some v -> base64.decodeMap c = Some v' ->
     (v' / 4 <> v / 4)%N) ->
  ((p < String.length sstr)%nat ->
   forall h, In h hmac_hashes ->
             jwt.mac h key (replace_at p c sstr) <> jwt.mac sha2.SHA256 key sstr) ->
  exists e w', ValidateToken key (replace_at p c token) w = (Ret (None, Some e), w').
Proof.
  intros sstr token. unfold token. rewrite SignedString_eq. cbn [fst]. fold sstr.
  set (macv := jwt.mac sha2.SHA256 key sstr).
  set (sig := jwt.EncodeSegment macv).
  change ("." ++ sig)%string with (String "."%char sig).
  intros Hc Hp Hlast Hmac.
  assert (Hsig_free : free_of "."%char sig = true) by apply free_of_EncodeSegment.
  assert (Hsplit_s : strings.Split sstr "."%char
                     = [header_segment; jwt.EncodeSegment (jwt.MarshalClaims claims)])
    by apply Split_SigningString.
  assert (Hdec_sig : jwt.DecodeSegment sig = Some macv) by apply DecodeSegment_EncodeSegment.
  apply ValidateToken_rejects.
  destruct (Nat.lt_ge_cases p (String.length sstr)) as [Hlt|Hge].
  - (* the change is in the header, the payload or the dot between them *)
    rewrite replace_at_app_l by exact Hlt.
    set (sstr' := replace_at p c sstr) in *.
    intros hdr hm alg m Hl _ _ _ Hm.
    rewrite Split_app_sep, (Split_free sig) in * by exact Hsig_free.
    rewrite List.length_app in Hl. cbn [List.length] in Hl.
    assert (Hj : signing_part (sstr' ++ String "."%char sig) = sstr').
    { unfold signing_part. rewrite Split_app_sep, (Split_free sig) by exact Hsig_free.
      pose proof (Join_Split sstr' "."%char) as HJ.
      destruct (strings.Split sstr' ".") as [|a [|b [|? ?]]]; cbn in Hl; try lia.
      exact HJ. }
    rewrite Hj.
    assert (Hn : List.nth 2 (strings.Split sstr' "." ++ [sig]) "" = sig).
    { destruct (strings.Split sstr' ".") as [|a [|b [|? ?]]]; cbn in Hl; try lia.
      reflexivity. }
    rewrite Hn.
    destruct m as [name h|name]; [|discriminate].
    unfold jwt.Verify. rewrite Hdec_sig. unfold hmac.Equal.
    apply GetSigningMethod_HMAC in Hm.
    specialize (Hmac Hlt h Hm).
    destruct (String.eqb_spec macv (jwt.mac h key sstr')) as [E|_]; [|discriminate].
    now destruct Hmac.
  - (* the change is at or after the dot before the signature *)
    replace p with (String.length sstr + (p - String.length sstr))%nat in * by lia.
    set (k := (p - String.length sstr)%nat) in *. clearbody k. clear Hge.
    rewrite replace_at_app_r. rewrite get_append_r in Hc, Hlast.
    rewrite length_append in Hp, Hlast. cbn [String.length] in Hp, Hlast.
    destruct k as [|q].
    + (* the dot itself *)
      cbn [String.get] in Hc. cbn [replace_at].
      intros hdr hm alg m Hl. exfalso.
      assert (Hcd : Ascii.eqb c "."%char = false).
      { apply Ascii.eqb_neq. intros ->. now apply Hc. }
      rewrite length_Split_app_free in Hl.
      * rewrite Hsplit_s in Hl. discriminate Hl.
      * cbn [free_of]. now rewrite Hcd, Hsig_free.
    + (* a character of the signature *)
      cbn [String.get] in Hc, Hlast. cbn [replace_at].
      assert (Hq : (q < String.length sig)%nat) by lia.
      intros hdr hm alg m Hl E1 E2 E5 E6.
      rewrite Split_app_sep, Hsplit_s in *.
      cbn [List.app List.nth List.length] in *.
      destruct header_decodes as [Hh Hu].
      rewrite Hh in E1. injection E1 as <-. rewrite Hu in E2. injection E2 as <-.
      injection E5 as <-. injection E6 as <-.
      destruct (strings.Split (replace_at q c sig) ".") as [|s' [|? ?]] eqn:Es;
        cbn in Hl; try lia.
      assert (Hs' : s' = replace_at q c sig).
      { pose proof (Join_Split (replace_at q c sig) "."%char) as HJ.
        rewrite Es in HJ. exact HJ. }
      subst s'. cbn [List.nth].
      assert (Hj : signing_part (sstr ++ String "."%char (replace_at q c sig)) = sstr).
      { unfold signing_part. rewrite Split_app_sep, Hsplit_s. cbn [List.app List.firstn].
        rewrite List.firstn_O, <- Hsplit_s. apply Join_Split. }
      rewrite Hj.
      apply Verify_tampered_signature; [exact Hq|exact Hc|].
      intros El. change (S q = String.length sig) in El. apply Hlast. lia.
Qed.

(** C8, amended: for every token obtained from [GenerateToken], every
    position and every replacement character different from the original at
    that position, [ValidateToken] of the modified string returns an error,
    with two provisos. At the last position, the replacement is not a
    character of the base64url alphabet whose six-bit value has the same
    four leading bits as the original's: the last character of the signature
    carries four bits of the MAC and two bits that the decoder drops. And
    when the change falls in the signed part (header, payload or the dot
    between them), the modified signed part is not a forgery: its MAC under
    the secret, for each hash of the HMAC signing methods, differs from the
    MAC of the original. *)
Theorem ValidateToken_rejects_tampered
  (jwtSecret userID role : string) (w w' : World) (p : nat) (c : ascii) :
  String.get p (issued_token (GenerateToken jwtSecret userID role w)) <> Some c ->
  (p < String.length (issued_token (GenerateToken jwtSecret userID role w)))%nat ->
  (S p = String.length (issued_token (GenerateToken jwtSecret userID role w)) ->
   forall o v v',
     String.get p (issued_token (GenerateToken jwtSecret userID role w)) = Some o ->
     base64.decodeMap o = Some v -> base64.decodeMap c = Some v' ->
     (v' / 4 <> v / 4)%N) ->
  ((p < String.length
          (signing_part (issued_token (GenerateToken jwtSecret userID role w))))%nat ->
   forall h, In h hmac_hashes ->
     jwt.mac h jwtSecret
       (replace_at p c
          (signing_part (issued_token (GenerateToken jwtSecret userID role w))))
     <> jwt.mac sha2.SHA256 jwtSecret
          (signing_part (issued_token (GenerateToken jwtSecret userID role w)))) ->
  exists e w'',
    ValidateToken jwtSecret
      (replace_at p c (issued_token (GenerateToken jwtSecret userID role w))) w'
    = (Ret (None, Some e), w'').
Proof.
  rewrite GenerateToken_eq. unfold issued_token. cbn [fst].
  set (claims := issued_claims userID role _ _).
  assert (Hsp : signing_part (fst (jwt.SignedString jwt.SigningMethodHS256 claims jwtSecret))
                = jwt.SigningString jwt.SigningMethodHS256 claims).
  { rewrite SignedString_eq. cbn [fst]. unfold signing_part.
    change ("." ++ jwt.EncodeSegment
                     (jwt.mac sha2.SHA256 jwtSecret
                        (jwt.SigningString jwt.SigningMethodHS256 claims)))%string
      with (String "."%char
              (jwt.EncodeSegment
                 (jwt.mac sha2.SHA256 jwtSecret
                    (jwt.SigningString jwt.SigningMethodHS256 claims)))).
    rewrite Split_app_sep, Split_SigningString. cbn [List.app List.firstn].
    rewrite List.firstn_O, <- Split_SigningString. apply Join_Split. }
  assert (Hfst : forall t e, match Ret (A := string * error) (t, e) with
                             | Ret (token, _) => token
                             | Panic _ => EmptyString
                             end = t) by reflexivity.
  rewrite SignedString_eq in *. cbn [fst] in *. rewrite Hsp.
  intros Hc Hp Hlast Hmac.
  pose proof (ValidateToken_tampered_token jwtSecret claims p c w') as H.
  cbv zeta in H. rewrite SignedString_eq in H. cbn [fst] in H.
  now apply H.
Qed.

End Tampering.

(** ** Issued tokens: examples *)

Section TokenExamples.
Import JwtService.

(** C8, examples: changing the fourth character of the payload of an
    issued token makes validation fail, and so does putting [A] in the
    place of the last character [Y] of its signature. *)
Lemma ValidateToken_rejects_tampered_witness :
  (exists e w'',
     ValidateToken "mock_secret"
       (replace_at 40 "A"
          (issued_token (GenerateToken "mock_secret" "12345" "user" Examples.empty_world)))
       (tick (tick Examples.empty_world))
     = (Ret (None, Some e), w''))
  /\ (exists e w'',
        ValidateToken "mock_secret"
          (replace_at 170 "A"
             (issued_token
                (GenerateToken "mock_secret" "12345" "user" Examples.empty_world)))
          (tick (tick Examples.empty_world))
        = (Ret (None, Some e), w'')).
Proof.
  split.
  - apply (ValidateToken_rejects_tampered
             "mock_secret" "12345" "user" Examples.empty_world
             (tick (tick Examples.empty_world)) 40 "A"%char).
    + vm_compute. discriminate.
    + vm_compute. lia.
    + intros E. vm_compute in E. discriminate E.
    + intros _ h [<-|[<-|[<-|[]]]]; vm_compute; discriminate.
  - apply (ValidateToken_rejects_tampered
             "mock_secret" "12345" "user" Examples.empty_world
             (tick (tick Examples.empty_world)) 170 "A"%char).
    + vm_compute. discriminate.
    + vm_compute. lia.
    + intros _ o v v' Ho Hv Hv'.
      vm_compute in Ho. injection Ho as <-.
      vm_compute in Hv. injection Hv as <-.
      vm_compute in Hv'. injection Hv' as <-.
      vm_compute. discriminate.
    + intros Hlt. vm_compute in Hlt. lia.
Defined.

(** C8 as stated fails at the last position: the last character of the
    signature segment carries four bits of the MAC and two padding bits,
    which the decoder drops. The issued token ends in [Y], the value 24;
    with [Z], the value 25 with the same four leading bits, in its place
    the token still validates, with the claims of the original. *)
Lemma ValidateToken_accepts_tampered_last_character :
  String.length
    (issued_token (GenerateToken "mock_secret" "12345" "user" Examples.empty_world))
  = 171%nat
  /\ String.get 170
       (issued_token (GenerateToken "mock_secret" "12345" "user" Examples.empty_world))
     = Some "Y"%char
  /\ fst (ValidateToken "mock_secret"
            (replace_at 170 "Z"
               (issued_token
                  (GenerateToken "mock_secret" "12345" "user" Examples.empty_world)))
            (tick (tick Examples.empty_world)))
     = Ret (Some (mkClaims "12345" "user" "" 1700086400 "" 1700000000 "" 0 ""), None).
Proof. repeat split; vm_compute; reflexivity. Qed.

(** C9, example: a token for subject 12345 and role user, validated right
    after it was issued. *)
Lemma ValidateToken_GenerateToken_witness :
  exists token claims,
    GenerateToken "mock_secret" "12345" "user" Examples.empty_world
    = (Ret (token, None), tick (tick Examples.empty_world))
    /\ ValidateToken "mock_secret" token (tick (tick Examples.empty_world))
       = (Ret (Some claims, None), tick (tick (tick Examples.empty_world)))
    /\ UserID claims = "12345"
    /\ Role claims = "user".
Proof.
  apply (ValidateToken_GenerateToken
           "mock_secret" "12345" "user" Examples.empty_world
           (tick (tick Examples.empty_world))).
  - reflexivity.
  - reflexivity.
  - split; [apply Z.leb_le | apply Z.ltb_lt]; vm_compute; reflexivity.
  - split; [apply Z.leb_le | apply Z.ltb_lt]; vm_compute; reflexivity.
  - split; apply Z.leb_le; vm_compute; reflexivity.
Defined.

(** C9 as stated fails for a subject id that is not valid UTF-8: the JSON
    encoder replaces an invalid byte by U+FFFD, so the validated claims carry
    the three bytes EF BF BD in place of the byte FF that was passed. *)
Lemma ValidateToken_GenerateToken_invalid_utf8 :
  utf8.ValidString (String (ascii_of_N 255) "") = false
  /\ fst (ValidateToken "mock_secret"
            (issued_token
               (GenerateToken "mock_secret" (String (ascii_of_N 255) "") "user"
                  Examples.empty_world))
            (tick (tick Examples.empty_world)))
     = Ret (Some (mkClaims
                    (String (ascii_of_N 239)
                       (String (ascii_of_N 191) (String (ascii_of_N 189) "")))
                    "user" "" 1700086400 "" 1700000000 "" 0 ""),
            None)
  /\ String.eqb
       (String (ascii_of_N 239) (String (ascii_of_N 191) (String (ascii_of_N 189) "")))
       (String (ascii_of_N 255) "")
     = false.
Proof. repeat split; vm_compute; reflexivity. Qed.

End TokenExamples.

(** * Further properties of the code *)

(** ** The Mongo-backed task repository *)

Section TaskRepositoryFacts.
Import Repository Usecases.taskUseCase Examples.

Lemma InsertOne_tasks_inv ctx doc w r e :
  fst (mongo.InsertOne tasks_handle ctx doc w) = Ret (Some r, e) ->
  exists id,
    InsertedID r = any_ObjectID id
    /\ e = None
    /\ fault w = None
    /\ mongo.has_id id (docs (tasks w)) = false
    /\ docs (tasks (snd (mongo.InsertOne tasks_handle ctx doc w)))
       = docs (tasks w) ++ [Task.bson (Task.with_ID id doc)]
    /\ fault (snd (mongo.InsertOne tasks_handle ctx doc w)) = None.
Proof.
  unfold mongo.InsertOne, bind, mongo.record, mongo.get_fault, mongo.get_docs,
    mongo.put_docs, ret, NewObjectID.
  cbn [coll_get coll_set tasks_handle tasks set_tasks fault docs calls doc_id
       doc_with_id doc_bson Task_Document fst snd].
  destruct (fault w) eqn:Hf; [discriminate|].
  destruct (String.eqb (Task.ID doc) NilObjectID);
    cbn [coll_get coll_set tasks_handle tasks set_tasks fault docs calls fst snd];
    destruct (mongo.has_id _ _) eqn:Hh; cbn [fst snd]; try discriminate;
    intros H; injection H as <- <-; eexists;
    cbn [InsertedID tasks set_tasks docs fault];
    repeat split; try reflexivity; try exact Hh; exact Hf.
Qed.

Lemma find_app_fresh id (ds : list Task.t) (d : Task.t) :
  mongo.has_id id ds = false ->
  Task.ID d = id ->
  List.find (fun x => String.eqb (Task.ID x) id) (ds ++ [d]) = Some d.
Proof.
  intros Hh Hd. induction ds as [|x ds IH].
  - cbn. now rewrite Hd, String.eqb_refl.
  - cbn in Hh |- *. apply orb_false_iff in Hh. destruct Hh as [Hx Hh].
    rewrite Hx. now apply IH.
Qed.

(** What a successful [Create] did: the store was reachable, no stored task
    had the identifier of the created one, and the created task was
    appended in its BSON form. *)
Lemma Create_tasks_inv ctx task w created e :
  fst (TaskRepository.Create NewTaskRepository ctx task w) = Ret (Some created, e) ->
  e = None
  /\ ctx <> ctx_nil
  /\ fault (snd (TaskRepository.Create NewTaskRepository ctx task w)) = None
  /\ mongo.has_id (Task.ID created) (docs (tasks w)) = false
  /\ docs (tasks (snd (TaskRepository.Create NewTaskRepository ctx task w)))
     = docs (tasks w) ++ [Task.bson created].
Proof.
  unfold NewTaskRepository, TaskRepository.Create, taskRepository.Create,
    MongoCollectionWrapper, CollectionInterface.InsertOne.
  destruct ctx; [discriminate|].
  unfold bind. rewrite time_Now_eq. cbv beta iota.
  rewrite time_Now_eq. cbv beta iota.
  pose proof (InsertOne_tasks_inv ctx_Background
                (Task.with_UpdatedAt (now_of (tick w))
                   (Task.with_CreatedAt (now_of w) task)) (tick (tick w))) as Hinv.
  destruct (mongo.InsertOne _ _ _ _) as [[[r e']|msg] w1]; [|discriminate].
  cbn [fst snd] in Hinv.
  destruct e' as [e'|]; [discriminate|].
  destruct r as [r|]; [|discriminate].
  destruct (Hinv r None eq_refl) as [id [Hid [_ [_ [Hh [Hd Hf]]]]]].
  unfold deref, ret. rewrite Hid. cbn [fst snd].
  intros E. injection E as <- <-.
  split; [reflexivity|]. split; [discriminate|]. split; [exact Hf|].
  split; [exact Hh|exact Hd].
Qed.

(** A task that [Create] stored is the one [GetByID] returns for its
    identifier, as the store keeps it: the created task with its three time
    fields cut to whole milliseconds and every other field as it was. *)
Theorem Create_then_GetByID (ctx ctx' : Context) (task created : Task.t) (w : World) :
  fst (TaskRepository.Create NewTaskRepository ctx task w) = Ret (Some created, None) ->
  fst (TaskRepository.GetByID NewTaskRepository ctx' (Task.ID created)
         (snd (TaskRepository.Create NewTaskRepository ctx task w)))
  = Ret (Some (Task.mk (Task.ID created) (Task.Title created)
                 (Task.Description created)
                 (Task.DueDate created / Millisecond * Millisecond)
                 (Task.Status created) (Task.UserID created)
                 (Task.CreatedAt created / Millisecond * Millisecond)
                 (Task.UpdatedAt created / Millisecond * Millisecond)),
         None).
Proof.
  intros H. apply Create_tasks_inv in H. destruct H as [_ [_ [Hf [Hh Hd]]]].
  rewrite GetByID_tasks by exact Hf. cbn [fst].
  unfold lookup_task. rewrite Hd.
  now rewrite (find_app_fresh _ _ (Task.bson created) Hh eq_refl).
Qed.

Lemma Create_then_GetByID_witness :
  fst (TaskRepository.GetByID NewTaskRepository ctx_Background (example_ids 0)
         (snd (TaskRepository.Create NewTaskRepository ctx_Background
                 (new_task "T" (now_of empty_world + Hour) "pending") empty_world)))
  = Ret (Some (Task.mk (example_ids 0) "T" "" (now_of empty_world + Hour) "pending"
                 NilObjectID (example_clock 0) 1700000000000000000),
         None).
Proof.
  apply (Create_then_GetByID ctx_Background ctx_Background
           (new_task "T" (now_of empty_world + Hour) "pending")
           (Task.mk (example_ids 0) "T" "" (now_of empty_world + Hour) "pending"
              NilObjectID (example_clock 0) (example_clock 1))
           empty_world).
  vm_compute. reflexivity.
Defined.

Lemma update_first_none (f : Task.t -> Task.t) id ds :
  List.find (fun x => String.eqb (Task.ID x) id) ds = None ->
  mongo.update_first (by_id id) f ds = None.
Proof.
  induction ds as [|x ds IH]; [reflexivity|].
  cbn [List.find mongo.update_first]. rewrite matches_by_id.
  destruct (String.eqb (Task.ID x) id); [discriminate|].
  intros H. now rewrite (IH H).
Qed.

Lemma delete_first_none id (ds : list Task.t) :
  List.find (fun x => String.eqb (Task.ID x) id) ds = None ->
  mongo.delete_first (by_id id) ds = None.
Proof.
  induction ds as [|x ds IH]; [reflexivity|].
  cbn [List.find mongo.delete_first]. rewrite matches_by_id.
  destruct (String.eqb (Task.ID x) id); [discriminate|].
  intros H. now rewrite (IH H).
Qed.

Lemma delete_first_some id (ds : list Task.t) d :
  List.find (fun x => String.eqb (Task.ID x) id) ds = Some d ->
  exists ds', mongo.delete_first (by_id id) ds = Some ds'
              /\ S (List.length ds') = List.length ds
              /\ forall x, In x ds' -> In x ds.
Proof.
  revert d. induction ds as [|x ds IH]; intros d; [discriminate|].
  cbn [List.find mongo.delete_first]. rewrite matches_by_id.
  destruct (String.eqb (Task.ID x) id).
  - intros _. exists ds. split; [reflexivity|]. split; [reflexivity|].
    intros y Hy. now right.
  - intros H. destruct (IH _ H) as [ds' [-> [Hl Hi]]].
    exists (x :: ds'). split; [reflexivity|]. split; [cbn; now rewrite Hl|].
    intros y [->|Hy]; [now left|right; now apply Hi].
Qed.

Lemma Delete_tasks ctx id w :
  fault w = None ->
  TaskRepository.Delete NewTaskRepository ctx id w =
  match mongo.delete_first (by_id id) (docs (tasks w)) with
  | Some ds' =>
      (Ret None,
       set_tasks (mkCollection ds' (calls (tasks w) ++ [CallDeleteOne (by_id id)])) w)
  | None => (Ret (Some ErrNoDocuments), logged (CallDeleteOne (by_id id)) w)
  end.
Proof.
  intros Hf.
  unfold NewTaskRepository, TaskRepository.Delete, taskRepository.Delete,
    MongoCollectionWrapper, CollectionInterface.DeleteOne.
  fold (by_id id).
  unfold mongo.DeleteOne, bind, mongo.record, mongo.get_fault, mongo.get_docs,
    mongo.put_docs, ret, deref.
  cbn [coll_get coll_set tasks_handle tasks set_tasks fault docs calls].
  rewrite Hf.
  destruct (mongo.delete_first _ _); reflexivity.
Qed.

(** [Delete] reports whether a task was there: the error is nil when a
    stored task had the identifier, and one document fewer is stored; it is
    [mongo.ErrNoDocuments] when none had, and the documents are unchanged. *)
Theorem Delete_reports_absence (ctx : Context) (id : ObjectID) (w : World) :
  fault w = None ->
  (forall d, lookup_task id w = Some d ->
     fst (TaskRepository.Delete NewTaskRepository ctx id w) = Ret None
     /\ S (List.length (docs (tasks (snd (TaskRepository.Delete NewTaskRepository ctx id w)))))
        = List.length (docs (tasks w)))
  /\ (lookup_task id w = None ->
      fst (TaskRepository.Delete NewTaskRepository ctx id w) = Ret (Some ErrNoDocuments)
      /\ docs (tasks (snd (TaskRepository.Delete NewTaskRepository ctx id w)))
         = docs (tasks w)).
Proof.
  intros Hf. rewrite (Delete_tasks ctx id w Hf). unfold lookup_task. split.
  - intros d Hl. destruct (delete_first_some id _ d Hl) as [ds' [-> [Hlen _]]].
    split; [reflexivity|exact Hlen].
  - intros Hl. rewrite (delete_first_none id _ Hl). split; reflexivity.
Qed.

Lemma Delete_reports_absence_witness :
  (forall d, lookup_task task_id (world_with_task "pending") = Some d ->
     fst (TaskRepository.Delete NewTaskRepository ctx_Background task_id
            (world_with_task "pending")) = Ret None
     /\ S (List.length
             (docs (tasks (snd (TaskRepository.Delete NewTaskRepository ctx_Background
                                  task_id (world_with_task "pending"))))))
        = List.length (docs (tasks (world_with_task "pending"))))
  /\ (lookup_task task_id (world_with_task "pending") = None ->
      fst (TaskRepository.Delete NewTaskRepository ctx_Background task_id
             (world_with_task "pending")) = Ret (Some ErrNoDocuments)
      /\ docs (tasks (snd (TaskRepository.Delete NewTaskRepository ctx_Background
                             task_id (world_with_task "pending"))))
         = docs (tasks (world_with_task "pending"))).
Proof.
  apply (Delete_reports_absence ctx_Background task_id (world_with_task "pending")).
  reflexivity.
Defined.

(** A deleted task is gone: after a successful [Delete] in a store whose
    identifiers are distinct, [GetByID] returns a nil task and a nil error. *)
Theorem Delete_then_GetByID (ctx ctx' : Context) (id : ObjectID) (w : World) :
  fault w = None ->
  List.NoDup (List.map Task.ID (docs (tasks w))) ->
  fst (TaskRepository.Delete NewTaskRepository ctx id w) = Ret None ->
  fst (TaskRepository.GetByID NewTaskRepository ctx' id
         (snd (TaskRepository.Delete NewTaskRepository ctx id w)))
  = Ret (None, None).
Proof.
  intros Hf Hnd. rewrite (Delete_tasks ctx id w Hf).
  destruct (mongo.delete_first (by_id id) (docs (tasks w))) as [ds'|] eqn:Hd;
    [|discriminate].
  intros _. cbn [snd]. rewrite GetByID_tasks by exact Hf. cbn [fst].
  unfold lookup_task. cbn [tasks set_tasks docs].
  assert (G : forall ds ds', List.NoDup (List.map Task.ID ds) ->
                mongo.delete_first (by_id id) ds = Some ds' ->
                List.find (fun x => String.eqb (Task.ID x) id) ds' = None).
  { clear. induction ds as [|x ds IH]; intros ds' Hnd; [discriminate|].
    cbn [mongo.delete_first]. rewrite matches_by_id.
    cbn [List.map] in Hnd. apply List.NoDup_cons_iff in Hnd. destruct Hnd as [Hx Hnd].
    destruct (String.eqb_spec (Task.ID x) id) as [E|E].
    - intros H. injection H as <-.
      destruct (List.find _ ds) as [y|] eqn:Hy; [|reflexivity].
      apply List.find_some in Hy. destruct Hy as [Hin Hy].
      apply String.eqb_eq in Hy. exfalso. apply Hx. rewrite E, <- Hy.
      now apply List.in_map.
    - destruct (mongo.delete_first (by_id id) ds) as [r|] eqn:Hr; [|discriminate].
      intros H. injection H as <-. cbn [List.find].
      apply String.eqb_neq in E. rewrite E. now apply (IH r). }
  now rewrite (G _ _ Hnd Hd).
Qed.

Lemma Delete_then_GetByID_witness :
  fst (TaskRepository.GetByID NewTaskRepository ctx_Background task_id
         (snd (TaskRepository.Delete NewTaskRepository ctx_Background task_id
                 (world_with_task "pending"))))
  = Ret (None, None).
Proof.
  apply (Delete_then_GetByID ctx_Background ctx_Background task_id
           (world_with_task "pending")).
  - reflexivity.
  - cbn. constructor; [intros []|constructor].
  - reflexivity.
Defined.

(** [Update] of a task whose identifier is not stored returns the error
    "no document found to update" and changes no document. *)
Theorem Update_absent_task (ctx : Context) (task : Task.t) (w : World) :
  fault w = None ->
  lookup_task (Task.ID task) w = None ->
  fst (TaskRepository.Update NewTaskRepository ctx task w)
  = Ret (Some (errors_New "no document found to update"))
  /\ docs (tasks (snd (TaskRepository.Update NewTaskRepository ctx task w)))
     = docs (tasks w).
Proof.
  intros Hf Hl.
  assert (G : exists w',
             TaskRepository.Update NewTaskRepository ctx task w
             = (Ret (Some (errors_New "no document found to update")), w')
             /\ docs (tasks w') = docs (tasks w)).
  { unfold NewTaskRepository, TaskRepository.Update, taskRepository.Update,
      MongoCollectionWrapper, CollectionInterface.UpdateOne.
    unfold bind at 1. rewrite time_Now_eq.
    unfold bind at 1.
    change (Task.ID (Task.with_UpdatedAt (now_of w) task)) with (Task.ID task).
    fold (by_id (Task.ID task)).
    rewrite UpdateOne_tasks by exact Hf.
    unfold lookup_task in Hl.
    change (docs (tasks (tick w))) with (docs (tasks w)).
    rewrite (update_first_none _ _ _ Hl). eexists. split; reflexivity. }
  destruct G as [w' [-> Hd]]. split; [reflexivity|exact Hd].
Qed.

Lemma Update_absent_task_witness :
  fst (TaskRepository.Update NewTaskRepository ctx_Background (update_to "pending")
         empty_world)
  = Ret (Some (errors_New "no document found to update"))
  /\ docs (tasks (snd (TaskRepository.Update NewTaskRepository ctx_Background
                         (update_to "pending") empty_world)))
     = docs (tasks empty_world).
Proof.
  apply (Update_absent_task ctx_Background (update_to "pending") empty_world);
    reflexivity.
Defined.

Lemma GetAll_tasks ctx w :
  fault w = None ->
  TaskRepository.GetAll NewTaskRepository ctx w
  = (Ret (docs (tasks w), None), logged (CallFind []) w).
Proof.
  intros Hf.
  unfold NewTaskRepository, TaskRepository.GetAll, taskRepository.GetAll,
    MongoCollectionWrapper, CollectionInterface.Find.
  unfold mongo.Find, mongo.record, mongo.get_fault, mongo.get_docs, mongo.All.
  cbv [bind ret deref].
  cbn [coll_get coll_set tasks_handle tasks set_tasks fault docs calls fst snd cur_docs].
  rewrite Hf. cbv [bind ret deref].
  cbn [coll_get coll_set tasks_handle tasks set_tasks fault docs calls fst snd cur_docs].
  unfold logged. do 3 f_equal.
  induction (docs (tasks w)) as [|d ds IH]; [reflexivity|].
  cbn. now rewrite IH.
Qed.

Lemma GetByUserID_tasks ctx userID w :
  fault w = None ->
  TaskRepository.GetByUserID NewTaskRepository ctx userID w
  = (Ret (List.filter (fun d => String.eqb (Task.UserID d) userID) (docs (tasks w)),
          None),
     logged (CallFind [("user_id", any_ObjectID userID)]) w).
Proof.
  intros Hf.
  unfold NewTaskRepository, TaskRepository.GetByUserID, taskRepository.GetByUserID,
    MongoCollectionWrapper, CollectionInterface.Find.
  unfold mongo.Find, mongo.record, mongo.get_fault, mongo.get_docs, mongo.All.
  cbv [bind ret deref].
  cbn [coll_get coll_set tasks_handle tasks set_tasks fault docs calls fst snd cur_docs].
  rewrite Hf. cbv [bind ret deref].
  cbn [coll_get coll_set tasks_handle tasks set_tasks fault docs calls fst snd cur_docs].
  unfold logged. do 3 f_equal. apply List.filter_ext. intros d.
  unfold mongo.matches. cbn. now rewrite andb_true_r.
Qed.

(** [GetByUserID] returns the stored tasks of that owner, all of them and
    no other, in the order of the store; [GetAll] returns every stored
    task. Neither changes a document. *)
Theorem GetByUserID_filters_by_owner (ctx : Context) (userID : ObjectID) (w : World) :
  fault w = None ->
  fst (TaskRepository.GetByUserID NewTaskRepository ctx userID w)
  = Ret (List.filter (fun d => String.eqb (Task.UserID d) userID) (docs (tasks w)), None)
  /\ fst (TaskRepository.GetAll NewTaskRepository ctx w) = Ret (docs (tasks w), None)
  /\ docs (tasks (snd (TaskRepository.GetByUserID NewTaskRepository ctx userID w)))
     = docs (tasks w)
  /\ docs (tasks (snd (TaskRepository.GetAll NewTaskRepository ctx w))) = docs (tasks w).
Proof.
  intros Hf.
  unfold NewTaskRepository, TaskRepository.GetByUserID, TaskRepository.GetAll,
    taskRepository.GetByUserID, taskRepository.GetAll,
    MongoCollectionWrapper, CollectionInterface.Find.
  unfold mongo.Find, mongo.record, mongo.get_fault, mongo.get_docs, mongo.All.
  cbv [bind ret deref].
  cbn [coll_get coll_set tasks_handle tasks set_tasks fault docs calls fst snd cur_docs].
  rewrite Hf. cbv [bind ret deref].
  cbn [coll_get coll_set tasks_handle tasks set_tasks fault docs calls fst snd cur_docs].
  repeat split.
  - do 2 f_equal. apply List.filter_ext. intros d.
    unfold mongo.matches. cbn. now rewrite andb_true_r.
  - do 2 f_equal. induction (docs (tasks w)) as [|d ds IH]; [reflexivity|].
    cbn. now rewrite IH.
Qed.

Lemma GetByUserID_filters_by_owner_witness :
  fst (TaskRepository.GetByUserID NewTaskRepository ctx_Background alice_id
         (world_with_task "pending"))
  = Ret (List.filter (fun d => String.eqb (Task.UserID d) alice_id)
           (docs (tasks (world_with_task "pending"))), None)
  /\ fst (TaskRepository.GetAll NewTaskRepository ctx_Background
            (world_with_task "pending"))
     = Ret (docs (tasks (world_with_task "pending")), None)
  /\ docs (tasks (snd (TaskRepository.GetByUserID NewTaskRepository ctx_Background
                         alice_id (world_with_task "pending"))))
     = docs (tasks (world_with_task "pending"))
  /\ docs (tasks (snd (TaskRepository.GetAll NewTaskRepository ctx_Background
                         (world_with_task "pending"))))
     = docs (tasks (world_with_task "pending")).
Proof.
  apply (GetByUserID_filters_by_owner ctx_Background alice_id
           (world_with_task "pending")).
  reflexivity.
Defined.

End TaskRepositoryFacts.

(** ** The task use cases *)

Section TaskUseCaseMore.
Import Repository Usecases.taskUseCase Examples.

(** [UpdateTask] validates before it consults the repository: with an empty
    title, or with a due date before the clock reading, it returns the
    validation error whatever the repository, and the repository is never
    called. *)
Theorem UpdateTask_rejects_invalid_task
  (taskRepo : TaskRepository.t) (ctx : Context) (task : Task.t) (w : World) :
  Task.Title task = "" \/ Task.DueDate task < now_of w ->
  UpdateTask taskRepo ctx task w =
  (if String.eqb (Task.Title task) ""
   then (Ret (Some (errors_New "task title is required")), w)
   else (Ret (Some (errors_New "due date cannot be in the past")), tick w)).
Proof.
  intros H. unfold UpdateTask.
  destruct (String.eqb (Task.Title task) "") eqn:Et; [reflexivity|].
  destruct H as [H|H]; [rewrite H in Et; discriminate|].
  unfold bind. rewrite time_Now_eq. now rewrite (Before_true _ _ H).
Qed.

Lemma UpdateTask_rejects_invalid_task_witness :
  UpdateTask NewTaskRepository ctx_Background
    (new_task "T" (now_of empty_world - Hour) "pending") (world_with_task "pending")
  = (if String.eqb (Task.Title (new_task "T" (now_of empty_world - Hour) "pending")) ""
     then (Ret (Some (errors_New "task title is required")), world_with_task "pending")
     else (Ret (Some (errors_New "due date cannot be in the past")),
           tick (world_with_task "pending"))).
Proof.
  apply (UpdateTask_rejects_invalid_task NewTaskRepository ctx_Background
           (new_task "T" (now_of empty_world - Hour) "pending")
           (world_with_task "pending")).
  right. reflexivity.
Defined.

Lemma lookup_task_ID id w d : lookup_task id w = Some d -> Task.ID d = id.
Proof.
  unfold lookup_task. intros H. apply List.find_some in H.
  now apply String.eqb_eq.
Qed.

(** An accepted update replaces the whole stored task: afterwards the store
    holds the incoming task with its UpdatedAt set to the clock reading, in
    its BSON form (the time fields cut to whole milliseconds), so the owner
    of the stored task is the incoming one and its creation time is the
    incoming one in whole milliseconds, not the ones stored before. *)
Theorem UpdateTask_replaces_owner_and_creation_time
  (ctx : Context) (task existing : Task.t) (w : World) :
  Task.Title task <> "" ->
  ~ Task.DueDate task < now_of w ->
  fault w = None ->
  lookup_task (Task.ID task) w = Some existing ->
  Task.Status existing <> StatusCompleted ->
  exists stored,
    lookup_task (Task.ID task) (snd (UpdateTask NewTaskRepository ctx task w))
    = Some stored
    /\ stored = Task.bson (Task.with_UpdatedAt (now_of (tick w)) task)
    /\ Task.UserID stored = Task.UserID task
    /\ Task.CreatedAt stored = Task.CreatedAt task / Millisecond * Millisecond
    /\ Task.UpdatedAt stored = now_of (tick w) / Millisecond * Millisecond.
Proof.
  intros Ht Hd Hf Hl Hs.
  rewrite (UpdateTask_valid _ _ _ _ Ht Hd).
  rewrite GetByID_tasks by exact Hf.
  change (lookup_task (Task.ID task) (tick w)) with (lookup_task (Task.ID task) w).
  rewrite Hl. apply String.eqb_neq in Hs. rewrite Hs. cbn [andb].
  destruct (Update_tasks_overwrites ctx task existing
              (logged (CallFindOne (by_id (Task.ID task))) (tick w)) Hf Hl)
    as [w' [-> [Hl' _]]].
  cbn [snd]. rewrite Hl'. eexists. split; [reflexivity|].
  rewrite (lookup_task_ID _ _ _ Hl).
  destruct task; repeat split.
Qed.

Lemma UpdateTask_replaces_owner_and_creation_time_witness :
  exists stored,
    lookup_task (Task.ID (update_to "in_progress"))
      (snd (UpdateTask NewTaskRepository ctx_Background (update_to "in_progress")
              (world_with_task "pending")))
    = Some stored
    /\ stored = Task.bson
                  (Task.with_UpdatedAt (now_of (tick (world_with_task "pending")))
                     (update_to "in_progress"))
    /\ Task.UserID stored = Task.UserID (update_to "in_progress")
    /\ Task.CreatedAt stored
       = Task.CreatedAt (update_to "in_progress") / Millisecond * Millisecond
    /\ Task.UpdatedAt stored
       = now_of (tick (world_with_task "pending")) / Millisecond * Millisecond.
Proof.
  apply (UpdateTask_replaces_owner_and_creation_time ctx_Background
           (update_to "in_progress") (stored_task "pending")
           (world_with_task "pending")).
  - discriminate.
  - vm_compute. discriminate.
  - reflexivity.
  - reflexivity.
  - discriminate.
Defined.

(** A task that [CreateTask] created is the one [GetTaskByID] returns for
    its identifier, as the store keeps it (the time fields cut to whole
    milliseconds), and it is pending with the owner and title it was
    given. *)
Theorem CreateTask_then_GetTaskByID
  (ctx ctx' : Context) (task created : Task.t) (w : World) :
  fst (CreateTask NewTaskRepository ctx task w) = Ret (Some created, None) ->
  fst (GetTaskByID NewTaskRepository ctx' (Task.ID created)
         (snd (CreateTask NewTaskRepository ctx task w)))
  = Ret (Some (Task.mk (Task.ID created) (Task.Title created)
                 (Task.Description created)
                 (Task.DueDate created / Millisecond * Millisecond)
                 (Task.Status created) (Task.UserID created)
                 (Task.CreatedAt created / Millisecond * Millisecond)
                 (Task.UpdatedAt created / Millisecond * Millisecond)),
         None)
  /\ Task.Status created = StatusPending
  /\ Task.UserID created = Task.UserID task
  /\ Task.Title created = Task.Title task.
Proof.
  unfold CreateTask.
  destruct (String.eqb (Task.Title task) ""); [discriminate|].
  unfold bind. rewrite time_Now_eq.
  destruct (Before (Task.DueDate task) (now_of w)); [discriminate|].
  intros H. split.
  - unfold GetTaskByID. apply Create_tasks_inv in H.
    destruct H as [_ [_ [Hf [Hh Hd]]]].
    rewrite GetByID_tasks by exact Hf. cbn [fst].
    unfold lookup_task. rewrite Hd.
    now rewrite (find_app_fresh _ _ (Task.bson created) Hh eq_refl).
  - destruct (TaskRepository.Create NewTaskRepository ctx
                (Task.with_Status StatusPending task) (tick w))
      as [o w'] eqn:E.
    cbn [fst] in H. subst o.
    apply Create_tasks_result in E. destruct E as [Hs [Hu [Hti _]]].
    rewrite Hs, Hu, Hti. repeat split.
Qed.

Lemma CreateTask_then_GetTaskByID_witness :
  fst (GetTaskByID NewTaskRepository ctx_Background (example_ids 0)
         (snd (CreateTask NewTaskRepository ctx_Background
                 (new_task "T" (now_of empty_world + Hour) "completed") empty_world)))
  = Ret (Some (Task.mk (example_ids 0) "T" "" (now_of empty_world + Hour) "pending"
                 NilObjectID 1700000000000000000 1700000000000000000),
         None)
  /\ Task.Status (Task.mk (example_ids 0) "T" "" (now_of empty_world + Hour) "pending"
                    NilObjectID (example_clock 1) (example_clock 2)) = StatusPending
  /\ Task.UserID (Task.mk (example_ids 0) "T" "" (now_of empty_world + Hour) "pending"
                    NilObjectID (example_clock 1) (example_clock 2))
     = Task.UserID (new_task "T" (now_of empty_world + Hour) "completed")
  /\ Task.Title (Task.mk (example_ids 0) "T" "" (now_of empty_world + Hour) "pending"
                   NilObjectID (example_clock 1) (example_clock 2))
     = Task.Title (new_task "T" (now_of empty_world + Hour) "completed").
Proof.
  apply (CreateTask_then_GetTaskByID ctx_Background ctx_Background
           (new_task "T" (now_of empty_world + Hour) "completed")
           (Task.mk (example_ids 0) "T" "" (now_of empty_world + Hour) "pending"
              NilObjectID (example_clock 1) (example_clock 2))
           empty_world).
  vm_compute. reflexivity.
Defined.

(** A repository handed a nil context refuses: [CreateTask] of a valid task
    with a nil context returns "context cannot be nil" and stores nothing. *)
Theorem CreateTask_nil_context (task : Task.t) (w : World) :
  Task.Title task <> "" ->
  ~ Task.DueDate task < now_of w ->
  CreateTask NewTaskRepository ctx_nil task w =
  (Ret (None, Some (errors_New "context cannot be nil")), tick w).
Proof.
  intros Ht Hd. now rewrite (CreateTask_valid _ _ _ _ Ht Hd).
Qed.

Lemma CreateTask_nil_context_witness :
  CreateTask NewTaskRepository ctx_nil
    (new_task "T" (now_of empty_world + Hour) "pending") empty_world =
  (Ret (None, Some (errors_New "context cannot be nil")), tick empty_world).
Proof.
  apply (CreateTask_nil_context (new_task "T" (now_of empty_world + Hour) "pending")
           empty_world).
  - discriminate.
  - vm_compute. discriminate.
Defined.

End TaskUseCaseMore.

(** ** The Mongo-backed user repository *)

Section UserRepositoryFacts.
Import Repository UserUsecases Examples UserExamples.

Lemma matches_user_by_id id (d : User.t) :
  mongo.matches (by_id id) d = String.eqb (User.ID d) id.
Proof. unfold mongo.matches, by_id. cbn. now rewrite andb_true_r. Qed.

Lemma update_first_users_none (f : User.t -> User.t) id ds :
  List.find (fun x => String.eqb (User.ID x) id) ds = None ->
  mongo.update_first (by_id id) f ds = None.
Proof.
  induction ds as [|x ds IH]; [reflexivity|].
  cbn [List.find mongo.update_first]. rewrite matches_user_by_id.
  destruct (String.eqb (User.ID x) id); [discriminate|].
  intros H. now rewrite (IH H).
Qed.

Lemma update_first_users_some (f : User.t -> User.t) id ds d :
  (forall x, User.ID (f x) = User.ID x) ->
  List.find (fun x => String.eqb (User.ID x) id) ds = Some d ->
  exists ds',
    mongo.update_first (by_id id) f ds = Some ds'
    /\ List.find (fun x => String.eqb (User.ID x) id) ds' = Some (f d).
Proof.
  intros Hid. revert d. induction ds as [|x ds IH]; intros d; [discriminate|].
  cbn [List.find mongo.update_first]. rewrite matches_user_by_id.
  destruct (String.eqb (User.ID x) id) eqn:Hm.
  - intros H. injection H as <-. eexists. split; [reflexivity|].
    cbn [List.find]. now rewrite Hid, Hm.
  - intros H. destruct (IH _ H) as [ds' [-> Hf]]. eexists. split; [reflexivity|].
    cbn [List.find]. now rewrite Hm.
Qed.

Lemma delete_first_users_none id (ds : list User.t) :
  List.find (fun x => String.eqb (User.ID x) id) ds = None ->
  mongo.delete_first (by_id id) ds = None.
Proof.
  induction ds as [|x ds IH]; [reflexivity|].
  cbn [List.find mongo.delete_first]. rewrite matches_user_by_id.
  destruct (String.eqb (User.ID x) id); [discriminate|].
  intros H. now rewrite (IH H).
Qed.

Lemma Update_users ctx user w :
  fault w = None ->
  UserRepository.Update NewUserRepository ctx user w =
  match mongo.update_first (by_id (User.ID user))
          (fun d => User.with_ID (User.ID d)
                      (User.bson (User.with_UpdatedAt (now_of w) user)))
          (docs (users w)) with
  | Some ds' =>
      (Ret None,
       set_users (mkCollection ds'
                    (calls (users w)
                     ++ [CallUpdateOne (by_id (User.ID user))
                           (User.with_UpdatedAt (now_of w) user)]))
         (tick w))
  | None =>
      (Ret (Some ErrNoDocuments),
       logged_users (CallUpdateOne (by_id (User.ID user))
                       (User.with_UpdatedAt (now_of w) user)) (tick w))
  end.
Proof.
  intros Hf.
  unfold NewUserRepository, UserRepository.Update, userRepository.Update.
  unfold bind at 1. rewrite time_Now_eq.
  change (User.ID (User.with_UpdatedAt (now_of w) user)) with (User.ID user).
  fold (by_id (User.ID user)).
  unfold mongo.UpdateOne, mongo.record, mongo.get_fault, mongo.get_docs, mongo.put_docs.
  cbv [bind ret deref].
  cbn [coll_get coll_set users_handle users set_users fault docs calls tick time_Now
       doc_id doc_with_id doc_bson User_Document].
  change (fault (tick w)) with (fault w). rewrite Hf.
  change (docs (users (tick w))) with (docs (users w)).
  destruct (mongo.update_first _ _ _); reflexivity.
Qed.

Lemma Delete_users ctx id w :
  fault w = None ->
  UserRepository.Delete NewUserRepository ctx id w =
  match mongo.delete_first (by_id id) (docs (users w)) with
  | Some ds' =>
      (Ret None,
       set_users (mkCollection ds' (calls (users w) ++ [CallDeleteOne (by_id id)])) w)
  | None => (Ret None, logged_users (CallDeleteOne (by_id id)) w)
  end.
Proof.
  intros Hf.
  unfold NewUserRepository, UserRepository.Delete, userRepository.Delete.
  fold (by_id id).
  unfold mongo.DeleteOne, mongo.record, mongo.get_fault, mongo.get_docs, mongo.put_docs.
  cbv [bind ret deref].
  cbn [coll_get coll_set users_handle users set_users fault docs calls].
  rewrite Hf.
  destruct (mongo.delete_first _ _); reflexivity.
Qed.

(** The user repository's [Delete] never reports a missing user: with the
    store reachable its error is nil whether or not a user of that
    identifier was stored (the task repository's [Delete] returns
    [mongo.ErrNoDocuments] then), and when none was stored the documents
    are unchanged. *)
Theorem Delete_user_never_reports_absence (ctx : Context) (id : ObjectID) (w : World) :
  fault w = None ->
  fst (UserRepository.Delete NewUserRepository ctx id w) = Ret None
  /\ (lookup_user_by_id id w = None ->
      docs (users (snd (UserRepository.Delete NewUserRepository ctx id w)))
      = docs (users w)).
Proof.
  intros Hf. rewrite (Delete_users ctx id w Hf). split.
  - destruct (mongo.delete_first _ _); reflexivity.
  - intros Hl. unfold lookup_user_by_id in Hl.
    now rewrite (delete_first_users_none _ _ Hl).
Qed.

Lemma Delete_user_never_reports_absence_witness :
  fst (UserRepository.Delete NewUserRepository ctx_Background mallory_id
         world_with_alice) = Ret None
  /\ (lookup_user_by_id mallory_id world_with_alice = None ->
      docs (users (snd (UserRepository.Delete NewUserRepository ctx_Background
                          mallory_id world_with_alice)))
      = docs (users world_with_alice)).
Proof.
  apply (Delete_user_never_reports_absence ctx_Background mallory_id world_with_alice).
  reflexivity.
Defined.

(** [Update] of a user whose identifier is not stored returns
    [mongo.ErrNoDocuments] and changes no document. *)
Theorem Update_absent_user (ctx : Context) (user : User.t) (w : World) :
  fault w = None ->
  lookup_user_by_id (User.ID user) w = None ->
  fst (UserRepository.Update NewUserRepository ctx user w) = Ret (Some ErrNoDocuments)
  /\ docs (users (snd (UserRepository.Update NewUserRepository ctx user w)))
     = docs (users w).
Proof.
  intros Hf Hl. rewrite (Update_users ctx user w Hf).
  unfold lookup_user_by_id in Hl.
  rewrite (update_first_users_none _ _ _ Hl). split; reflexivity.
Qed.

Lemma Update_absent_user_witness :
  fst (UserRepository.Update NewUserRepository ctx_Background
         (User.with_ID mallory_id alice) world_with_alice)
  = Ret (Some ErrNoDocuments)
  /\ docs (users (snd (UserRepository.Update NewUserRepository ctx_Background
                         (User.with_ID mallory_id alice) world_with_alice)))
     = docs (users world_with_alice).
Proof.
  apply (Update_absent_user ctx_Background (User.with_ID mallory_id alice)
           world_with_alice); reflexivity.
Defined.

End UserRepositoryFacts.

(** ** The user use cases *)

Section UserUseCaseFacts.
Import Repository UserUsecases Examples UserExamples.

Lemma InsertOne_users_inv ctx doc w r e :
  fst (mongo.InsertOne users_handle ctx doc w) = Ret (Some r, e) ->
  exists id,
    InsertedID r = any_ObjectID id
    /\ e = None
    /\ docs (users (snd (mongo.InsertOne users_handle ctx doc w)))
       = docs (users w) ++ [User.bson (User.with_ID id doc)].
Proof.
  unfold mongo.InsertOne, bind, mongo.record, mongo.get_fault, mongo.get_docs,
    mongo.put_docs, ret, NewObjectID.
  cbn [coll_get coll_set users_handle users set_users fault docs calls doc_id
       doc_with_id doc_bson User_Document fst snd].
  destruct (fault w) eqn:Hf; [discriminate|].
  destruct (String.eqb (User.ID doc) NilObjectID);
    cbn [coll_get coll_set users_handle users set_users fault docs calls fst snd];
    destruct (mongo.has_id _ _) eqn:Hh; cbn [fst snd]; try discriminate;
    intros H; injection H as <- <-; eexists;
    cbn [InsertedID users set_users docs fault];
    repeat split; reflexivity.
Qed.

(** What a successful [Create] of a user stored: the user it was given, time
    stamps and identifier apart, in its BSON form. *)
Lemma Create_users_inv ctx user w created e :
  fst (UserRepository.Create NewUserRepository ctx user w) = Ret (Some created, e) ->
  e = None
  /\ User.Password created = User.Password user
  /\ User.Email created = User.Email user
  /\ User.Role created = User.Role user
  /\ docs (users (snd (UserRepository.Create NewUserRepository ctx user w)))
     = docs (users w) ++ [User.bson created].
Proof.
  unfold NewUserRepository, UserRepository.Create, userRepository.Create.
  unfold bind. rewrite time_Now_eq. cbv beta iota.
  rewrite time_Now_eq. cbv beta iota.
  pose proof (InsertOne_users_inv ctx
                (User.with_UpdatedAt (now_of (tick w))
                   (User.with_CreatedAt (now_of w) user)) (tick (tick w))) as Hinv.
  destruct (mongo.InsertOne _ _ _ _) as [[[r e']|msg] w1]; [|discriminate].
  cbn [fst snd] in Hinv.
  destruct e' as [e'|]; [discriminate|].
  destruct r as [r|]; [|discriminate].
  destruct (Hinv r None eq_refl) as [id [Hid [_ Hd]]].
  unfold deref, ret. rewrite Hid. cbn [fst snd].
  intros E. injection E as <- <-.
  repeat split; exact Hd.
Qed.

(** [Register] with an email that is already stored returns "user already
    exists": the password is not hashed and nothing is inserted, the
    collection has received the lookup only. *)
Theorem Register_existing_email
  (u : userUseCase) (ctx : Context) (user existing : User.t) (w : World) :
  userRepo u = NewUserRepository ->
  fault w = None ->
  lookup_user (User.Email user) w = Some existing ->
  Register u ctx user w =
  (Ret (None, Some (errors_New "user already exists")),
   logged_users (CallFindOne (by_email (User.Email user))) w).
Proof.
  intros Hr Hf Hl. unfold Register. rewrite Hr.
  unfold bind at 1. rewrite GetByEmail_users by exact Hf.
  rewrite Hl. reflexivity.
Qed.

Lemma Register_existing_email_witness :
  Register mock_userUseCase ctx_Background
    (User.mk NilObjectID "Alice Again" "alice@example.com" "secret1" "admin" 0 0)
    world_with_alice =
  (Ret (None, Some (errors_New "user already exists")),
   logged_users (CallFindOne (by_email "alice@example.com")) world_with_alice).
Proof.
  apply (Register_existing_email mock_userUseCase ctx_Background
           (User.mk NilObjectID "Alice Again" "alice@example.com" "secret1" "admin" 0 0)
           alice world_with_alice); reflexivity.
Defined.

(** [Register] with an email that is not stored hashes the password and
    hands the repository the user with the hash in the place of the
    password: the user created, and the user stored (the created one in its
    BSON form), carry the hash, with the email and the role of the
    request. *)
Theorem Register_stores_the_hash
  (u : userUseCase) (ctx : Context) (user : User.t) (w w1 : World) (h : string) :
  userRepo u = NewUserRepository ->
  fault w = None ->
  lookup_user (User.Email user) w = None ->
  hashPassword u (User.Password user)
    (logged_users (CallFindOne (by_email (User.Email user))) w)
  = (Ret (h, None), w1) ->
  Register u ctx user w
  = UserRepository.Create NewUserRepository ctx (User.with_Password h user) w1
  /\ forall created e,
       fst (Register u ctx user w) = Ret (Some created, e) ->
       User.Password created = h
       /\ User.Email created = User.Email user
       /\ User.Role created = User.Role user
       /\ docs (users (snd (Register u ctx user w)))
          = docs (users w1) ++ [User.bson created]
       /\ User.Password (User.bson created) = h
       /\ User.Email (User.bson created) = User.Email user
       /\ User.Role (User.bson created) = User.Role user.
Proof.
  intros Hr Hf Hl Hh.
  assert (E : Register u ctx user w
              = UserRepository.Create NewUserRepository ctx
                  (User.with_Password h user) w1).
  { unfold Register. rewrite Hr.
    unfold bind at 1. rewrite GetByEmail_users by exact Hf.
    rewrite Hl. cbv beta iota. unfold bind at 1. rewrite Hh. reflexivity. }
  split; [exact E|].
  intros created e. rewrite E. intros H.
  apply Create_users_inv in H. destruct H as [_ [Hp [He [Hro Hd]]]].
  repeat split; assumption.
Qed.

Lemma Register_stores_the_hash_witness :
  Register mock_userUseCase ctx_Background
    (User.mk NilObjectID "Bob" "bob@example.com" "secret1" "user" 0 0) world_with_alice
  = UserRepository.Create NewUserRepository ctx_Background
      (User.with_Password "hashedPassword"
         (User.mk NilObjectID "Bob" "bob@example.com" "secret1" "user" 0 0))
      (logged_users (CallFindOne (by_email "bob@example.com")) world_with_alice)
  /\ forall created e,
       fst (Register mock_userUseCase ctx_Background
              (User.mk NilObjectID "Bob" "bob@example.com" "secret1" "user" 0 0)
              world_with_alice) = Ret (Some created, e) ->
       User.Password created = "hashedPassword"
       /\ User.Email created = "bob@example.com"
       /\ User.Role created = "user"
       /\ docs (users (snd (Register mock_userUseCase ctx_Background
                              (User.mk NilObjectID "Bob" "bob@example.com" "secret1"
                                 "user" 0 0)
                              world_with_alice)))
          = docs (users (logged_users (CallFindOne (by_email "bob@example.com"))
                           world_with_alice)) ++ [User.bson created]
       /\ User.Password (User.bson created) = "hashedPassword"
       /\ User.Email (User.bson created) = "bob@example.com"
       /\ User.Role (User.bson created) = "user".
Proof.
  apply (Register_stores_the_hash mock_userUseCase ctx_Background
           (User.mk NilObjectID "Bob" "bob@example.com" "secret1" "user" 0 0)
           world_with_alice
           (logged_users (CallFindOne (by_email "bob@example.com")) world_with_alice)
           "hashedPassword"); reflexivity.
Defined.

(** [Login] with a stored email: a password that does not match the stored
    hash gives "invalid credentials" with an empty token, and no token is
    generated; a matching password gives the stored user and the token that
    the generator returns for the hexadecimal form of the user's identifier
    and the user's role. *)
Theorem Login_known_email_checks_password
  (u : userUseCase) (ctx : Context) (email password : string) (x : User.t)
  (w w2 : World) (token : string) :
  userRepo u = NewUserRepository ->
  fault w = None ->
  lookup_user email w = Some x ->
  generateToken u (Hex (User.ID x)) (User.Role x)
    (logged_users (CallFindOne (by_email email)) w)
  = (Ret (token, None), w2) ->
  Login u ctx email password w =
  (if comparePasswords u (User.Password x) password
   then (Ret (Some x, token, None), w2)
   else (Ret (None, "", Some (errors_New "invalid credentials")),
         logged_users (CallFindOne (by_email email)) w)).
Proof.
  intros Hr Hf Hl Hg. unfold Login. rewrite Hr.
  unfold bind at 1. rewrite GetByEmail_users by exact Hf.
  rewrite Hl. cbv beta iota. unfold bind, deref, ret.
  destruct (comparePasswords u (User.Password x) password); cbn [negb]; [|reflexivity].
  now rewrite Hg.
Qed.

Lemma Login_known_email_checks_password_witness :
  Login mock_userUseCase ctx_Background "alice@example.com" "secret1" world_with_alice =
  (if comparePasswords mock_userUseCase (User.Password alice) "secret1"
   then (Ret (Some alice, "mockToken", None),
         logged_users (CallFindOne (by_email "alice@example.com")) world_with_alice)
   else (Ret (None, "", Some (errors_New "invalid credentials")),
         logged_users (CallFindOne (by_email "alice@example.com")) world_with_alice)).
Proof.
  apply (Login_known_email_checks_password mock_userUseCase ctx_Background
           "alice@example.com" "secret1" alice world_with_alice
           (logged_users (CallFindOne (by_email "alice@example.com")) world_with_alice)
           "mockToken"); reflexivity.
Defined.

Lemma lookup_user_by_id_ID id w d : lookup_user_by_id id w = Some d -> User.ID d = id.
Proof.
  unfold lookup_user_by_id. intros H. apply List.find_some in H.
  now apply String.eqb_eq.
Qed.

(** [UpdateUser] with an empty password skips the hashing and hands the
    user to the repository as it is; the update replaces the whole stored
    user by the BSON form of the incoming one, so the stored password hash
    is replaced by the empty string. *)
Theorem UpdateUser_empty_password_erases_hash
  (u : userUseCase) (ctx : Context) (user existing : User.t) (w : World) :
  userRepo u = NewUserRepository ->
  fault w = None ->
  lookup_user_by_id (User.ID user) w = Some existing ->
  User.Password user = "" ->
  fst (UpdateUser u ctx user w) = Ret None
  /\ lookup_user_by_id (User.ID user) (snd (UpdateUser u ctx user w))
     = Some (User.bson (User.with_UpdatedAt (now_of w) user))
  /\ User.Password (User.bson (User.with_UpdatedAt (now_of w) user)) = "".
Proof.
  intros Hr Hf Hl Hp. unfold UpdateUser. rewrite Hp, Hr. cbn [String.eqb negb].
  rewrite (Update_users ctx user w Hf).
  destruct (update_first_users_some
              (fun d => User.with_ID (User.ID d)
                          (User.bson (User.with_UpdatedAt (now_of w) user)))
              (User.ID user) (docs (users w)) existing (fun x => eq_refl) Hl)
    as [ds' [-> Hfind]].
  cbn [fst snd]. split; [reflexivity|]. split.
  - unfold lookup_user_by_id. cbn [users set_users docs]. rewrite Hfind.
    rewrite (lookup_user_by_id_ID _ _ _ Hl). now destruct user.
  - cbn. exact Hp.
Qed.

Lemma UpdateUser_empty_password_erases_hash_witness :
  fst (UpdateUser mock_userUseCase ctx_Background
         (User.mk alice_id "Alice B." "alice@example.com" "" "user" 0 0)
         world_with_alice) = Ret None
  /\ lookup_user_by_id
       (User.ID (User.mk alice_id "Alice B." "alice@example.com" "" "user" 0 0))
       (snd (UpdateUser mock_userUseCase ctx_Background
               (User.mk alice_id "Alice B." "alice@example.com" "" "user" 0 0)
               world_with_alice))
     = Some (User.bson
               (User.with_UpdatedAt (now_of world_with_alice)
                  (User.mk alice_id "Alice B." "alice@example.com" "" "user" 0 0)))
  /\ User.Password
       (User.bson
          (User.with_UpdatedAt (now_of world_with_alice)
             (User.mk alice_id "Alice B." "alice@example.com" "" "user" 0 0))) = "".
Proof.
  apply (UpdateUser_empty_password_erases_hash mock_userUseCase ctx_Background
           (User.mk alice_id "Alice B." "alice@example.com" "" "user" 0 0)
           alice world_with_alice); reflexivity.
Defined.

End UserUseCaseFacts.

(** ** The authentication gate *)

Section AuthMiddlewareFacts.
Import gin Middleware.

(** Without a bearer token the authentication gate answers 401 and stops
    the chain: when the Authorization header is missing or empty the message
    is "authorization header is required"; when it is not the word Bearer,
    one space and a token without a space, the message is "invalid
    authorization header format". The token validator is not called, nothing
    is attached to the context and no later handler runs. *)
Theorem AuthMiddleware_requires_bearer_header
  (validateToken : string -> Go (option Claims * error))
  (rest : list HandlerFunc) (r : http.Request) (w : World) :
  GetHeader (new_context r) "Authorization" = ""
  \/ List.length (strings.Split (GetHeader (new_context r) "Authorization") " ") <> 2%nat
  \/ List.nth 0 (strings.Split (GetHeader (new_context r) "Authorization") " ") ""
     <> "Bearer" ->
  ServeHTTP (AuthMiddleware validateToken :: rest) r w =
  (Ret (Abort
          (JSON http.StatusUnauthorized
             (H [("error",
                  if String.eqb (GetHeader (new_context r) "Authorization") ""
                  then "authorization header is required"
                  else "invalid authorization header format")])
             (new_context r))),
   w).
Proof.
  intros Hh. unfold ServeHTTP. cbn [Next]. unfold bind at 1.
  unfold AuthMiddleware.
  destruct (String.eqb (GetHeader (new_context r) "Authorization") "") eqn:He;
    [reflexivity|].
  destruct Hh as [Hh|[Hh|Hh]].
  - rewrite Hh in He. discriminate.
  - apply Nat.eqb_neq in Hh. rewrite Hh. reflexivity.
  - apply String.eqb_neq in Hh. rewrite Hh. now rewrite orb_true_r.
Qed.

Lemma AuthMiddleware_requires_bearer_header_witness :
  ServeHTTP (AuthMiddleware (JwtService.ValidateToken "mock_secret")
               :: [AdminMiddleware])
    (http.mkRequest {[ "Authorization" := ["Token abc"] ]} ∅ "") Examples.empty_world =
  (Ret (Abort
          (JSON http.StatusUnauthorized
             (H [("error",
                  if String.eqb
                       (GetHeader
                          (new_context
                             (http.mkRequest {[ "Authorization" := ["Token abc"] ]} ∅ ""))
                          "Authorization") ""
                  then "authorization header is required"
                  else "invalid authorization header format")])
             (new_context (http.mkRequest {[ "Authorization" := ["Token abc"] ]} ∅ "")))),
   Examples.empty_world).
Proof.
  apply (AuthMiddleware_requires_bearer_header
           (JwtService.ValidateToken "mock_secret") [AdminMiddleware]
           (http.mkRequest {[ "Authorization" := ["Token abc"] ]} ∅ "")
           Examples.empty_world).
  right. right. vm_compute. discriminate.
Defined.

(** A bearer token that the validator rejects gives 401 "invalid token":
    the chain stops, and the context carries no claims. *)
Theorem AuthMiddleware_rejects_invalid_token
  (validateToken : string -> Go (option Claims * error))
  (rest : list HandlerFunc) (r : http.Request) (token : string)
  (claims : option Claims) (e : error_value) (w w1 : World) :
  strings.Split (GetHeader (new_context r) "Authorization") " " = ["Bearer"; token] ->
  validateToken token w = (Ret (claims, Some e), w1) ->
  ServeHTTP (AuthMiddleware validateToken :: rest) r w =
  (Ret (Abort (JSON http.StatusUnauthorized (H [("error", "invalid token")])
                 (new_context r))),
   w1)
  /\ Keys (Abort (JSON http.StatusUnauthorized (H [("error", "invalid token")])
                    (new_context r))) !! "claims" = None.
Proof.
  intros Hs Hv. split; [|reflexivity].
  unfold ServeHTTP. cbn [Next]. unfold bind at 1. unfold AuthMiddleware.
  destruct (String.eqb_spec (GetHeader (new_context r) "Authorization") "") as [He|_].
  - rewrite He in Hs. discriminate.
  - rewrite Hs. cbn [List.length Nat.eqb negb orb List.nth].
    rewrite String.eqb_refl. cbn [negb].
    unfold bind. now rewrite Hv.
Qed.

Lemma AuthMiddleware_rejects_invalid_token_witness :
  ServeHTTP (AuthMiddleware (fun _ => ret (None, Some (errors_New "invalid token")))
               :: [AdminMiddleware])
    (RequestExamples.bearer "abc" "") Examples.empty_world =
  (Ret (Abort (JSON http.StatusUnauthorized (H [("error", "invalid token")])
                 (new_context (RequestExamples.bearer "abc" "")))),
   Examples.empty_world)
  /\ Keys (Abort (JSON http.StatusUnauthorized (H [("error", "invalid token")])
                    (new_context (RequestExamples.bearer "abc" "")))) !! "claims" = None.
Proof.
  apply (AuthMiddleware_rejects_invalid_token
           (fun _ => ret (None, Some (errors_New "invalid token"))) [AdminMiddleware]
           (RequestExamples.bearer "abc" "") "abc" None (errors_New "invalid token")
           Examples.empty_world Examples.empty_world).
  - vm_compute. reflexivity.
  - reflexivity.
Defined.

(** The role gate [RequireRole] behind the authentication gate: the
    authentication gate attaches the claims only, so the role that
    [RequireRole] reads is the empty string, and every authenticated request
    is answered 403 "Insufficient permissions" unless the empty string is one
    of the allowed roles. The handler after the gates does not run. *)
Theorem RequireRole_rejects_authenticated
  (validateToken : string -> Go (option Claims * error))
  (roles : list string) (handler : HandlerFunc) (r : http.Request) (token : string)
  (claims : Claims) (w w1 : World) :
  strings.Split (GetHeader (new_context r) "Authorization") " " = ["Bearer"; token] ->
  validateToken token w = (Ret (Some claims, None), w1) ->
  ~ In "" roles ->
  ServeHTTP [AuthMiddleware validateToken; RequireRole roles; handler] r w =
  (Ret (Abort (JSON http.StatusForbidden (H [("error", "Insufficient permissions")])
                 (Set_ "claims" (any_Claims (Some claims)) (new_context r)))),
   w1).
Proof.
  intros Hs Hv Hn.
  unfold ServeHTTP. cbn [Next]. unfold bind at 1.
  rewrite (AuthMiddleware_passes _ _ _ _ _ _ _ Hs Hv).
  cbn [Next]. unfold bind at 2.
  unfold RequireRole, GetString, Get. rewrite authenticated_keys.
  assert (E : existsb (fun role => String.eqb role "") roles = false).
  { induction roles as [|x roles IH]; [reflexivity|].
    cbn [existsb]. apply orb_false_iff. split.
    - apply String.eqb_neq. intros ->. apply Hn. now left.
    - apply IH. intros Hin. apply Hn. now right. }
  change (({[ "claims" := any_Claims (Some claims) ]} : gmap string any) !! "role")
    with (@None any).
  cbv beta iota. rewrite E. reflexivity.
Qed.

Lemma RequireRole_rejects_authenticated_witness :
  ServeHTTP [AuthMiddleware (JwtService.ValidateToken "mock_secret");
             RequireRole ["admin"; "user"];
             Controllers.GetAllTasks main.taskUseCase]
    (RequestExamples.bearer RequestExamples.admin_token "")
    RequestExamples.after_issue =
  (Ret (Abort (JSON http.StatusForbidden (H [("error", "Insufficient permissions")])
                 (Set_ "claims" (any_Claims (Some RequestExamples.admin_claims))
                    (new_context
                       (RequestExamples.bearer RequestExamples.admin_token ""))))),
   RequestExamples.after_validation).
Proof.
  apply (RequireRole_rejects_authenticated
           (JwtService.ValidateToken "mock_secret") ["admin"; "user"]
           (Controllers.GetAllTasks main.taskUseCase)
           (RequestExamples.bearer RequestExamples.admin_token "")
           RequestExamples.admin_token RequestExamples.admin_claims
           RequestExamples.after_issue RequestExamples.after_validation).
  - vm_compute. reflexivity.
  - exact admin_token_validates.
  - intros [H|[H|[]]]; discriminate.
Defined.

End AuthMiddlewareFacts.

(** ** The task handlers and the wiring of [main] *)

Section HandlerFacts.
Import gin Middleware Repository Examples.

Lemma ObjectIDFromHex_length (s : string) :
  String.length s <> 24%nat -> ObjectIDFromHex s = (NilObjectID, Some ErrInvalidHex).
Proof.
  intros H. unfold ObjectIDFromHex. apply Nat.eqb_neq in H. now rewrite H.
Qed.

(** A path parameter that is not 24 characters long is no task identifier:
    [GetTaskByID] and [DeleteTask] answer 400 "Invalid task ID" without
    calling the use case, whatever the use case is. *)
Theorem task_handlers_reject_malformed_id
  (taskUseCase : TaskUseCase.t) (next : Context -> Go Context) (c : Context) (w : World) :
  String.length (Param c "id") <> 24%nat ->
  TaskControllerImpl.GetTaskByID taskUseCase next c w
  = (Ret (JSON http.StatusBadRequest (APIResponse "Invalid task ID" no_data) c), w)
  /\ TaskControllerImpl.DeleteTask taskUseCase next c w
     = (Ret (JSON http.StatusBadRequest (APIResponse "Invalid task ID" no_data) c), w).
Proof.
  intros H. unfold TaskControllerImpl.GetTaskByID, TaskControllerImpl.DeleteTask.
  rewrite (ObjectIDFromHex_length _ H). split; reflexivity.
Qed.

Lemma task_handlers_reject_malformed_id_witness :
  TaskControllerImpl.GetTaskByID main.taskUseCase (fun c => ret c)
    (new_context (http.mkRequest ∅ {[ "id" := "42" ]} "")) empty_world
  = (Ret (JSON http.StatusBadRequest (APIResponse "Invalid task ID" no_data)
            (new_context (http.mkRequest ∅ {[ "id" := "42" ]} ""))),
     empty_world)
  /\ TaskControllerImpl.DeleteTask main.taskUseCase (fun c => ret c)
       (new_context (http.mkRequest ∅ {[ "id" := "42" ]} "")) empty_world
     = (Ret (JSON http.StatusBadRequest (APIResponse "Invalid task ID" no_data)
               (new_context (http.mkRequest ∅ {[ "id" := "42" ]} ""))),
        empty_world).
Proof.
  apply (task_handlers_reject_malformed_id main.taskUseCase (fun c => ret c)
           (new_context (http.mkRequest ∅ {[ "id" := "42" ]} "")) empty_world).
  vm_compute. discriminate.
Defined.

(** [GetTaskByID] for a well-formed identifier that no stored task has:
    the repository reports absence as a nil task with a nil error, and the
    handler answers 200 "Task retrieved successfully" with no task, not
    404. *)
Theorem GetTaskByID_absent_answers_200
  (next : Context -> Go Context) (c : Context) (id : ObjectID) (w : World) :
  fault w = None ->
  ObjectIDFromHex (Param c "id") = (id, None) ->
  lookup_task id w = None ->
  fst (TaskControllerImpl.GetTaskByID main.taskUseCase next c w)
  = Ret (JSON http.StatusOK
           (APIResponse "Task retrieved successfully" (data_task None)) c).
Proof.
  intros Hf Hid Hl. unfold TaskControllerImpl.GetTaskByID. rewrite Hid.
  unfold bind, main.taskUseCase, NewTaskUseCase.
  cbn [TaskUseCase.GetTaskByID]. unfold Usecases.taskUseCase.GetTaskByID.
  rewrite GetByID_tasks by exact Hf. now rewrite Hl.
Qed.

Lemma GetTaskByID_absent_answers_200_witness :
  fst (TaskControllerImpl.GetTaskByID main.taskUseCase (fun c => ret c)
         (new_context
            (http.mkRequest ∅ {[ "id" := "507f1f77bcf86cd799439011" ]} ""))
         empty_world)
  = Ret (JSON http.StatusOK
           (APIResponse "Task retrieved successfully" (data_task None))
           (new_context
              (http.mkRequest ∅ {[ "id" := "507f1f77bcf86cd799439011" ]} ""))).
Proof.
  apply (GetTaskByID_absent_answers_200 (fun c => ret c)
           (new_context
              (http.mkRequest ∅ {[ "id" := "507f1f77bcf86cd799439011" ]} ""))
           task_id empty_world).
  - reflexivity.
  - vm_compute. reflexivity.
  - reflexivity.
Defined.

(** [DeleteTask] for a well-formed identifier that no stored task has
    answers 400 with the driver's message "mongo: no documents in result";
    for a stored task it answers 200 and one document fewer is stored. *)
Theorem DeleteTask_handler_reports_absence
  (next : Context -> Go Context) (c : Context) (id : ObjectID) (w : World) :
  fault w = None ->
  ObjectIDFromHex (Param c "id") = (id, None) ->
  (lookup_task id w = None ->
   fst (TaskControllerImpl.DeleteTask main.taskUseCase next c w)
   = Ret (JSON http.StatusBadRequest
            (APIResponse "mongo: no documents in result" no_data) c))
  /\ (forall d, lookup_task id w = Some d ->
      fst (TaskControllerImpl.DeleteTask main.taskUseCase next c w)
      = Ret (JSON http.StatusOK (APIResponse "Task deleted successfully" no_data) c)
      /\ S (List.length
              (docs (tasks (snd (TaskControllerImpl.DeleteTask main.taskUseCase
                                   next c w)))))
         = List.length (docs (tasks w))).
Proof.
  intros Hf Hid. unfold TaskControllerImpl.DeleteTask. rewrite Hid.
  unfold bind, main.taskUseCase, NewTaskUseCase.
  cbn [TaskUseCase.DeleteTask]. unfold Usecases.taskUseCase.DeleteTask.
  rewrite (Delete_tasks ctx_Background id w Hf). unfold lookup_task. split.
  - intros Hl. now rewrite (delete_first_none id _ Hl).
  - intros d Hl. destruct (delete_first_some id _ d Hl) as [ds' [-> [Hlen _]]].
    split; [reflexivity|exact Hlen].
Qed.

Lemma DeleteTask_handler_reports_absence_witness :
  (lookup_task task_id empty_world = None ->
   fst (TaskControllerImpl.DeleteTask main.taskUseCase (fun c => ret c)
          (new_context
             (http.mkRequest ∅ {[ "id" := "507f1f77bcf86cd799439011" ]} ""))
          empty_world)
   = Ret (JSON http.StatusBadRequest
            (APIResponse "mongo: no documents in result" no_data)
            (new_context
               (http.mkRequest ∅ {[ "id" := "507f1f77bcf86cd799439011" ]} ""))))
  /\ (forall d, lookup_task task_id empty_world = Some d ->
      fst (TaskControllerImpl.DeleteTask main.taskUseCase (fun c => ret c)
             (new_context
                (http.mkRequest ∅ {[ "id" := "507f1f77bcf86cd799439011" ]} ""))
             empty_world)
      = Ret (JSON http.StatusOK (APIResponse "Task deleted successfully" no_data)
               (new_context
                  (http.mkRequest ∅ {[ "id" := "507f1f77bcf86cd799439011" ]} "")))
      /\ S (List.length
              (docs (tasks (snd (TaskControllerImpl.DeleteTask main.taskUseCase
                                   (fun c => ret c)
                                   (new_context
                                      (http.mkRequest ∅
                                         {[ "id" := "507f1f77bcf86cd799439011" ]} ""))
                                   empty_world)))))
         = List.length (docs (tasks empty_world))).
Proof.
  apply (DeleteTask_handler_reports_absence (fun c => ret c)
           (new_context
              (http.mkRequest ∅ {[ "id" := "507f1f77bcf86cd799439011" ]} ""))
           task_id empty_world).
  - reflexivity.
  - vm_compute. reflexivity.
Defined.

(** The router that [main] sets up has [middleware1] where the
    authentication gate belongs, and [middleware1] attaches nothing: the
    handlers that read the caller's id from the context, [CreateTask] and
    [GetTasksByUserID], answer 401 "unauthorized" to every request, whatever
    its headers and body, and leave the store untouched. *)
Theorem main_user_routes_always_unauthorized
  (ShouldBindJSON : string -> Task.t * error) (r : http.Request) (w : World) :
  ServeHTTP (main.POST_api_tasks ShouldBindJSON) r w
  = (Ret (finish (unauthorized (new_context r))), w)
  /\ ServeHTTP main.GET_api_tasks r w
     = (Ret (finish (unauthorized (new_context r))), w)
  /\ gin.status (finish (unauthorized (new_context r))) = Some 401.
Proof. repeat split. Qed.

(** In the router that [main] sets up the admin listing is open: with
    [middleware1] and [middleware2] in the place of the two gates, every
    request to the admin route, with or without an Authorization header, is
    answered 200 with all the stored tasks. *)
Theorem main_admin_route_is_open (r : http.Request) (w : World) :
  fault w = None ->
  fst (ServeHTTP main.GET_api_admin_tasks r w)
  = Ret (finish
           (JSON http.StatusOK
              (APIResponse "Tasks retrieved successfully" (data_tasks (docs (tasks w))))
              (new_context r))).
Proof.
  intros Hf.
  unfold ServeHTTP, main.GET_api_admin_tasks, Routers.GET_api_admin_tasks,
    main.middleware1, main.middleware2.
  cbn [Next].
  unfold Controllers.GetAllTasks, main.taskUseCase, NewTaskUseCase.
  cbn [TaskUseCase.GetAllTasks]. unfold Usecases.taskUseCase.GetAllTasks.
  cbv [bind ret].
  rewrite (GetAll_tasks ctx_Background w Hf). reflexivity.
Qed.

Lemma main_admin_route_is_open_witness :
  fst (ServeHTTP main.GET_api_admin_tasks (http.mkRequest ∅ ∅ "")
         (world_with_task "pending"))
  = Ret (finish
           (JSON http.StatusOK
              (APIResponse "Tasks retrieved successfully"
                 (data_tasks (docs (tasks (world_with_task "pending")))))
              (new_context (http.mkRequest ∅ ∅ "")))).
Proof.
  apply (main_admin_route_is_open (http.mkRequest ∅ ∅ "") (world_with_task "pending")).
  reflexivity.
Defined.

End HandlerFacts.

(** ** The token service *)

Section TokenServiceFacts.
Import JwtService.

Lemma hmac_method_facts (name : string) (h : sha2.Params) :
  In (name, h) hmac_methods ->
  jwt.UnmarshalHeader (jwt.MarshalHeader name)
  = Some [("alg", json.Str name); ("typ", json.Str "JWT")]
  /\ jwt.GetSigningMethod name = Some (jwt.SigningMethodHMAC name h).
Proof.
  intros [E|[E|[E|[]]]]; injection E as <- <-; split; vm_compute; reflexivity.
Qed.

(** A token signed with a registered HMAC method under a key, parsed under
    that key: the claims come back, and the token is valid exactly when the
    claims are inside their validity window. *)
Lemma ParseWithClaims_hmac_signed
  (name : string) (h : sha2.Params) (claims : Claims) (key : string) (w : World) :
  In (name, h) hmac_methods ->
  jwt.DecodeClaims (jwt.MarshalClaims claims) jwt.zero_claims = Some claims ->
  exists token,
    jwt.ParseWithClaims
      (fst (jwt.SignedString (jwt.SigningMethodHMAC name h) claims key))
      jwt.zero_claims (fun _ => (key, None)) w
    = (Ret (Some token,
            if snd (jwt.claims_Valid claims (Unix (now_of w))) =? 0 then None
            else Some (ValidationError
                         (fst (jwt.claims_Valid claims (Unix (now_of w))))
                         (snd (jwt.claims_Valid claims (Unix (now_of w)))))),
       tick w)
    /\ jwt.Valid token = (snd (jwt.claims_Valid claims (Unix (now_of w))) =? 0)
    /\ jwt.TokenClaims token = claims.
Proof.
  intros Hm Hdec. destruct (hmac_method_facts name h Hm) as [Hu Hg].
  set (hseg := jwt.EncodeSegment (jwt.MarshalHeader name)).
  set (pseg := jwt.EncodeSegment (jwt.MarshalClaims claims)).
  set (sstr := (hseg ++ String "."%char pseg)%string).
  set (sig := jwt.EncodeSegment (jwt.mac h key sstr)).
  assert (Ht : fst (jwt.SignedString (jwt.SigningMethodHMAC name h) claims key)
               = (sstr ++ String "."%char sig)%string) by reflexivity.
  rewrite Ht.
  assert (Hs : strings.Split sstr "."%char = [hseg; pseg]).
  { unfold sstr. rewrite Split_app_sep.
    unfold hseg, pseg. now rewrite !Split_free by apply free_of_EncodeSegment. }
  assert (Hparts : strings.Split (sstr ++ String "."%char sig) "."%char
                   = [hseg; pseg; sig]).
  { rewrite Split_app_sep, Hs. unfold sig.
    now rewrite Split_free by apply free_of_EncodeSegment. }
  assert (Hj : strings.Join [hseg; pseg] "." = sstr) by reflexivity.
  unfold jwt.ParseWithClaims, jwt.ParseUnverified.
  rewrite Hparts. cbn [List.length Nat.eqb negb List.nth].
  unfold hseg at 1. rewrite DecodeSegment_EncodeSegment, Hu.
  unfold pseg at 1. rewrite DecodeSegment_EncodeSegment, Hdec.
  change (jwt.header_get "alg" [("alg", json.Str name); ("typ", json.Str "JWT")])
    with (Some (json.Str name)).
  cbv iota beta. rewrite Hg. cbv iota beta.
  unfold bind at 1. cbn [deref ret].
  unfold bind at 1. rewrite time_Now_eq.
  cbn [jwt.TokenClaims jwt.Method jwt.Raw jwt.Header].
  unfold bind at 1. cbn [deref ret].
  cbn [List.firstn]. rewrite ?List.firstn_O. rewrite Hj.
  cbn [List.nth].
  assert (Hver : jwt.Verify (jwt.SigningMethodHMAC name h) sstr sig key = None).
  { unfold jwt.Verify, sig. rewrite DecodeSegment_EncodeSegment.
    unfold hmac.Equal. now rewrite String.eqb_refl. }
  rewrite !Hver.
  destruct (snd (jwt.claims_Valid claims (Unix (now_of w))) =? 0) eqn:Ev.
  - eexists. split; [reflexivity|]. split; reflexivity.
  - eexists. split; [reflexivity|]. split; reflexivity.
Qed.

(** [ValidateToken] on what [ParseWithClaims] returned. *)
Lemma ValidateToken_of_parse (jwtSecret t : string) (w w1 : World) tok err :
  jwt.ParseWithClaims t jwt.zero_claims (fun _ => (jwtSecret, None)) w
  = (Ret (Some tok, err), w1) ->
  ValidateToken jwtSecret t w =
  match err with
  | Some e => (Ret (None, Some e), w1)
  | None =>
      if jwt.Valid tok then (Ret (Some (jwt.TokenClaims tok), None), w1)
      else (Ret (None, Some (errors_New "invalid token")), w1)
  end.
Proof.
  intros H. unfold ValidateToken, bind. rewrite H.
  destruct err; [reflexivity|]. cbn [deref ret].
  destruct (jwt.Valid tok); reflexivity.
Qed.

Lemma Unix_Add_24h (t : Time) : Unix (Add t (24 * Hour)) = Unix t + 86400.
Proof.
  unfold Unix, Add, Hour, Second.
  replace (t + 24 * (3600 * 1000000000)) with (t + 86400 * 1000000000) by lia.
  now rewrite Z.div_add by lia.
Qed.

(** An expired token is rejected: a token issued for a valid UTF-8 id and
    role, validated under the same secret at an instant whose second is
    after the expiry, gives the error "token is expired" or, when the
    clock reads before the issue as well, "Token used before issued"; no
    claims are returned. (An expiry of zero seconds is no expiry for the
    library, hence the hypothesis that it is not zero.) *)
Theorem ValidateToken_rejects_expired
  (jwtSecret userID role : string) (w w' : World) :
  utf8.ValidString userID = true ->
  utf8.ValidString role = true ->
  int64 (Unix (Add (now_of w) (24 * Hour))) ->
  int64 (Unix (now_of (tick w))) ->
  Unix (Add (now_of w) (24 * Hour)) <> 0 ->
  Unix (Add (now_of w) (24 * Hour)) < Unix (now_of w') ->
  exists msg flags,
    ValidateToken jwtSecret
      (issued_token (GenerateToken jwtSecret userID role w)) w'
    = (Ret (None, Some (ValidationError msg flags)), tick w')
    /\ Z.land flags jwt.ValidationErrorExpired = jwt.ValidationErrorExpired.
Proof.
  intros Hu Hr He Hi Hz Hlt.
  rewrite GenerateToken_eq. unfold issued_token. cbn [fst].
  set (claims := issued_claims userID role
                   (Unix (Add (now_of w) (24 * Hour))) (Unix (now_of (tick w)))).
  assert (Hdec : jwt.DecodeClaims (jwt.MarshalClaims claims) jwt.zero_claims = Some claims)
    by now apply DecodeClaims_MarshalClaims.
  destruct (ParseWithClaims_hmac_signed "HS256" sha2.SHA256 claims jwtSecret w'
              (or_introl eq_refl) Hdec) as [tok [Hp [Hv Hc]]].
  change (jwt.SigningMethodHMAC "HS256" sha2.SHA256) with jwt.SigningMethodHS256 in Hp.
  assert (Hflags : Z.land (snd (jwt.claims_Valid claims (Unix (now_of w'))))
                     jwt.ValidationErrorExpired = jwt.ValidationErrorExpired
                   /\ (snd (jwt.claims_Valid claims (Unix (now_of w'))) =? 0) = false).
  { unfold jwt.claims_Valid, claims, issued_claims.
    cbn [ExpiresAt IssuedAt NotBefore].
    assert (E1 : (Unix (Add (now_of w) (24 * Hour)) =? 0)
                 || (Unix (now_of w') <=? Unix (Add (now_of w) (24 * Hour))) = false)
      by lia.
    rewrite E1. cbn [Z.eqb orb].
    destruct ((Unix (now_of (tick w)) =? 0)
              || (Unix (now_of (tick w)) <=? Unix (now_of w'))); split; reflexivity. }
  destruct Hflags as [Hfl Hne].
  rewrite SignedString_eq in *. cbn [fst] in *.
  rewrite (ValidateToken_of_parse _ _ _ _ _ _ Hp). rewrite Hne.
  eexists _, _. split; [reflexivity|exact Hfl].
Qed.

Lemma ValidateToken_rejects_expired_witness :
  exists msg flags,
    ValidateToken "mock_secret"
      (issued_token (GenerateToken "mock_secret" "12345" "user" Examples.empty_world))
      (mkWorld (fun n => Examples.example_clock n + 25 * Hour) 0 Examples.example_ids 0
               None (mkCollection [] []) (mkCollection [] []))
    = (Ret (None, Some (ValidationError msg flags)),
       tick (mkWorld (fun n => Examples.example_clock n + 25 * Hour) 0
                     Examples.example_ids 0 None (mkCollection [] [])
                     (mkCollection [] [])))
    /\ Z.land flags jwt.ValidationErrorExpired = jwt.ValidationErrorExpired.
Proof.
  apply (ValidateToken_rejects_expired "mock_secret" "12345" "user"
           Examples.empty_world
           (mkWorld (fun n => Examples.example_clock n + 25 * Hour) 0
                    Examples.example_ids 0 None (mkCollection [] [])
                    (mkCollection [] []))).
  - reflexivity.
  - reflexivity.
  - split; [apply Z.leb_le | apply Z.ltb_lt]; vm_compute; reflexivity.
  - split; [apply Z.leb_le | apply Z.ltb_lt]; vm_compute; reflexivity.
  - vm_compute. discriminate.
  - apply Z.ltb_lt. vm_compute. reflexivity.
Defined.

(** A string that does not have exactly three segments between dots is
    rejected as malformed, without the clock being read. *)
Theorem ValidateToken_rejects_wrong_segment_count
  (jwtSecret tokenString : string) (w : World) :
  List.length (strings.Split tokenString "."%char) <> 3%nat ->
  ValidateToken jwtSecret tokenString w =
  (Ret (None,
        Some (ValidationError "token contains an invalid number of segments"
                jwt.ValidationErrorMalformed)),
   w).
Proof.
  intros H. apply Nat.eqb_neq in H.
  unfold ValidateToken, jwt.ParseWithClaims, jwt.ParseUnverified.
  rewrite H. reflexivity.
Qed.

Lemma ValidateToken_rejects_wrong_segment_count_witness :
  ValidateToken "mock_secret" "invalid.token" Examples.empty_world =
  (Ret (None,
        Some (ValidationError "token contains an invalid number of segments"
                jwt.ValidationErrorMalformed)),
   Examples.empty_world).
Proof.
  apply (ValidateToken_rejects_wrong_segment_count "mock_secret" "invalid.token"
           Examples.empty_world).
  vm_compute. discriminate.
Defined.

(** What [GenerateToken] returns: it never fails and reads the clock twice;
    the token has three segments, the fixed header of HS256, the claims with
    the expiry 86400 seconds after the second of the first clock reading and
    the issue time at the second of the second reading, and a signature of
    43 characters. *)
Theorem GenerateToken_shape (jwtSecret userID role : string) (w : World) :
  exists token signature,
    GenerateToken jwtSecret userID role w = (Ret (token, None), tick (tick w))
    /\ strings.Split token "."%char
       = ["eyJhbGciOiJIUzI1NiIsInR5cCI6IkpXVCJ9";
          jwt.EncodeSegment
            (jwt.MarshalClaims
               (issued_claims userID role
                  (Unix (now_of w) + 86400) (Unix (now_of (tick w)))));
          signature]
    /\ String.length signature = 43%nat.
Proof.
  rewrite GenerateToken_eq, SignedString_eq, Unix_Add_24h.
  set (claims := issued_claims userID role _ _).
  set (sstr := jwt.SigningString jwt.SigningMethodHS256 claims).
  eexists _, (jwt.EncodeSegment (jwt.mac sha2.SHA256 jwtSecret sstr)).
  split; [reflexivity|]. split.
  - change ("." ++ jwt.EncodeSegment (jwt.mac sha2.SHA256 jwtSecret sstr))%string
      with (String "."%char (jwt.EncodeSegment (jwt.mac sha2.SHA256 jwtSecret sstr))).
    rewrite Split_app_sep. unfold sstr. rewrite Split_SigningString.
    rewrite Split_free by apply free_of_EncodeSegment. reflexivity.
  - rewrite EncodeSegment_enc, length_enc.
    apply length_sextets_32, length_mac_SHA256.
Qed.

(** A token issued under one secret is rejected under another, unless the
    two secrets give the signed part the same MAC. *)
Theorem ValidateToken_rejects_other_secret
  (jwtSecret other userID role : string) (w w' : World) :
  jwt.mac sha2.SHA256 other
    (signing_part (issued_token (GenerateToken jwtSecret userID role w)))
  <> jwt.mac sha2.SHA256 jwtSecret
       (signing_part (issued_token (GenerateToken jwtSecret userID role w))) ->
  exists e w'',
    ValidateToken other (issued_token (GenerateToken jwtSecret userID role w)) w'
    = (Ret (None, Some e), w'').
Proof.
  rewrite GenerateToken_eq. unfold issued_token. cbn [fst].
  set (claims := issued_claims userID role _ _).
  rewrite SignedString_eq. cbn [fst].
  set (sstr := jwt.SigningString jwt.SigningMethodHS256 claims).
  set (sig := jwt.EncodeSegment (jwt.mac sha2.SHA256 jwtSecret sstr)).
  change ("." ++ sig)%string with (String "."%char sig).
  assert (Hparts : strings.Split (sstr ++ String "."%char sig) "."%char
                   = [header_segment; jwt.EncodeSegment (jwt.MarshalClaims claims); sig]).
  { rewrite Split_app_sep. unfold sstr. rewrite Split_SigningString.
    unfold sig. rewrite Split_free by apply free_of_EncodeSegment. reflexivity. }
  assert (Hj : signing_part (sstr ++ String "."%char sig) = sstr).
  { unfold signing_part. rewrite Hparts. cbn [List.firstn]. rewrite ?List.firstn_O.
    unfold sstr. rewrite <- (Split_SigningString claims). apply Join_Split. }
  rewrite Hj. intros Hmac.
  apply ValidateToken_rejects.
  intros hdr hm alg m _ E1 E2 E5 E6.
  rewrite Hparts in *. cbn [List.nth] in *. rewrite Hj.
  destruct header_decodes as [Hh Hu].
  rewrite Hh in E1. injection E1 as <-. rewrite Hu in E2. injection E2 as <-.
  injection E5 as <-. injection E6 as <-.
  unfold jwt.Verify, jwt.SigningMethodHS256. unfold sig.
  rewrite DecodeSegment_EncodeSegment. unfold hmac.Equal.
  destruct (String.eqb_spec (jwt.mac sha2.SHA256 jwtSecret sstr)
              (jwt.mac sha2.SHA256 other sstr)) as [E|_]; [|discriminate].
  now destruct Hmac.
Qed.

Lemma ValidateToken_rejects_other_secret_witness :
  exists e w'',
    ValidateToken "wrong_secret"
      (issued_token (GenerateToken "mock_secret" "12345" "user" Examples.empty_world))
      (tick (tick Examples.empty_world))
    = (Ret (None, Some e), w'').
Proof.
  apply (ValidateToken_rejects_other_secret "mock_secret" "wrong_secret" "12345" "user"
           Examples.empty_world (tick (tick Examples.empty_world))).
  vm_compute. discriminate.
Defined.

(** [ValidateToken] does not pin the algorithm: its key function hands the
    secret to whichever method the header names, so a token signed under
    the secret with HS384 or HS512 validates like one signed with HS256,
    which is the only method [GenerateToken] uses. *)
Theorem ValidateToken_accepts_every_hmac_method
  (name : string) (h : sha2.Params) (jwtSecret userID role : string) (exp iat : Z)
  (w : World) :
  In (name, h) hmac_methods ->
  utf8.ValidString userID = true ->
  utf8.ValidString role = true ->
  int64 exp -> int64 iat ->
  (exp = 0 \/ Unix (now_of w) <= exp) ->
  (iat = 0 \/ iat <= Unix (now_of w)) ->
  ValidateToken jwtSecret
    (fst (jwt.SignedString (jwt.SigningMethodHMAC name h)
            (issued_claims userID role exp iat) jwtSecret)) w
  = (Ret (Some (issued_claims userID role exp iat), None), tick w).
Proof.
  intros Hm Hu Hr He Hi Hexp Hiat.
  set (claims := issued_claims userID role exp iat).
  assert (Hdec : jwt.DecodeClaims (jwt.MarshalClaims claims) jwt.zero_claims = Some claims)
    by now apply DecodeClaims_MarshalClaims.
  destruct (ParseWithClaims_hmac_signed name h claims jwtSecret w Hm Hdec)
    as [tok [Hp [Hv Hc]]].
  assert (Hval : snd (jwt.claims_Valid claims (Unix (now_of w))) = 0).
  { unfold jwt.claims_Valid, claims, issued_claims.
    cbn [ExpiresAt IssuedAt NotBefore].
    assert (E1 : (exp =? 0) || (Unix (now_of w) <=? exp) = true) by lia.
    assert (E2 : (iat =? 0) || (iat <=? Unix (now_of w)) = true) by lia.
    rewrite E1, E2. reflexivity. }
  rewrite Hval in Hp, Hv. cbn [Z.eqb] in Hp, Hv.
  rewrite (ValidateToken_of_parse _ _ _ _ _ _ Hp). now rewrite Hv, Hc.
Qed.

Lemma ValidateToken_accepts_every_hmac_method_witness :
  ValidateToken "mock_secret"
    (fst (jwt.SignedString (jwt.SigningMethodHMAC "HS512" sha2.SHA512)
            (issued_claims "12345" "admin" 1700086400 1700000000) "mock_secret"))
    Examples.empty_world
  = (Ret (Some (issued_claims "12345" "admin" 1700086400 1700000000), None),
     tick Examples.empty_world).
Proof.
  apply (ValidateToken_accepts_every_hmac_method "HS512" sha2.SHA512 "mock_secret"
           "12345" "admin" 1700086400 1700000000 Examples.empty_world).
  - right. right. left. reflexivity.
  - reflexivity.
  - reflexivity.
  - split; [apply Z.leb_le | apply Z.ltb_lt]; vm_compute; reflexivity.
  - split; [apply Z.leb_le | apply Z.ltb_lt]; vm_compute; reflexivity.
  - right. apply Z.leb_le. vm_compute. reflexivity.
  - right. apply Z.leb_le. vm_compute. reflexivity.
Defined.

End TokenServiceFacts.

(** ** Requests through the handlers *)

Section RequestFacts.
Import gin Middleware Repository Examples.

(** With the caller's id in the context, as the controller tests set it,
    [GetTasksByUserID] answers 200 with the stored tasks of that owner, all
    of them and no other. *)
Theorem GetTasksByUserID_lists_own_tasks
  (next : Context -> Go Context) (c : Context) (userID : string) (id : ObjectID)
  (w : World) :
  Keys c !! "user_id" = Some (any_string userID) ->
  ObjectIDFromHex userID = (id, None) ->
  fault w = None ->
  fst (TaskControllerImpl.GetTasksByUserID main.taskUseCase next c w)
  = Ret (JSON http.StatusOK
           (APIResponse "Tasks retrieved successfully"
              (data_tasks
                 (List.filter (fun d => String.eqb (Task.UserID d) id)
                    (docs (tasks w)))))
           c).
Proof.
  intros Hk Hid Hf. unfold TaskControllerImpl.GetTasksByUserID, Get.
  rewrite Hk. cbn [negb any_eqb orb]. rewrite Hid.
  unfold bind, main.taskUseCase, NewTaskUseCase.
  cbn [TaskUseCase.GetTasksByUserID]. unfold Usecases.taskUseCase.GetTasksByUserID.
  now rewrite (GetByUserID_tasks ctx_Background id w Hf).
Qed.

Lemma GetTasksByUserID_lists_own_tasks_witness :
  fst (TaskControllerImpl.GetTasksByUserID main.taskUseCase (fun c => ret c)
         (Set_ "user_id" (any_string "64b7f0c2a1d3e4f5a6b7c8d9")
            (new_context (http.mkRequest ∅ ∅ "")))
         (world_with_task "pending"))
  = Ret (JSON http.StatusOK
           (APIResponse "Tasks retrieved successfully"
              (data_tasks
                 (List.filter (fun d => String.eqb (Task.UserID d) alice_id)
                    (docs (tasks (world_with_task "pending"))))))
           (Set_ "user_id" (any_string "64b7f0c2a1d3e4f5a6b7c8d9")
              (new_context (http.mkRequest ∅ ∅ "")))).
Proof.
  apply (GetTasksByUserID_lists_own_tasks (fun c => ret c)
           (Set_ "user_id" (any_string "64b7f0c2a1d3e4f5a6b7c8d9")
              (new_context (http.mkRequest ∅ ∅ "")))
           "64b7f0c2a1d3e4f5a6b7c8d9" alice_id (world_with_task "pending")).
  - reflexivity.
  - vm_compute. reflexivity.
  - reflexivity.
Defined.

(** The [UpdateTask] handler panics on a task that is not stored: when the
    body binds to a task with a title and a due date that is not past, and
    the path names a well-formed identifier that no stored task has, the
    handler, over the use case and the Mongo-backed repository that [main]
    builds, panics with a nil pointer dereference before it writes any
    response, and no document changes. (What the client then receives is
    for whatever recovers the panic to decide, which is outside the
    handler.) *)
Theorem UpdateTask_handler_panics_when_absent
  (ShouldBindJSON : string -> Task.t * error) (next : Context -> Go Context)
  (c : Context) (task : Task.t) (id : ObjectID) (w : World) :
  ShouldBindJSON (http.Body (Request c)) = (task, None) ->
  ObjectIDFromHex (Param c "id") = (id, None) ->
  Task.Title task <> "" ->
  ~ Task.DueDate task < now_of w ->
  fault w = None ->
  lookup_task id w = None ->
  fst (Controllers.UpdateTask ShouldBindJSON main.taskUseCase next c w)
  = Panic nil_dereference
  /\ docs (tasks (snd (Controllers.UpdateTask ShouldBindJSON main.taskUseCase next c w)))
     = docs (tasks w).
Proof.
  intros Hb Hid Ht Hd Hf Hl.
  unfold Controllers.UpdateTask.
  rewrite Hb, Hid.
  unfold main.taskUseCase, NewTaskUseCase. cbn [TaskUseCase.UpdateTask].
  cbv [bind].
  rewrite (UpdateTask_valid NewTaskRepository ctx_Background (Task.with_ID id task) w)
    by (destruct task; assumption).
  rewrite GetByID_tasks by exact Hf.
  change (Task.ID (Task.with_ID id task)) with id.
  change (lookup_task id (tick w)) with (lookup_task id w).
  rewrite Hl. split; reflexivity.
Qed.

Lemma UpdateTask_handler_panics_when_absent_witness :
  fst (Controllers.UpdateTask (fun _ => (update_to "in_progress", None))
         main.taskUseCase (fun c => ret c)
         (new_context
            (http.mkRequest ∅ {[ "id" := "507f1f77bcf86cd799439011" ]} "{}"))
         empty_world)
  = Panic nil_dereference
  /\ docs (tasks (snd (Controllers.UpdateTask
                         (fun _ => (update_to "in_progress", None))
                         main.taskUseCase (fun c => ret c)
                         (new_context
                            (http.mkRequest ∅
                               {[ "id" := "507f1f77bcf86cd799439011" ]} "{}"))
                         empty_world)))
     = docs (tasks empty_world).
Proof.
  apply (UpdateTask_handler_panics_when_absent
           (fun _ => (update_to "in_progress", None)) (fun c => ret c)
           (new_context
              (http.mkRequest ∅ {[ "id" := "507f1f77bcf86cd799439011" ]} "{}"))
           (update_to "in_progress") task_id empty_world).
  - reflexivity.
  - vm_compute. reflexivity.
  - discriminate.
  - vm_compute. discriminate.
  - reflexivity.
  - reflexivity.
Defined.

End RequestFacts.
